(** * ITC match records: a shallow embedding of [main.py]

    The script reconciles the GSTN sheet against the BOOKS sheet of one
    workbook.  This file embeds:
    - [clean_invoice_number] and the per-sheet filtering (lines 109-136);
    - the outer merge on [GSTN] and [InvoiceNumber_clean] (lines 139-149),
      at the level of rows;
    - [categorize_gstn] (lines 185-204) and the assembly of the result
      buckets (lines 207-235), with the lines printed for undated rows as
      the merged table holds their cells;
    - [add_mismatch_flag] (lines 152-178) over a column-oriented table;
    - the column bookkeeping of the NEXT_FY_ITC bucket and of
      [clean_columns] (lines 65-106, 216-227), at the level of column names;
    - [clean_columns] on tables, with the date formatting as a parameter,
      and [save_to_excel] (lines 29-62) over a workbook of sheets of rows. *)

From Stdlib Require Import String Ascii List Bool Arith Lia ZArith QArith.
Import ListNotations.
Open Scope string_scope.

(** ** Key normalizer *)

(** The character class [[a-zA-Z]] of the regular expression. *)
Definition is_ascii_alpha (c : ascii) : bool :=
  let n := nat_of_ascii c in
  (((65 <=? n) && (n <=? 90)) || ((97 <=? n) && (n <=? 122)))%nat.

(** [re.sub(r"[a-zA-Z]", "", s)]: every match of the class is replaced by
    the empty string, scanning left to right. *)
Fixpoint re_sub_alpha (s : string) : string :=
  match s with
  | EmptyString => EmptyString
  | String c s' => if is_ascii_alpha c then re_sub_alpha s' else String c (re_sub_alpha s')
  end.

(** [clean_invoice_number(invoice_str)]: a missing cell ([pd.isna]) gives
    [None]; otherwise [str(invoice_str)] with the letters removed.  The cell
    is taken here already rendered by [str], as a string. *)
Definition clean_invoice_number (invoice_str : option string) : option string :=
  match invoice_str with
  | None => None
  | Some s => Some (re_sub_alpha s)
  end.

(** The key normalizer as the spec words it (section 4.1): keep, in order,
    every character that is not an ASCII letter. *)
Definition spec_normalize (invoice_str : option string) : option string :=
  option_map
    (fun s => string_of_list_ascii
                (filter (fun c => negb (is_ascii_alpha c)) (list_ascii_of_string s)))
    invoice_str.

(** ** Rows of the two sheets *)

(** A row of a sheet as [pd.read_excel] loads it, reduced to the cells the
    reconciliation looks at: the party column [GSTN], [Invoice Number],
    [Invoice Date] (a timestamp, as a number of days) and the row's index
    label, which stands for the rest of the row.  [None] is a missing cell. *)
Record sheet_row := {
  cell_GSTN : option string;
  cell_Invoice_Number : option string;
  cell_Invoice_Date : option Z;
  cell_label : nat
}.

(** A row after the cleaning of lines 118-136: both key cells are present,
    [InvoiceNumber_original] keeps the raw invoice number and
    [InvoiceNumber_clean] holds the normalized one. *)
Record row := {
  GSTN : string;
  InvoiceNumber_original : string;
  InvoiceNumber_clean : string;
  Invoice_Date : option Z;
  row_label : nat
}.

Definition row_eq_dec (a b : row) : {a = b} + {a <> b}.
Proof.
  decide equality;
    first [ apply Nat.eq_dec | apply string_dec
          | decide equality; apply Z.eq_dec ].
Defined.

Definition row_eqb (a b : row) : bool := if row_eq_dec a b then true else false.

Definition in_rows (x : row) (l : list row) : bool := existsb (row_eqb x) l.

(** Lines 118-126 (and 128-136 for BOOKS):
    [.dropna(subset=["GSTN", "Invoice Number"])], then [.assign(...)] of the
    two new columns, then [.dropna(subset=["InvoiceNumber_clean"])]. *)
Definition prepare_row (r : sheet_row) : list row :=
  match cell_GSTN r, cell_Invoice_Number r with
  | Some g, Some inv =>
      match clean_invoice_number (Some inv) with
      | Some k =>
          [ {| GSTN := g; InvoiceNumber_original := inv; InvoiceNumber_clean := k;
               Invoice_Date := cell_Invoice_Date r; row_label := cell_label r |} ]
      | None => []
      end
  | _, _ => []
  end.

Definition prepare (sheet : list sheet_row) : list row := flat_map prepare_row sheet.

(** ** The outer merge of lines 139-146 *)

Definition key_of (r : row) : string * string := (GSTN r, InvoiceNumber_clean r).

Definition key_eqb (k1 k2 : string * string) : bool :=
  String.eqb (fst k1) (fst k2) && String.eqb (snd k1) (snd k2).

Definition has_key (k : string * string) (r : row) : bool := key_eqb (key_of r) k.

(** [on=["GSTN", "InvoiceNumber_clean"]] *)
Definition same_key (l r : row) : bool := key_eqb (key_of l) (key_of r).

(** A row of [merged], tagged by the [_merge] indicator. *)
Inductive merged_row :=
| both (l r : row)
| left_only (l : row)
| right_only (r : row).

(** [pd.merge(gstn, books, on=[...], how="outer", indicator=True)]: every
    left row is paired with every right row of the same key (one output row
    per pair); a left row with no partner gives a [left_only] row, a right
    row with no partner a [right_only] row.  pandas sorts the rows of an
    outer merge by key; the order of rows is not modelled, every statement
    below is about membership and multiplicity. *)
Definition merge_outer (L R : list row) : list merged_row :=
  flat_map (fun l => match filter (same_key l) R with
                     | [] => [left_only l]
                     | ms => map (both l) ms
                     end) L
  ++ map right_only (filter (fun r => negb (existsb (fun l => same_key l r) L)) R).

(** [merged[merged["_merge"] == "both"]] *)
Definition both_rows (m : list merged_row) : list (row * row) :=
  flat_map (fun x => match x with both l r => [(l, r)] | _ => [] end) m.

(** [merged[merged["_merge"] == "left_only"]] *)
Definition left_only_rows (m : list merged_row) : list row :=
  flat_map (fun x => match x with left_only l => [l] | _ => [] end) m.

(** [merged[merged["_merge"] == "right_only"]] *)
Definition right_only_rows (m : list merged_row) : list row :=
  flat_map (fun x => match x with right_only r => [r] | _ => [] end) m.

(** ** Period classifier: [categorize_gstn], lines 185-204 *)

(** The line printed for a row without an invoice date. *)
Definition missing_date_message (r : row) : string :=
  "Missing Invoice Date: " ++ GSTN r ++ ", " ++ InvoiceNumber_original r.

(** Returns [(prev_fy, not_in_books, printed lines)], each in row order. *)
Fixpoint categorize_gstn (cutoff_date : Z) (df : list row)
  : list row * list row * list string :=
  match df with
  | [] => ([], [], [])
  | row :: rest =>
      let '(prev_fy, not_in_books, out) := categorize_gstn cutoff_date rest in
      match Invoice_Date row with
      | Some inv_date =>
          if (inv_date <? cutoff_date)%Z
          then (row :: prev_fy, not_in_books, out)
          else (prev_fy, row :: not_in_books, out)
      | None => (prev_fy, row :: not_in_books, missing_date_message row :: out)
      end
  end.

(** The default [cutoff_date="2024-04-01"], as days since 1970-01-01. *)
Definition default_cutoff : Z := 19814%Z.

(** ** The result buckets, lines 207-235 *)

Record result := {
  MATCHED : list (row * row);
  PREV_FY_ITC : list row;
  NOTINBOOKS : list row;
  NEXT_FY_ITC : list row
}.

(** The buckets of [result] (lines 207-235).  The lines [categorize_gstn]
    prints are [printed_lines] below: they show the cells of [merged], which
    the merge may have retyped. *)
Definition reconcile (cutoff_date : Z) (gstn_sheet books_sheet : list sheet_row) : result :=
  let gstn := prepare gstn_sheet in
  let books := prepare books_sheet in
  let merged := merge_outer gstn books in
  let '(prev_fy, not_in_books, _) := categorize_gstn cutoff_date (left_only_rows merged) in
  {| MATCHED := both_rows merged;
     PREV_FY_ITC := prev_fy;
     NOTINBOOKS := not_in_books;
     NEXT_FY_ITC := right_only_rows merged |}.

(** ** The lines printed by line 235

    [categorize_gstn(gstn_unmatched)] reads its rows from [merged], whose
    columns the outer merge may retype.  The dtype [pd.read_excel] gives the
    [Invoice Number] column of the GSTN sheet is not visible in the rendered
    cells of [sheet_row] ("3" is the rendering of the integer 3 and of the
    text "3"), so it is an input of its own: [int64] when every cell holds an
    integer (then [str] writes it in decimal), [other_dtype] for a [float64]
    or [object] column.  [InvoiceNumber_original] is a copy of that column. *)
Inductive invoice_dtype := int64 | other_dtype.




(** [str] of the [float64] value of such an integer: exact, written with a
    trailing [.0]. *)
Definition float_str (s : string) : string := s ++ ".0".

(** The [InvoiceNumber_original_gstn] cell of a left row as [merged] holds
    it: when the merge has a right_only row, it fills that row's GSTN columns
    with NaN, which turns an [int64] column into [float64]; [object] and
    [float64] columns keep their values. *)
Definition merged_original_gstn (dtype : invoice_dtype) (has_right_only : bool) (r : row)
  : string :=
  match dtype with
  | int64 => if has_right_only then float_str (InvoiceNumber_original r) else InvoiceNumber_original r
  | other_dtype => InvoiceNumber_original r
  end.

(** A left row of [merged] with its cells as [merged] holds them. *)
Definition as_merged (dtype : invoice_dtype) (has_right_only : bool) (r : row) : row :=
  {| GSTN := GSTN r; InvoiceNumber_original := merged_original_gstn dtype has_right_only r;
     InvoiceNumber_clean := InvoiceNumber_clean r; Invoice_Date := Invoice_Date r;
     row_label := row_label r |}.

(** The lines [categorize_gstn(gstn_unmatched)] prints. *)
Definition printed_lines (dtype : invoice_dtype) (cutoff_date : Z)
  (gstn_sheet books_sheet : list sheet_row) : list string :=
  let merged := merge_outer (prepare gstn_sheet) (prepare books_sheet) in
  let has_right_only := match right_only_rows merged with [] => false | _ => true end in
  let '(_, _, out) := categorize_gstn cutoff_date
                        (map (as_merged dtype has_right_only) (left_only_rows merged)) in
  out.

(** The script runs the pipeline with the default cutoff. *)
Definition main (gstn_sheet books_sheet : list sheet_row) : result :=
  reconcile default_cutoff gstn_sheet books_sheet.

(** Whether a row is in [MATCHED] (either side of a pair), [PREV_FY_ITC],
    [NOTINBOOKS] or [NEXT_FY_ITC]. *)
Definition in_matched (res : result) (x : row) : bool :=
  existsb (fun p => row_eqb (fst p) x || row_eqb (snd p) x) (MATCHED res).

Definition bucket_flags (res : result) (x : row) : list bool :=
  [in_matched res x; in_rows x (PREV_FY_ITC res); in_rows x (NOTINBOOKS res);
   in_rows x (NEXT_FY_ITC res)].

Definition bucket_count (res : result) (x : row) : nat :=
  length (filter (fun b => b) (bucket_flags res x)).

(** Number of rows of a list with a given key, and of [MATCHED] pairs whose
    GSTN side has that key. *)
Definition key_group_size (k : string * string) (l : list row) : nat :=
  length (filter (has_key k) l).

Definition matched_group_size (k : string * string) (res : result) : nat :=
  length (filter (fun p => has_key k (fst p)) (MATCHED res)).

(** ** Column-oriented tables, for [add_mismatch_flag] *)

(** A cell of a DataFrame: a number (floats of the sheet are exact
    rationals), a boolean, a text, or a missing value (NaN / None). *)
Inductive cell :=
| CNum (q : Q)
| CBool (b : bool)
| CText (s : string)
| CNA.

Definition column := list cell.

(** A DataFrame as its columns in order, each with its name. *)
Definition table := list (string * column).

Definition col_names (df : table) : list string := map fst df.

Definition has_col (name : string) (df : table) : bool :=
  existsb (fun p => String.eqb (fst p) name) df.

Definition lookup_col (name : string) (df : table) : option column :=
  option_map snd (find (fun p => String.eqb (fst p) name) df).

Definition get_col (name : string) (df : table) : column :=
  match lookup_col name df with Some c => c | None => [] end.

(** Number of rows: the length of the columns. *)
Definition nrows (df : table) : nat :=
  match df with [] => 0 | (_, c) :: _ => length c end.

(** [df[name] = c]: an existing column is replaced where it stands, a new
    one is appended after the last column. *)
Fixpoint set_col (name : string) (c : column) (df : table) : table :=
  match df with
  | [] => [(name, c)]
  | (n, c') :: df' => if String.eqb n name then (n, c) :: df' else (n, c') :: set_col name c df'
  end.

(** [df.drop(columns=names)] *)
Definition drop_cols (names : list string) (df : table) : table :=
  filter (fun p => negb (existsb (String.eqb (fst p)) names)) df.

(** [.fillna(0).astype(float)] on one cell: a missing value becomes 0; a
    number stays; a boolean becomes 1.0 or 0.0; a text makes [astype]
    raise (texts that Python's [float] would parse are not modelled). *)
Definition fillna0_float (x : cell) : option Q :=
  match x with
  | CNA => Some 0%Q
  | CNum q => Some q
  | CBool b => Some (if b then 1%Q else 0%Q)
  | CText _ => None
  end.

(** [g.fillna(0).astype(float) == b.fillna(0).astype(float)], element-wise;
    [None] when a conversion raises. *)
Fixpoint float_eq_series (g b : column) : option column :=
  match g, b with
  | x :: g', y :: b' =>
      match fillna0_float x, fillna0_float y, float_eq_series g' b' with
      | Some qx, Some qy, Some r => Some (CBool (Qeq_bool qx qy) :: r)
      | _, _, _ => None
      end
  | _, _ => Some []
  end.

(** Truth of a cell for [DataFrame.all] (with [skipna=True], a missing
    value is skipped, i.e. counts as true). *)
Definition truthy (x : cell) : bool :=
  match x with
  | CBool b => b
  | CNum q => negb (Qeq_bool q 0)
  | CText s => negb (String.eqb s "")
  | CNA => true
  end.

(** [df[cols].all(axis=1)] over the [n] rows. *)
Definition all_axis1 (cols : list column) (n : nat) : list bool :=
  map (fun i => forallb (fun c => truthy (nth i c CNA)) cols) (seq 0 n).

Definition tax_columns : list string := ["Taxable"; "CGST"; "SGST"; "IGST"; "CESS"].

Definition gstn_name (col : string) : string := col ++ "_gstn".
Definition books_name (col : string) : string := col ++ "_books".
Definition match_name (col : string) : string := col ++ "_Match".

Definition missing_tax_warning (col : string) : string :=
  "Warning: Missing tax column " ++ col ++ " in merged data".

(** The loop of lines 163-170; [out] collects the printed lines.  The
    columns are set on [df] itself, the caller's object. *)
Fixpoint mismatch_loop (cols : list string) (df : table) (out : list string)
  : option (table * list string) :=
  match cols with
  | [] => Some (df, out)
  | col :: rest =>
      if negb (has_col (gstn_name col) df) || negb (has_col (books_name col) df)
      then mismatch_loop rest df (out ++ [missing_tax_warning col])
      else match float_eq_series (get_col (gstn_name col) df) (get_col (books_name col) df) with
           | Some s => mismatch_loop rest (set_col (match_name col) s df) out
           | None => None
           end
  end.

(** [add_mismatch_flag(df)], lines 152-178.  Returns the caller's DataFrame
    as the function leaves it (the [_Match] columns and [MIS_MATCHED] are
    assigned to it in place before [df] is rebound by [drop]), the returned
    DataFrame, and the printed lines; [None] when a conversion raises. *)
Definition add_mismatch_flag (df : table) : option (table * table * list string) :=
  match mismatch_loop tax_columns df [] with
  | None => None
  | Some (df1, out) =>
      let match_cols := filter (fun n => has_col n df1) (map match_name tax_columns) in
      match match_cols with
      | [] => Some (df1, df1, out)
      | _ :: _ =>
          let flag := map (fun b => CBool (negb b))
                          (all_axis1 (map (fun n => get_col n df1) match_cols) (nrows df1)) in
          let df2 := set_col "MIS_MATCHED" flag df1 in
          Some (df2, drop_cols match_cols df2, out)
      end
  end.

(** Tax fields compared by [add_mismatch_flag]: those with both a [_gstn]
    and a [_books] column. *)
Definition compared_fields (df : table) : list string :=
  filter (fun col => has_col (gstn_name col) df && has_col (books_name col) df) tax_columns.

(** The zero-filled comparison of one field on row [i]. *)
Definition field_equal (df : table) (col : string) (i : nat) : bool :=
  match fillna0_float (nth i (get_col (gstn_name col) df) CNA),
        fillna0_float (nth i (get_col (books_name col) df) CNA) with
  | Some x, Some y => Qeq_bool x y
  | _, _ => false
  end.

(** Column names [add_mismatch_flag] writes or reads as its own. *)
Definition reserved_names : list string := "MIS_MATCHED" :: map match_name tax_columns.

Definition no_reserved_column (df : table) : Prop :=
  forall n, In n (col_names df) -> ~ In n reserved_names.

Definition rectangular (df : table) : Prop :=
  forall n c, In (n, c) df -> length c = nrows df.

(** ** Column names of the merged table and of the NEXT_FY_ITC sheet *)

Definition mem (x : string) (l : list string) : bool := existsb (String.eqb x) l.

(** Substring test: [pat in s]. *)
Fixpoint contains (pat s : string) : bool :=
  match s with
  | EmptyString => prefix pat s
  | String _ s' => prefix pat s || contains pat s'
  end.

Definition ends_with (suf s : string) : bool :=
  let n := String.length s in
  let m := String.length suf in
  ((m <=? n)%nat && String.eqb (substring (n - m) m s) suf).

(** [s.replace(pat, rep)] for a non-empty [pat]: non-overlapping
    occurrences, left to right; [fuel] bounds the characters left. *)
Fixpoint str_replace (pat rep : string) (fuel : nat) (s : string) : string :=
  match fuel with
  | O => s
  | S f =>
      match s with
      | EmptyString => EmptyString
      | String c s' =>
          if prefix pat s
          then rep ++ str_replace pat rep f
                        (substring (String.length pat) (String.length s - String.length pat) s)
          else String c (str_replace pat rep f s')
      end
  end.

Definition replace (pat rep s : string) : string := str_replace pat rep (String.length s) s.

(** [DataFrame.assign] of a column: replaced in place if the name exists,
    appended otherwise. *)
Definition assign_col (name : string) (cols : list string) : list string :=
  if mem name cols then cols else cols ++ [name].

(** Columns of a sheet after lines 118-136. *)
Definition prepared_columns (sheet_cols : list string) : list string :=
  assign_col "InvoiceNumber_original" (assign_col "InvoiceNumber_clean" sheet_cols).

Definition merge_keys : list string := ["GSTN"; "InvoiceNumber_clean"].

(** Columns of [pd.merge(left, right, on=keys, how="outer", indicator=True,
    suffixes=("_gstn", "_books"))]: the left columns (keys unsuffixed, names
    shared with the right suffixed [_gstn]), then the right non-key columns
    (shared names suffixed [_books]), then [_merge]. *)
Definition merge_columns (L R keys : list string) : list string :=
  map (fun c => if mem c keys then c else if mem c R then c ++ "_gstn" else c) L
  ++ map (fun c => if mem c L then c ++ "_books" else c) (filter (fun c => negb (mem c keys)) R)
  ++ ["_merge"].

Definition merged_columns (gstn_sheet_cols books_sheet_cols : list string) : list string :=
  merge_columns (prepared_columns gstn_sheet_cols) (prepared_columns books_sheet_cols) merge_keys.

(** Whether [^((?!p1|p2|...).)*$] matches at the start of [s] ([re.search],
    no MULTILINE): every character before the end is not a newline and does
    not start one of the [bad] words; [$] also matches before a final
    newline. *)
Fixpoint anchored_avoiding (bad : list string) (s : string) : bool :=
  match s with
  | EmptyString => true
  | String c s' =>
      if Ascii.eqb c (ascii_of_nat 10) then String.eqb s' ""
      else negb (existsb (fun p => prefix p s) bad) && anchored_avoiding bad s'
  end.

(** [re.search("GSTN|InvoiceNumber_original_books|^((?!_clean|_gstn).)*$", col)] *)
Definition next_fy_regex (col : string) : bool :=
  contains "GSTN" col || contains "InvoiceNumber_original_books" col
  || anchored_avoiding ["_clean"; "_gstn"] col.

(** Lines 217-225: [.filter(regex=...)] keeps the matching columns in order,
    then [gstr1_filing_date], if present, is moved to the end. *)
Definition next_fy_columns (merged_cols : list string) : list string :=
  let kept := filter next_fy_regex merged_cols in
  if mem "gstr1_filing_date" kept
  then filter (fun c => negb (String.eqb c "gstr1_filing_date")) kept ++ ["gstr1_filing_date"]
  else kept.

(** [clean_columns(df, sheet_name)], lines 65-94, on the column names (the
    date formatting of lines 96-104 changes values, not names).  The loop
    runs over the original column index, dropping or renaming each column. *)
Fixpoint clean_columns_names (sheet_name : string) (cols : list string) : list string :=
  match cols with
  | [] => []
  | col :: rest =>
      let rest' := clean_columns_names sheet_name rest in
      if mem col ["InvoiceNumber_clean"; "InvoiceNumber_original_gstn";
                  "InvoiceNumber_original_books"; "_merge"] then rest'
      else if ends_with "_books" col then
        (if String.eqb sheet_name "MATCHED" then rest' else replace "_books" "" col :: rest')
      else if ends_with "_gstn" col then
        (if String.eqb sheet_name "NEXT_FY_ITC" then rest' else replace "_gstn" "" col :: rest')
      else if String.eqb col "gstr1_filing_date" then
        (if negb (String.eqb sheet_name "MATCHED") then rest' else col :: rest')
      else col :: rest'
  end.

(** Column names of the NEXT_FY_ITC sheet as [save_to_excel] writes it. *)
Definition written_next_fy_columns (gstn_sheet_cols books_sheet_cols : list string)
  : list string :=
  clean_columns_names "NEXT_FY_ITC"
    (next_fy_columns (merged_columns gstn_sheet_cols books_sheet_cols)).

(** ** Sample rows (the end-to-end scenario of the spec) *)

(** 2024-05-10, in days since 1970-01-01. *)
Definition sample_date : Z := 19853%Z.

Definition sample_gstn_row : sheet_row :=
  {| cell_GSTN := Some "27AAAAA0000A1Z5"; cell_Invoice_Number := Some "INV001A";
     cell_Invoice_Date := Some sample_date; cell_label := 0 |}.

Definition sample_books_row : sheet_row :=
  {| cell_GSTN := Some "27AAAAA0000A1Z5"; cell_Invoice_Number := Some "001";
     cell_Invoice_Date := Some sample_date; cell_label := 0 |}.

Definition sample_undated_row : sheet_row :=
  {| cell_GSTN := Some "27AAAAA0000A1Z5"; cell_Invoice_Number := Some "INV002";
     cell_Invoice_Date := None; cell_label := 1 |}.

Definition alpha_gstn_row : sheet_row :=
  {| cell_GSTN := Some "27AAAAA0000A1Z5"; cell_Invoice_Number := Some "ABC";
     cell_Invoice_Date := None; cell_label := 2 |}.

Definition alpha_books_row : sheet_row :=
  {| cell_GSTN := Some "27AAAAA0000A1Z5"; cell_Invoice_Number := Some "XYZ";
     cell_Invoice_Date := None; cell_label := 1 |}.

(** Two more rows of the same key [("27AAAAA0000A1Z5", "001")]. *)
Definition dup_gstn_row : sheet_row :=
  {| cell_GSTN := Some "27AAAAA0000A1Z5"; cell_Invoice_Number := Some "TAX001";
     cell_Invoice_Date := Some sample_date; cell_label := 3 |}.

Definition dup_books_row : sheet_row :=
  {| cell_GSTN := Some "27AAAAA0000A1Z5"; cell_Invoice_Number := Some "b001";
     cell_Invoice_Date := Some sample_date; cell_label := 2 |}.



(** The cleaned form of a sheet row whose key cells are present. *)
Definition cleaned (r : sheet_row) : row :=
  {| GSTN := match cell_GSTN r with Some g => g | None => "" end;
     InvoiceNumber_original := match cell_Invoice_Number r with Some s => s | None => "" end;
     InvoiceNumber_clean := match cell_Invoice_Number r with Some s => re_sub_alpha s | None => "" end;
     Invoice_Date := cell_Invoice_Date r; row_label := cell_label r |}.

(** The [_Match] series the loop of [add_mismatch_flag] computes for a
    field of [df]. *)
Definition match_series (df : table) (col : string) : option column :=
  float_eq_series (get_col (gstn_name col) df) (get_col (books_name col) df).

(** The [_Match] columns the loop appends to [df], in order, or [None] when
    a conversion raises. *)
Fixpoint appended_match_cols (df : table) (cols : list string) : option table :=
  match cols with
  | [] => Some []
  | col :: rest =>
      if has_col (gstn_name col) df && has_col (books_name col) df
      then match match_series df col, appended_match_cols df rest with
           | Some s, Some e => Some ((match_name col, s) :: e)
           | _, _ => None
           end
      else appended_match_cols df rest
  end.

(** A table where [books] has no CESS column: the merge leaves the GSTN
    column [CESS] unsuffixed. *)
Definition cess_only_gstn_table : table :=
  [("GSTN", [CText "27AAAAA0000A1Z5"]);
   ("Taxable_gstn", [CNum 1000]); ("Taxable_books", [CNum 1000]);
   ("CGST_gstn", [CNum 90]); ("CGST_books", [CNum 90]);
   ("SGST_gstn", [CNum 90]); ("SGST_books", [CNum 90]);
   ("IGST_gstn", [CNum 0]); ("IGST_books", [CNA]);
   ("CESS", [CNum 5])].

(** A table carrying a column of the sheet named [Taxable_Match]. *)
Definition own_match_column_table : table :=
  [("Taxable_gstn", [CNum 1000]); ("Taxable_books", [CNum 1000]);
   ("Taxable_Match", [CText "checked"])].

(** Two matched rows with all five fields on both sides; the second
    differs in CGST. *)
Definition five_field_table : table :=
  [("Taxable_gstn", [CNum 1000; CNum 500]); ("Taxable_books", [CNum 1000; CNum 500]);
   ("CGST_gstn", [CNum 90; CNum 45]); ("CGST_books", [CNum 90; CNum 40]);
   ("SGST_gstn", [CNum 90; CNum 45]); ("SGST_books", [CNum 90; CNum 45]);
   ("IGST_gstn", [CNA; CNum 0]); ("IGST_books", [CNum 0; CNA]);
   ("CESS_gstn", [CNA; CNA]); ("CESS_books", [CNA; CNA])].

(** Headers of the two sheets: the filing date is a GSTN column only. *)
Definition gstn_sheet_columns : list string :=
  ["GSTN"; "Invoice Number"; "Invoice Date"; "Taxable"; "CGST"; "SGST"; "IGST"; "CESS";
   "gstr1_filing_date"].

Definition books_sheet_columns : list string :=
  ["GSTN"; "Invoice Number"; "Invoice Date"; "Taxable"; "CGST"; "SGST"; "IGST"; "CESS"].

(** ** Row predicates used by the classifier and the cleaning *)

(** Whether [categorize_gstn] appends a row to [prev_fy]: a present date
    before the cutoff. *)
Definition before_cutoff (cutoff_date : Z) (r : row) : bool :=
  match Invoice_Date r with Some d => (d <? cutoff_date)%Z | None => false end.

(** [pd.notnull(inv_date)] fails. *)
Definition undated (r : row) : bool :=
  match Invoice_Date r with None => true | Some _ => false end.

(** Whether [.dropna(subset=["GSTN", "Invoice Number"])] keeps a row. *)
Definition key_cells_present (r : sheet_row) : bool :=
  match cell_GSTN r, cell_Invoice_Number r with Some _, Some _ => true | _, _ => false end.

(** Two tables agree on the data columns [add_mismatch_flag] reads. *)
Definition agrees_on_tax_data (t df : table) : Prop :=
  forall f, In f tax_columns ->
    has_col (gstn_name f) df = has_col (gstn_name f) t
    /\ has_col (books_name f) df = has_col (books_name f) t
    /\ get_col (gstn_name f) df = get_col (gstn_name f) t
    /\ get_col (books_name f) df = get_col (books_name f) t.

(** A table with a party column and no tax column. *)
Definition no_tax_table : table :=
  [("GSTN", [CText "27AAAAA0000A1Z5"]); ("Invoice Number", [CText "INV001A"])].

(** ** Column names of the other result sheets *)

(** [re.search("GSTN|InvoiceNumber_original_gstn|^((?!_books).)*$", col)],
    the filter of [gstn_unmatched] (lines 231-233). *)
Definition gstn_unmatched_regex (col : string) : bool :=
  contains "GSTN" col || contains "InvoiceNumber_original_gstn" col
  || anchored_avoiding ["_books"] col.

Definition gstn_unmatched_columns (merged_cols : list string) : list string :=
  filter gstn_unmatched_regex merged_cols.

(** Column names of the PREV_FY_ITC or NOTINBOOKS sheet as [save_to_excel]
    writes it: [categorize_gstn] builds each bucket from rows of
    [gstn_unmatched], with its columns (when the bucket is non-empty). *)
Definition written_unmatched_columns (sheet_name : string)
  (gstn_sheet_cols books_sheet_cols : list string) : list string :=
  clean_columns_names sheet_name
    (gstn_unmatched_columns (merged_columns gstn_sheet_cols books_sheet_cols)).

(** Columns of [matched_df] after [add_mismatch_flag] (line 175): a
    [MIS_MATCHED] column is appended when some tax field has both a [_gstn]
    and a [_books] column. *)
Definition mismatch_flag_columns (cols : list string) : list string :=
  if existsb (fun f => mem (gstn_name f) cols && mem (books_name f) cols) tax_columns
  then cols ++ ["MIS_MATCHED"] else cols.

(** Column names of the MATCHED sheet as [save_to_excel] writes it:
    [matched_df.drop(columns="_merge")] (line 208), then [clean_columns]. *)
Definition written_matched_columns (gstn_sheet_cols books_sheet_cols : list string)
  : list string :=
  clean_columns_names "MATCHED"
    (filter (fun c => negb (String.eqb c "_merge"))
            (mismatch_flag_columns (merged_columns gstn_sheet_cols books_sheet_cols))).

(** A header with no underscore and no newline. *)
Fixpoint plain_chars (s : string) : bool :=
  match s with
  | EmptyString => true
  | String a s' => negb (Ascii.eqb a "_"%char) && negb (Ascii.eqb a (ascii_of_nat 10))
                   && plain_chars s'
  end.

(** An ordinary header: no underscore, no newline, not containing "GSTN". *)
Definition plain_header (c : string) : bool := plain_chars c && negb (contains "GSTN" c).

(** The headers of a sheet are [GSTN], [gstr1_filing_date] or ordinary. *)
Definition headers_ok (cols : list string) : Prop :=
  forall c, In c cols -> c = "GSTN" \/ c = "gstr1_filing_date" \/ plain_header c = true.

(** All suffixes of a string, longest first. *)
Fixpoint suffixes (s : string) : list string :=
  s :: match s with EmptyString => [] | String _ s' => suffixes s' end.

(** Name given by [merge_columns] to a GSTN-side column, given the BOOKS
    side's columns, and to a BOOKS-side non-key column, given the GSTN side's
    columns. *)
Definition left_name (books_cols : list string) (c : string) : string :=
  if mem c merge_keys then c else if mem c books_cols then c ++ "_gstn" else c.

Definition right_name (gstn_cols : list string) (c : string) : string :=
  if mem c gstn_cols then c ++ "_books" else c.

(** Boolean form of [headers_ok]. *)
Definition headers_okb (cols : list string) : bool :=
  forallb (fun c => String.eqb c "GSTN" || String.eqb c "gstr1_filing_date" || plain_header c)
          cols.

(** Boolean form of [NoDup] on names. *)
Fixpoint nodupb (l : list string) : bool :=
  match l with
  | [] => true
  | x :: l' => negb (mem x l') && nodupb l'
  end.

(** ** [clean_columns] and [save_to_excel] over tables and worksheets *)

Section Save.

(** [pd.to_datetime(s, errors="coerce").dt.strftime("%d/%m/%Y")] on a whole
    column (pandas infers the date format from the column, so it is not
    taken to act cell by cell). *)
Variable format_dates : column -> column.

(** The loop of lines 66-93: [df] is the table as the [drop]s leave it,
    [clean_cols] the names collected so far; dropping a column that is no
    longer there raises [KeyError]. *)
Fixpoint clean_columns_loop (sheet_name : string) (cols : list string) (df : table)
  (clean_cols : list string) : option (table * list string) :=
  match cols with
  | [] => Some (df, clean_cols)
  | col :: rest =>
      let drop := if has_col col df
                  then clean_columns_loop sheet_name rest (drop_cols [col] df) clean_cols
                  else None in
      let append new_col := clean_columns_loop sheet_name rest df (clean_cols ++ [new_col])%list in
      if mem col ["InvoiceNumber_clean"; "InvoiceNumber_original_gstn";
                  "InvoiceNumber_original_books"; "_merge"] then drop
      else if ends_with "_books" col then
        (if String.eqb sheet_name "MATCHED" then drop else append (replace "_books" "" col))
      else if ends_with "_gstn" col then
        (if String.eqb sheet_name "NEXT_FY_ITC" then drop else append (replace "_gstn" "" col))
      else if String.eqb col "gstr1_filing_date" then
        (if negb (String.eqb sheet_name "MATCHED") then drop else append col)
      else append col
  end.

(** [df.columns = clean_cols] (line 94): a length mismatch raises. *)
Definition set_columns (names : list string) (df : table) : option table :=
  if Nat.eqb (length names) (length df) then Some (combine names (map snd df)) else None.

(** Lines 97-104 for one column name: absent, nothing happens; present
    once, the column is formatted; present more than once, [df[name]] is a
    DataFrame, which [pd.to_datetime] cannot assemble into dates: it
    raises. *)
Definition format_date_col (name : string) (df : table) : option table :=
  match filter (fun p => String.eqb (fst p) name) df with
  | [] => Some df
  | [_] => Some (set_col name (format_dates (get_col name df)) df)
  | _ => None
  end.

(** [clean_columns(df, sheet_name)], lines 65-106. *)
Definition clean_columns (df : table) (sheet_name : string) : option table :=
  match clean_columns_loop sheet_name (col_names df) df [] with
  | None => None
  | Some (df1, clean_cols) =>
      match set_columns clean_cols df1 with
      | None => None
      | Some df2 =>
          match format_date_col "Invoice Date" df2 with
          | None => None
          | Some df3 => format_date_col "gstr1_filing_date" df3
          end
      end
  end.

(** [df.empty]: no column or no row. *)
Definition table_empty (df : table) : bool :=
  match df with [] => true | _ => Nat.eqb (nrows df) 0%nat end.

(** [dataframe_to_rows(df, index=False, header=False)]: the rows, each with
    its cells in column order. *)
Definition table_rows (df : table) : list (list cell) :=
  map (fun i => map (fun p => nth i (snd p) CNA) df) (seq 0%nat (nrows df)).

(** A worksheet as its rows from row 1, each row as its cells from column
    1 (a created cell that was never given a value reads [CNA], openpyxl's
    [None]); a workbook as its sheets in order with their titles. *)
Definition worksheet := list (list cell).
Definition workbook := list (string * worksheet).

(** [ws.max_row]: at least 1, also for a sheet without rows. *)
Definition max_row (ws : worksheet) : nat := Nat.max 1%nat (length ws).

(** [ws.delete_rows(idx, amount)]: rows [idx] to [idx + amount - 1] go, the
    rows below move up. *)
Definition delete_rows (idx amount : nat) (ws : worksheet) : worksheet :=
  (firstn (idx - 1)%nat ws ++ skipn (idx - 1 + amount)%nat ws)%list.

Fixpoint update_nth {A} (n : nat) (f : A -> A) (l : list A) : list A :=
  match l, n with
  | [], _ => []
  | x :: l', O => f x :: l'
  | x :: l', S n' => x :: update_nth n' f l'
  end.

(** [ws.cell(row=r, column=c, value=v)], 1-based, creating the missing rows
    and cells. *)
Definition set_cell (r c : nat) (v : cell) (ws : worksheet) : worksheet :=
  let ws' := (ws ++ repeat [] (r - length ws))%list in
  update_nth (r - 1)%nat
    (fun row => update_nth (c - 1)%nat (fun _ => v) (row ++ repeat CNA (c - length row))%list) ws'.

(** Line 54-55: the cells of one row, from column [c]. *)
Fixpoint write_row (r c : nat) (values : list cell) (ws : worksheet) : worksheet :=
  match values with
  | [] => ws
  | v :: vs => write_row r (S c) vs (set_cell r c v ws)
  end.

(** Lines 51-55: the rows from row [r]. *)
Fixpoint write_rows (r : nat) (rows : list (list cell)) (ws : worksheet) : worksheet :=
  match rows with
  | [] => ws
  | row :: rs => write_rows (S r) rs (write_row r 1%nat row ws)
  end.

Definition sheet_names (wb : workbook) : list string := map fst wb.

(** [wb[name]] *)
Definition get_sheet (name : string) (wb : workbook) : option worksheet :=
  option_map snd (find (fun p => String.eqb (fst p) name) wb).

Fixpoint put_sheet (name : string) (ws : worksheet) (wb : workbook) : workbook :=
  match wb with
  | [] => []
  | (n, ws') :: wb' =>
      if String.eqb n name then (n, ws) :: wb' else (n, ws') :: put_sheet name ws wb'
  end.

(** One pass of the loop of lines 34-55; [None] when it raises.  A new
    sheet ([wb.create_sheet]) comes after the existing ones. *)
Definition save_sheet (wb : workbook) (entry : string * option table) : option workbook :=
  let (sheet_name, odf) := entry in
  match odf with
  | None => Some wb
  | Some df =>
      if table_empty df then Some wb else
      match clean_columns df sheet_name with
      | None => None
      | Some df' =>
          let wb1 := if mem sheet_name (sheet_names wb) then wb else (wb ++ [(sheet_name, [])])%list in
          let ws := match get_sheet sheet_name wb1 with Some ws => ws | None => [] end in
          let ws1 := if (3 <=? max_row ws)%nat then delete_rows 3 (max_row ws - 2) ws else ws in
          Some (put_sheet sheet_name (write_rows 3 (table_rows df') ws1) wb1)
      end
  end.

Fixpoint save_sheets (wb : workbook) (result : list (string * option table)) : option workbook :=
  match result with
  | [] => Some wb
  | e :: rest => match save_sheet wb e with None => None | Some wb' => save_sheets wb' rest end
  end.

(** [save_to_excel(file_path, result)]: [file] is the workbook stored at
    [file_path] ([None] when [load_workbook] raises), [result] the dict's
    items in order.  The outcome is the returned boolean and the stored
    workbook afterwards: only [wb.save] (line 58) writes it.  The failures
    modelled are those of [clean_columns]; the exceptions of openpyxl (a
    cell value it refuses, a sheet title that clashes with another one
    ignoring case) and of [wb.save] itself (a locked or read-only file),
    on which the code returns [False], are not. *)
Definition save_to_excel (file : option workbook) (result : list (string * option table))
  : bool * option workbook :=
  match file with
  | None => (false, file)
  | Some wb =>
      match save_sheets wb result with
      | None => (false, file)
      | Some wb' => (true, Some wb')
      end
  end.

End Save.

(** ** A sample workbook

    A date formatter standing for [pd.to_datetime(..., errors="coerce")
    .dt.strftime("%d/%m/%Y")] on a column of one date, and the workbook
    of [file_path] after an earlier run: the two input sheets, and MATCHED
    and PREV_FY_ITC with a title row, a header row and old data rows. *)
Definition sample_format_dates (c : column) : column :=
  map (fun x => match x with CText "2024-05-01" => CText "01/05/2024"
                          | CText "2024-06-11" => CText "11/06/2024"
                          | CText "2025-04-02" => CText "02/04/2025"
                          | _ => CNA end) c.

Definition sample_workbook : workbook :=
  [("GSTN", [[CText "GSTR-2B"]; [CText "GSTN"; CText "Invoice Number"; CText "Invoice Date"];
             [CText "27AAA"; CText "INV1"; CText "2024-05-01"]]);
   ("BOOKS", [[CText "Purchase register"]; [CText "GSTN"; CText "Invoice Number"; CText "Invoice Date"];
              [CText "27AAA"; CText "inv1"; CText "2024-05-01"];
              [CText "29BBB"; CText "B7"; CText "2025-04-02"]]);
   ("MATCHED", [[CText "Matched"]; [CText "GSTN"; CText "Invoice Number"];
                [CText "24CCC"; CText "OLD1"]; [CText "24CCC"; CText "OLD2"]]);
   ("PREV_FY_ITC", [[CText "Previous year"]; [CText "GSTN"]; [CText "24CCC"]])].

(** The DataFrames [result] holds for that workbook: one matched pair, no
    unmatched GSTN row (empty DataFrames) and one BOOKS row without a
    partner. *)
Definition sample_matched : table :=
  [("GSTN", [CText "27AAA"]); ("Invoice Number_gstn", [CText "INV1"]);
   ("Invoice Date_gstn", [CText "2024-05-01"]); ("gstr1_filing_date", [CText "2024-06-11"]);
   ("InvoiceNumber_clean", [CText "1"]); ("InvoiceNumber_original_gstn", [CText "INV1"]);
   ("Invoice Number_books", [CText "inv1"]); ("Invoice Date_books", [CText "2024-05-01"]);
   ("InvoiceNumber_original_books", [CText "inv1"]); ("MIS_MATCHED", [CBool false])].

Definition sample_next_fy : table :=
  [("GSTN", [CText "29BBB"]); ("Invoice Number_books", [CText "B7"]);
   ("Invoice Date_books", [CText "2025-04-02"]); ("InvoiceNumber_original_books", [CText "B7"]);
   ("_merge", [CText "right_only"])].

Definition sample_result : list (string * option table) :=
  [("MATCHED", Some sample_matched); ("PREV_FY_ITC", Some []); ("NOTINBOOKS", Some []);
   ("NEXT_FY_ITC", Some sample_next_fy)].

(** A DataFrame whose two columns both clean to [Invoice Date]: the date
    formatting of line 98 finds two columns of that name and raises. *)
Definition sample_clash : table :=
  [("Invoice Date_gstn", [CText "2024-05-01"]); ("Invoice Date", [CText "2024-05-01"])].

Definition sample_failing_result : list (string * option table) :=
  [("MATCHED", Some sample_matched); ("NOTINBOOKS", Some sample_clash)].

(** * Properties *)

(** ** Key normalizer *)

Lemma re_sub_alpha_no_alpha (s : string) :
  forallb (fun c => negb (is_ascii_alpha c)) (list_ascii_of_string (re_sub_alpha s)) = true.
Proof.
  induction s as [|c s IH]; simpl; [reflexivity|].
  destruct (is_ascii_alpha c) eqn:E; simpl; [exact IH|].
  rewrite E, IH. reflexivity.
Qed.

Lemma re_sub_alpha_fixed (s : string) :
  forallb (fun c => negb (is_ascii_alpha c)) (list_ascii_of_string s) = true ->
  re_sub_alpha s = s.
Proof.
  induction s as [|c s IH]; simpl; [reflexivity|].
  intros H. apply andb_true_iff in H as [Hc Hs].
  destruct (is_ascii_alpha c); [discriminate|].
  rewrite IH by exact Hs. reflexivity.
Qed.

(** C8: [clean_invoice_number] is the spec's normalizer: on a present
    string it keeps exactly the characters that are not ASCII letters, in
    their order; on a missing cell it gives a missing key.  (As a Rocq
    function it has no effect.) *)
Theorem clean_invoice_number_removes_letters (invoice_str : option string) :
  clean_invoice_number invoice_str = spec_normalize invoice_str
  /\ clean_invoice_number None = None.
Proof.
  split; [|reflexivity].
  destruct invoice_str as [s|]; [|reflexivity].
  simpl. f_equal.
  induction s as [|c s IH]; [reflexivity|].
  simpl. destruct (is_ascii_alpha c); simpl; rewrite IH; reflexivity.
Qed.

(** C9: normalizing a normalized key gives the same key. *)
Theorem clean_invoice_number_idempotent (invoice_str : option string) :
  clean_invoice_number (clean_invoice_number invoice_str) = clean_invoice_number invoice_str.
Proof.
  destruct invoice_str as [s|]; [|reflexivity].
  simpl. f_equal. apply re_sub_alpha_fixed, re_sub_alpha_no_alpha.
Qed.

(** ** The merge *)

Lemma key_eqb_refl (k : string * string) : key_eqb k k = true.
Proof. destruct k; unfold key_eqb; simpl; rewrite !String.eqb_refl; reflexivity. Qed.

Lemma same_key_refl (x : row) : same_key x x = true.
Proof. apply key_eqb_refl. Qed.

Lemma key_eqb_true (k1 k2 : string * string) : key_eqb k1 k2 = true <-> k1 = k2.
Proof.
  destruct k1 as [a b], k2 as [c d]; unfold key_eqb; simpl.
  rewrite andb_true_iff, !String.eqb_eq. split; [intros [-> ->]|intros [= -> ->]]; auto.
Qed.

Lemma row_eqb_true (a b : row) : row_eqb a b = true <-> a = b.
Proof. unfold row_eqb; destruct (row_eq_dec a b); split; congruence. Qed.

Lemma in_rows_true (x : row) (l : list row) : in_rows x l = true <-> In x l.
Proof.
  unfold in_rows. rewrite existsb_exists. split.
  - intros [y [Hy E]]. apply row_eqb_true in E. subst. exact Hy.
  - intros H. exists x. split; [exact H|]. apply row_eqb_true. reflexivity.
Qed.

Lemma in_both_rows (L R : list row) (l r : row) :
  In (l, r) (both_rows (merge_outer L R)) <-> In l L /\ In r R /\ same_key l r = true.
Proof.
  unfold both_rows, merge_outer. rewrite flat_map_app, in_app_iff. split.
  - intros [H|H].
    + apply in_flat_map in H as [x [Hx Hin]].
      apply in_flat_map in Hx as [l' [Hl' Hx]].
      destruct (filter (same_key l') R) as [|r0 rs] eqn:E.
      * destruct Hx as [<-|[]]. destruct Hin.
      * apply in_map_iff in Hx as [r' [<- Hr']].
        destruct Hin as [[= <- <-]|[]].
        rewrite <- E in Hr'. apply filter_In in Hr' as [Hr Hk]. auto.
    + apply in_flat_map in H as [x [Hx Hin]].
      apply in_map_iff in Hx as [? [<- _]]. destruct Hin.
  - intros [Hl [Hr Hk]]. left. apply in_flat_map. exists (both l r).
    split; [|left; reflexivity].
    apply in_flat_map. exists l. split; [exact Hl|].
    assert (Hf : In r (filter (same_key l) R)) by (apply filter_In; auto).
    destruct (filter (same_key l) R); [destruct Hf|]. apply in_map. exact Hf.
Qed.

Lemma in_left_only_rows (L R : list row) (l : row) :
  In l (left_only_rows (merge_outer L R)) <->
  In l L /\ forall r, In r R -> same_key l r = false.
Proof.
  unfold left_only_rows, merge_outer. rewrite flat_map_app, in_app_iff. split.
  - intros [H|H].
    + apply in_flat_map in H as [x [Hx Hin]].
      apply in_flat_map in Hx as [l' [Hl' Hx]].
      destruct (filter (same_key l') R) as [|r0 rs] eqn:E.
      * destruct Hx as [<-|[]]. destruct Hin as [<-|[]].
        split; [exact Hl'|]. intros r Hr.
        destruct (same_key l' r) eqn:K; [|reflexivity].
        assert (Hf : In r (filter (same_key l') R)) by (apply filter_In; auto).
        rewrite E in Hf. destruct Hf.
      * apply in_map_iff in Hx as [r' [<- _]]. destruct Hin.
    + apply in_flat_map in H as [x [Hx Hin]].
      apply in_map_iff in Hx as [? [<- _]]. destruct Hin.
  - intros [Hl Hr]. left. apply in_flat_map. exists (left_only l).
    split; [|left; reflexivity].
    apply in_flat_map. exists l. split; [exact Hl|].
    destruct (filter (same_key l) R) as [|r0 rs] eqn:E; [left; reflexivity|].
    assert (Hf : In r0 (filter (same_key l) R)) by (rewrite E; left; reflexivity).
    apply filter_In in Hf as [Hr0 Hk]. rewrite Hr in Hk by exact Hr0. discriminate.
Qed.

Lemma in_right_only_rows (L R : list row) (r : row) :
  In r (right_only_rows (merge_outer L R)) <->
  In r R /\ forall l, In l L -> same_key l r = false.
Proof.
  unfold right_only_rows, merge_outer. rewrite flat_map_app, in_app_iff. split.
  - intros [H|H].
    + apply in_flat_map in H as [x [Hx Hin]].
      apply in_flat_map in Hx as [l' [Hl' Hx]].
      destruct (filter (same_key l') R).
      * destruct Hx as [<-|[]]. destruct Hin.
      * apply in_map_iff in Hx as [r' [<- _]]. destruct Hin.
    + apply in_flat_map in H as [x [Hx Hin]].
      apply in_map_iff in Hx as [r' [<- Hr']]. destruct Hin as [<-|[]].
      apply filter_In in Hr' as [Hr Hn]. split; [exact Hr|].
      intros l Hl. destruct (same_key l r') eqn:K; [|reflexivity].
      exfalso. apply negb_true_iff in Hn.
      assert (existsb (fun l0 => same_key l0 r') L = true)
        by (apply existsb_exists; eauto).
      congruence.
  - intros [Hr Hl]. right. apply in_flat_map. exists (right_only r).
    split; [|left; reflexivity]. apply in_map. apply filter_In. split; [exact Hr|].
    apply negb_true_iff. destruct (existsb (fun l0 => same_key l0 r) L) eqn:E; [|reflexivity].
    apply existsb_exists in E as [l [Hl' Hk]]. rewrite Hl in Hk by exact Hl'. discriminate.
Qed.

(** ** The period classifier *)

Lemma categorize_gstn_spec (cutoff_date : Z) (df p n : list row) (o : list string) :
  categorize_gstn cutoff_date df = (p, n, o) ->
  (forall x, In x p <-> In x df /\ exists d, Invoice_Date x = Some d /\ (d < cutoff_date)%Z) /\
  (forall x, In x n <-> In x df /\
                       (Invoice_Date x = None
                        \/ exists d, Invoice_Date x = Some d /\ (cutoff_date <= d)%Z)) /\
  (forall x, In x df -> Invoice_Date x = None -> In (missing_date_message x) o).
Proof.
  revert p n o. induction df as [|y df IH]; intros p n o H.
  - simpl in H. injection H as <- <- <-. simpl. firstorder.
  - simpl in H. destruct (categorize_gstn cutoff_date df) as [[p' n'] o'] eqn:E.
    destruct (IH _ _ _ eq_refl) as [Hp [Hn Ho]].
    destruct (Invoice_Date y) as [d|] eqn:Ey; [destruct (d <? cutoff_date)%Z eqn:Ed|].
    + injection H as <- <- <-. apply Z.ltb_lt in Ed. split; [|split].
      * intros x. simpl. rewrite Hp. split.
        -- intros [<-|[Hx Hd]]; [split; [auto|eauto]|split; auto].
        -- intros [[<-|Hx] Hd]; [left; reflexivity|right; auto].
      * intros x. simpl. rewrite Hn. split.
        -- intros [Hx Hd]; split; auto.
        -- intros [[<-|Hx] Hd]; [|auto].
           rewrite Ey in Hd. destruct Hd as [[=]|[d' [[= <-] Hle]]]. lia.
      * intros x [<-|Hx] Hd; [congruence|auto].
    + injection H as <- <- <-. apply Z.ltb_ge in Ed. split; [|split].
      * intros x. simpl. rewrite Hp. split.
        -- intros [Hx Hd]; split; auto.
        -- intros [[<-|Hx] Hd]; [|auto].
           rewrite Ey in Hd. destruct Hd as [d' [[= <-] Hlt]]. lia.
      * intros x. simpl. rewrite Hn. split.
        -- intros [<-|[Hx Hd]]; [split; [auto|right; eauto]|split; auto].
        -- intros [[<-|Hx] Hd]; [left; reflexivity|right; auto].
      * intros x [<-|Hx] Hd; [congruence|auto].
    + injection H as <- <- <-. split; [|split].
      * intros x. rewrite Hp. simpl. split.
        -- intros [Hx Hd]; split; auto.
        -- intros [[<-|Hx] Hd]; [|auto].
           rewrite Ey in Hd. destruct Hd as [d' [[=] _]].
      * intros x. simpl. rewrite Hn. split.
        -- intros [<-|[Hx Hd]]; [split; auto|split; auto].
        -- intros [[<-|Hx] Hd]; [left; reflexivity|right; auto].
      * intros x [<-|Hx] Hd; [left; reflexivity|right; auto].
Qed.

(** ** The buckets *)

Lemma reconcile_buckets (cutoff_date : Z) (G B : list sheet_row) :
  let res := reconcile cutoff_date G B in
  MATCHED res = both_rows (merge_outer (prepare G) (prepare B))
  /\ NEXT_FY_ITC res = right_only_rows (merge_outer (prepare G) (prepare B))
  /\ exists out, categorize_gstn cutoff_date (left_only_rows (merge_outer (prepare G) (prepare B)))
                 = (PREV_FY_ITC res, NOTINBOOKS res, out).
Proof.
  unfold reconcile.
  destruct (categorize_gstn cutoff_date (left_only_rows (merge_outer (prepare G) (prepare B))))
    as [[p n] o] eqn:E.
  simpl. eauto.
Qed.

Lemma in_rows_false (x : row) (l : list row) : ~ In x l -> in_rows x l = false.
Proof.
  intros H. destruct (in_rows x l) eqn:E; [|reflexivity].
  apply in_rows_true in E. contradiction.
Qed.

Lemma in_matched_true (res : result) (x : row) :
  in_matched res x = true <-> exists l r, In (l, r) (MATCHED res) /\ (l = x \/ r = x).
Proof.
  unfold in_matched. rewrite existsb_exists. split.
  - intros [[l r] [H E]]. simpl in E. apply orb_true_iff in E.
    rewrite !row_eqb_true in E. eauto.
  - intros [l [r [H E]]]. exists (l, r). split; [exact H|]. simpl.
    apply orb_true_iff. rewrite !row_eqb_true. exact E.
Qed.

Lemma in_matched_false (res : result) (x : row) :
  (forall l r, In (l, r) (MATCHED res) -> l <> x /\ r <> x) -> in_matched res x = false.
Proof.
  intros H. destruct (in_matched res x) eqn:E; [|reflexivity].
  apply in_matched_true in E as [l [r [Hin [El|Er]]]]; apply H in Hin; tauto.
Qed.

Lemma existsb_false_forall {A} (f : A -> bool) (l : list A) :
  existsb f l = false -> forall a, In a l -> f a = false.
Proof.
  intros H a Ha. destruct (f a) eqn:E; [|reflexivity].
  assert (existsb f l = true) by (apply existsb_exists; eauto). congruence.
Qed.

(** Every row kept by the filter lands in exactly one bucket. *)
Lemma partition_exactly_one (cutoff_date : Z) (G B : list sheet_row) (x : row) :
  In x (prepare G) \/ In x (prepare B) ->
  bucket_count (reconcile cutoff_date G B) x = 1%nat.
Proof.
  intros H.
  destruct (reconcile_buckets cutoff_date G B) as [HM [HN [o HC]]].
  set (res := reconcile cutoff_date G B) in *.
  destruct (categorize_gstn_spec _ _ _ _ _ HC) as [Hp [Hn _]].
  set (PG := prepare G) in *. set (PB := prepare B) in *.
  unfold bucket_count, bucket_flags.
  destruct H as [HG|HB].
  - assert (Hnext : in_rows x (NEXT_FY_ITC res) = false).
    { apply in_rows_false. rewrite HN, in_right_only_rows. intros [_ Hl].
      specialize (Hl x HG). rewrite same_key_refl in Hl. discriminate. }
    rewrite Hnext.
    destruct (existsb (same_key x) PB) eqn:EA.
    + apply existsb_exists in EA as [r [Hr Hk]].
      assert (Hm : in_matched res x = true).
      { apply in_matched_true. exists x, r. rewrite HM, in_both_rows. auto. }
      assert (Hl : ~ In x (left_only_rows (merge_outer PG PB))).
      { rewrite in_left_only_rows. intros [_ Hno]. rewrite Hno in Hk by exact Hr. discriminate. }
      rewrite Hm, !in_rows_false; [reflexivity| |];
        [rewrite Hn | rewrite Hp]; intros [Hx _]; contradiction.
    + pose proof (existsb_false_forall _ _ EA) as Hno.
      assert (Hm : in_matched res x = false).
      { apply in_matched_false. intros l r Hin. rewrite HM, in_both_rows in Hin.
        destruct Hin as [Hl [Hr Hk]]. split; intros ->.
        - rewrite Hno in Hk by exact Hr. discriminate.
        - specialize (Hno x Hr). rewrite same_key_refl in Hno. discriminate. }
      assert (Hl : In x (left_only_rows (merge_outer PG PB)))
        by (rewrite in_left_only_rows; auto).
      rewrite Hm.
      destruct (Invoice_Date x) as [d|] eqn:Ed; [destruct (Z_lt_le_dec d cutoff_date)|].
      * rewrite (proj2 (in_rows_true _ _) (proj2 (Hp x) (conj Hl (ex_intro _ d (conj Ed l))))).
        rewrite in_rows_false; [reflexivity|]. rewrite Hn, Ed. intros [_ [[=]|[d' [[= <-] Hle]]]]. lia.
      * rewrite (proj2 (in_rows_true _ _) (proj2 (Hn x) (conj Hl (or_intror (ex_intro _ d (conj Ed l)))))).
        rewrite in_rows_false; [reflexivity|]. rewrite Hp, Ed. intros [_ [d' [[= <-] Hlt]]]. lia.
      * rewrite (proj2 (in_rows_true _ _) (proj2 (Hn x) (conj Hl (or_introl Ed)))).
        rewrite in_rows_false; [reflexivity|]. rewrite Hp, Ed. intros [_ [d' [[=] _]]].
  - destruct (existsb (fun l => same_key l x) PG) eqn:EB.
    + apply existsb_exists in EB as [l [Hl Hk]].
      assert (Hm : in_matched res x = true).
      { apply in_matched_true. exists l, x. rewrite HM, in_both_rows. auto. }
      assert (Hlo : ~ In x (left_only_rows (merge_outer PG PB))).
      { rewrite in_left_only_rows. intros [_ Hno].
        specialize (Hno x HB). rewrite same_key_refl in Hno. discriminate. }
      rewrite Hm, !in_rows_false; [reflexivity| | |].
      * rewrite HN, in_right_only_rows. intros [_ Hno]. rewrite Hno in Hk by exact Hl. discriminate.
      * rewrite Hn. intros [Hx _]. contradiction.
      * rewrite Hp. intros [Hx _]. contradiction.
    + pose proof (existsb_false_forall _ _ EB) as Hno.
      assert (HnG : ~ In x PG).
      { intros HxG. specialize (Hno x HxG). simpl in Hno. rewrite same_key_refl in Hno. discriminate. }
      assert (Hm : in_matched res x = false).
      { apply in_matched_false. intros l r Hin. rewrite HM, in_both_rows in Hin.
        destruct Hin as [Hl [Hr Hk]]. split; intros ->.
        - contradiction.
        - simpl in Hno. rewrite Hno in Hk by exact Hl. discriminate. }
      assert (Hnx : in_rows x (NEXT_FY_ITC res) = true).
      { apply in_rows_true. rewrite HN, in_right_only_rows. auto. }
      rewrite Hm, Hnx, !in_rows_false; [reflexivity| |].
      * rewrite Hn, in_left_only_rows. intros [[Hx _] _]. contradiction.
      * rewrite Hp, in_left_only_rows. intros [[Hx _] _]. contradiction.
Qed.

Lemma both_rows_merge (L R : list row) :
  both_rows (merge_outer L R) = flat_map (fun l => map (pair l) (filter (same_key l) R)) L.
Proof.
  unfold both_rows, merge_outer. rewrite flat_map_app.
  assert (Hr : forall m, flat_map (fun x => match x with both l r => [(l, r)] | _ => [] end)
                           (map right_only m) = []) by (induction m; simpl; auto).
  rewrite Hr, app_nil_r. clear Hr.
  induction L as [|a L IH]; [reflexivity|].
  cbn [flat_map]. rewrite flat_map_app, IH. f_equal.
  destruct (filter (same_key a) R) as [|r rs]; simpl; [reflexivity|].
  f_equal. induction rs as [|r' rs IHrs]; simpl; [reflexivity|]. rewrite IHrs. reflexivity.
Qed.

Lemma filter_map_pair (k : string * string) (a : row) (F : list row) :
  filter (fun p => has_key k (fst p)) (map (pair a) F)
  = if has_key k a then map (pair a) F else [].
Proof.
  induction F as [|r F IH]; simpl; [destruct (has_key k a); reflexivity|].
  rewrite IH. destruct (has_key k a); reflexivity.
Qed.

Lemma key_eqb_sym (k1 k2 : string * string) : key_eqb k1 k2 = key_eqb k2 k1.
Proof.
  destruct (key_eqb k1 k2) eqn:E, (key_eqb k2 k1) eqn:E'; try reflexivity.
  - apply key_eqb_true in E. subst. rewrite key_eqb_refl in E'. discriminate.
  - apply key_eqb_true in E'. subst. rewrite key_eqb_refl in E. discriminate.
Qed.

Lemma matched_count (k : string * string) (L R : list row) :
  length (filter (fun p => has_key k (fst p)) (both_rows (merge_outer L R)))
  = (key_group_size k L * key_group_size k R)%nat.
Proof.
  rewrite both_rows_merge. unfold key_group_size.
  induction L as [|a L IH]; simpl; [reflexivity|].
  rewrite filter_app, length_app, IH, filter_map_pair.
  destruct (has_key k a) eqn:E; simpl; [|reflexivity].
  rewrite length_map. f_equal.
  apply key_eqb_true in E.
  f_equal. apply filter_ext. intros r. unfold same_key, has_key. rewrite E. apply key_eqb_sym.
Qed.

(** ** Claims on the buckets *)

(** C3: every row kept by the filter of either sheet appears in exactly one
    of MATCHED (as either side of a pair), PREV_FY_ITC, NOTINBOOKS and
    NEXT_FY_ITC. *)
Theorem filtered_rows_in_exactly_one_bucket (cutoff_date : Z) (G B : list sheet_row) (x : row) :
  In x (prepare G) \/ In x (prepare B) ->
  bucket_count (reconcile cutoff_date G B) x = 1%nat.
Proof. apply partition_exactly_one. Qed.

Lemma filtered_rows_in_exactly_one_bucket_witness :
  (In (cleaned sample_gstn_row) (prepare [sample_gstn_row; sample_undated_row])
   \/ In (cleaned sample_gstn_row) (prepare [sample_books_row]))
  /\ bucket_count (main [sample_gstn_row; sample_undated_row] [sample_books_row])
                  (cleaned sample_gstn_row) = 1%nat.
Proof.
  assert (H : In (cleaned sample_gstn_row) (prepare [sample_gstn_row; sample_undated_row])
              \/ In (cleaned sample_gstn_row) (prepare [sample_books_row]))
    by (left; simpl; left; reflexivity).
  split; [exact H|].
  exact (filtered_rows_in_exactly_one_bucket default_cutoff _ _ _ H).
Defined.

(** C6: within a key group the merge pairs every GSTN row with every BOOKS
    row: each such pair is in MATCHED, and the number of MATCHED pairs with
    key [k] is the product of the group sizes on both sides. *)
Theorem merge_pairs_every_combination (cutoff_date : Z) (G B : list sheet_row) :
  (forall l r, In l (prepare G) -> In r (prepare B) -> same_key l r = true ->
               In (l, r) (MATCHED (reconcile cutoff_date G B)))
  /\ (forall k, matched_group_size k (reconcile cutoff_date G B)
                = (key_group_size k (prepare G) * key_group_size k (prepare B))%nat).
Proof.
  destruct (reconcile_buckets cutoff_date G B) as [HM _].
  unfold matched_group_size. rewrite HM. split.
  - intros l r Hl Hr Hk. apply in_both_rows. auto.
  - intros k. apply matched_count.
Qed.

Lemma merge_pairs_every_combination_witness :
  In (cleaned sample_gstn_row, cleaned dup_books_row)
     (MATCHED (main [sample_gstn_row; dup_gstn_row] [sample_books_row; dup_books_row]))
  /\ matched_group_size ("27AAAAA0000A1Z5", "001")
       (main [sample_gstn_row; dup_gstn_row] [sample_books_row; dup_books_row]) = 4%nat.
Proof.
  destruct (merge_pairs_every_combination default_cutoff
              [sample_gstn_row; dup_gstn_row] [sample_books_row; dup_books_row]) as [H1 H2].
  split.
  - apply H1; [simpl; left; reflexivity | simpl; right; left; reflexivity | reflexivity].
  - unfold main. rewrite H2. reflexivity.
Defined.

(** C5: an unmatched GSTN row with an invoice date goes to PREV_FY_ITC when
    the date is strictly before the cutoff and to NOTINBOOKS (and not
    PREV_FY_ITC) when it is on or after the cutoff. *)
Theorem unmatched_dated_row_period (cutoff_date : Z) (G B : list sheet_row) (x : row) (d : Z) :
  In x (prepare G) ->
  (forall r, In r (prepare B) -> same_key x r = false) ->
  Invoice_Date x = Some d ->
  ((d < cutoff_date)%Z ->
     In x (PREV_FY_ITC (reconcile cutoff_date G B))
     /\ ~ In x (NOTINBOOKS (reconcile cutoff_date G B)))
  /\ ((cutoff_date <= d)%Z ->
     In x (NOTINBOOKS (reconcile cutoff_date G B))
     /\ ~ In x (PREV_FY_ITC (reconcile cutoff_date G B))).
Proof.
  intros HG Hno Hd.
  destruct (reconcile_buckets cutoff_date G B) as [_ [_ [o HC]]].
  destruct (categorize_gstn_spec _ _ _ _ _ HC) as [Hp [Hn _]].
  assert (Hl : In x (left_only_rows (merge_outer (prepare G) (prepare B))))
    by (apply in_left_only_rows; auto).
  split; intros Hc; split.
  - apply Hp. split; [exact Hl|]. exists d. auto.
  - rewrite Hn, Hd. intros [_ [[=]|[d' [[= <-] Hle]]]]. lia.
  - apply Hn. split; [exact Hl|]. right. exists d. auto.
  - rewrite Hp, Hd. intros [_ [d' [[= <-] Hlt]]]. lia.
Qed.

Lemma unmatched_dated_row_period_witness :
  In (cleaned sample_gstn_row) (prepare [sample_gstn_row])
  /\ (forall r, In r (prepare []) -> same_key (cleaned sample_gstn_row) r = false)
  /\ Invoice_Date (cleaned sample_gstn_row) = Some sample_date
  /\ In (cleaned sample_gstn_row) (NOTINBOOKS (main [sample_gstn_row] []))
  /\ In (cleaned sample_gstn_row) (PREV_FY_ITC (reconcile 19900%Z [sample_gstn_row] [])).
Proof.
  assert (H1 : In (cleaned sample_gstn_row) (prepare [sample_gstn_row]))
    by (simpl; left; reflexivity).
  assert (H2 : forall r, In r (prepare []) -> same_key (cleaned sample_gstn_row) r = false)
    by (intros r []).
  assert (H3 : Invoice_Date (cleaned sample_gstn_row) = Some sample_date) by reflexivity.
  split; [exact H1|]. split; [exact H2|]. split; [exact H3|]. split.
  - apply (unmatched_dated_row_period default_cutoff _ _ _ _ H1 H2 H3).
    unfold default_cutoff, sample_date. lia.
  - apply (unmatched_dated_row_period 19900%Z _ _ _ _ H1 H2 H3).
    unfold sample_date. lia.
Defined.

Lemma categorize_gstn_eq (cutoff_date : Z) (df : list row) :
  categorize_gstn cutoff_date df
  = (filter (before_cutoff cutoff_date) df,
     filter (fun r => negb (before_cutoff cutoff_date r)) df,
     map missing_date_message (filter undated df)).
Proof.
  induction df as [|r df IH]; [reflexivity|].
  cbn [categorize_gstn]. rewrite IH. cbn [filter map].
  assert (Hb : before_cutoff cutoff_date r
               = match Invoice_Date r with Some d => (d <? cutoff_date)%Z | None => false end)
    by reflexivity.
  assert (Hu : undated r = match Invoice_Date r with None => true | Some _ => false end)
    by reflexivity.
  rewrite Hb, Hu.
  destruct (Invoice_Date r) as [d|]; [destruct (d <? cutoff_date)%Z|]; reflexivity.
Qed.

(** The lines printed by line 235 are, in row order, one per undated
    left_only row of [merged], naming it by the cells [merged] holds. *)
Lemma filter_map_comm {A B : Type} (f : B -> bool) (g : A -> B) (l : list A) :
  filter f (map g l) = map g (filter (fun a => f (g a)) l).
Proof.
  induction l as [|a l IH]; simpl; [reflexivity|].
  destruct (f (g a)); simpl; rewrite IH; reflexivity.
Qed.

Lemma printed_lines_eq (dtype : invoice_dtype) (cutoff_date : Z) (G B : list sheet_row) :
  printed_lines dtype cutoff_date G B
  = map (fun x => missing_date_message
                    (as_merged dtype (match NEXT_FY_ITC (reconcile cutoff_date G B) with
                                      | [] => false | _ => true end) x))
        (filter undated (left_only_rows (merge_outer (prepare G) (prepare B)))).
Proof.
  destruct (reconcile_buckets cutoff_date G B) as [_ [HN _]]. rewrite HN.
  unfold printed_lines. cbv zeta. rewrite categorize_gstn_eq. cbn [snd].
  rewrite filter_map_comm, map_map. reflexivity.
Qed.




Lemma re_sub_alpha_all_alpha (s : string) :
  forallb is_ascii_alpha (list_ascii_of_string s) = true -> re_sub_alpha s = "".
Proof.
  induction s as [|c s IH]; simpl; [reflexivity|].
  intros H. apply andb_true_iff in H as [Hc Hs]. rewrite Hc. exact (IH Hs).
Qed.

Lemma cleaned_in_prepare (G : list sheet_row) (r : sheet_row) (p s : string) :
  In r G -> cell_GSTN r = Some p -> cell_Invoice_Number r = Some s ->
  In (cleaned r) (prepare G).
Proof.
  intros Hr Hp Hs. unfold prepare. apply in_flat_map. exists r. split; [exact Hr|].
  unfold prepare_row, cleaned. rewrite Hp, Hs. left. reflexivity.
Qed.

(** C1 (code bug): the purely alphabetic invoice numbers "ABC" (GSTN) and
    "XYZ" (BOOKS) of one party both normalize to the empty key.  The
    [.dropna(subset=["InvoiceNumber_clean"])] of lines 125 and 135 drops
    missing keys only, not empty ones, so both rows are kept and paired in
    MATCHED, where the spec excludes them from every bucket. *)
Lemma alphabetic_invoices_are_matched :
  InvoiceNumber_clean (cleaned alpha_gstn_row) = ""
  /\ MATCHED (main [alpha_gstn_row] [alpha_books_row])
     = [(cleaned alpha_gstn_row, cleaned alpha_books_row)].
Proof. split; vm_compute; reflexivity. Qed.

(** ** The mismatch detector *)

Lemma has_col_app (n : string) (t e : table) :
  has_col n (t ++ e)%list = has_col n t || has_col n e.
Proof. unfold has_col. apply existsb_app. Qed.

Lemma lookup_col_app (n : string) (t e : table) :
  lookup_col n (t ++ e)%list = if has_col n t then lookup_col n t else lookup_col n e.
Proof.
  unfold lookup_col, has_col. induction t as [|[m c] t IH]; simpl; [reflexivity|].
  destruct (String.eqb m n); simpl; [reflexivity|exact IH].
Qed.

Lemma get_col_app (n : string) (t e : table) :
  has_col n t = true -> get_col n (t ++ e)%list = get_col n t.
Proof. intros H. unfold get_col. rewrite lookup_col_app, H. reflexivity. Qed.

Lemma has_col_names (n : string) (t : table) : has_col n t = true <-> In n (col_names t).
Proof.
  unfold has_col, col_names. rewrite existsb_exists. split.
  - intros [[m c] [Hin E]]. apply String.eqb_eq in E. simpl in E. subst.
    apply in_map_iff. exists (n, c). auto.
  - intros Hn. apply in_map_iff in Hn as [[m c] [E Hin]]. simpl in E. subst.
    exists (n, c). split; [exact Hin|]. apply String.eqb_refl.
Qed.

Lemma set_col_absent (n : string) (c : column) (df : table) :
  has_col n df = false -> set_col n c df = (df ++ [(n, c)])%list.
Proof.
  induction df as [|[m c'] df IH]; simpl; [reflexivity|].
  intros H. apply orb_false_iff in H as [Hm Hr]. simpl in Hm. rewrite Hm, IH by exact Hr.
  reflexivity.
Qed.

(** Name facts of the five tax fields, checked by computation. *)
Lemma tax_names_distinct (f g : string) :
  In f tax_columns -> In g tax_columns ->
  match_name g <> gstn_name f /\ match_name g <> books_name f
  /\ match_name g <> "MIS_MATCHED" /\ (match_name g = match_name f -> g = f).
Proof.
  unfold tax_columns.
  intros Hf Hg.
  repeat (destruct Hf as [<-|Hf]; [|]); try destruct Hf;
  repeat (destruct Hg as [<-|Hg]; [|]); try destruct Hg;
  repeat split; try discriminate; intros E; first [reflexivity | discriminate].
Qed.

Lemma tax_columns_nodup : NoDup tax_columns.
Proof.
  unfold tax_columns.
  repeat constructor; simpl; intros H; repeat (destruct H as [H|H]; [discriminate|]); exact H.
Qed.

Lemma match_name_reserved (t : table) (f : string) :
  no_reserved_column t -> In f tax_columns -> has_col (match_name f) t = false.
Proof.
  intros Hr Hf. destruct (has_col (match_name f) t) eqn:E; [|reflexivity].
  apply has_col_names in E. exfalso. apply (Hr _ E). right. apply in_map. exact Hf.
Qed.

Lemma mis_matched_reserved (t : table) :
  no_reserved_column t -> has_col "MIS_MATCHED" t = false.
Proof.
  intros Hr. destruct (has_col "MIS_MATCHED" t) eqn:E; [|reflexivity].
  apply has_col_names in E. exfalso. apply (Hr _ E). left. reflexivity.
Qed.

(** Names of the appended columns that are match names of fields outside
    [cols]. *)
Definition foreign_match_names (cols : list string) (extra : table) : Prop :=
  forall n, In n (col_names extra) ->
            exists g, In g tax_columns /\ ~ In g cols /\ n = match_name g.

Lemma foreign_no_data_name (cols : list string) (extra : table) (f : string) :
  foreign_match_names cols extra -> In f tax_columns ->
  has_col (gstn_name f) extra = false /\ has_col (books_name f) extra = false
  /\ has_col "MIS_MATCHED" extra = false.
Proof.
  intros Hx Hf.
  split; [|split];
    (destruct (has_col _ extra) eqn:E; [|reflexivity]);
    apply has_col_names, Hx in E as [g [Hg [_ En]]];
    destruct (tax_names_distinct f g Hf Hg) as [H1 [H2 [H3 _]]]; congruence.
Qed.

Lemma mismatch_loop_appends (t : table) (Hres : no_reserved_column t) :
  forall cols extra out df1 out1,
  incl cols tax_columns -> NoDup cols -> foreign_match_names cols extra ->
  mismatch_loop cols (t ++ extra)%list out = Some (df1, out1) ->
  exists ext, appended_match_cols t cols = Some ext /\ df1 = (t ++ extra ++ ext)%list.
Proof.
  induction cols as [|f rest IH]; intros extra out df1 out1 Hinc Hnd Hx Hl.
  - simpl in Hl. injection Hl as <- _. exists []. rewrite app_nil_r. auto.
  - assert (Hf : In f tax_columns) by (apply Hinc; left; reflexivity).
    assert (Hinc' : incl rest tax_columns) by (intros a Ha; apply Hinc; right; exact Ha).
    inversion Hnd as [|? ? Hfr Hnd']; subst.
    destruct (foreign_no_data_name _ _ f Hx Hf) as [Hxg [Hxb _]].
    simpl in Hl. rewrite !has_col_app, Hxg, Hxb, !orb_false_r in Hl. simpl.
    assert (Hx' : foreign_match_names rest extra).
    { intros n Hn. destruct (Hx n Hn) as [g [Hg [Hgn En]]].
      exists g. split; [exact Hg|]. split; [|exact En]. intros Hr. apply Hgn. right. exact Hr. }
    destruct (has_col (gstn_name f) t) eqn:Hg, (has_col (books_name f) t) eqn:Hb;
      simpl in Hl |- *; try (eapply IH; eassumption).
    rewrite !get_col_app in Hl by assumption. unfold match_series.
    destruct (float_eq_series (get_col (gstn_name f) t) (get_col (books_name f) t)) as [s|];
      [|discriminate].
    rewrite set_col_absent in Hl.
    2: { rewrite has_col_app, match_name_reserved by assumption. simpl.
         destruct (has_col (match_name f) extra) eqn:E; [|reflexivity].
         apply has_col_names, Hx in E as [g [Hg' [Hgn En]]].
         destruct (tax_names_distinct f g Hf Hg') as [_ [_ [_ Hinj]]].
         rewrite (Hinj (eq_sym En)) in Hgn. exfalso. apply Hgn. left. reflexivity. }
    rewrite <- app_assoc in Hl.
    destruct (IH (extra ++ [(match_name f, s)])%list out df1 out1 Hinc' Hnd') as [ext [He Hd]];
      [| exact Hl |].
    + intros n Hn. unfold col_names in Hn. rewrite map_app, in_app_iff in Hn.
      destruct Hn as [Hn|[<-|[]]].
      * exact (Hx' n Hn).
      * exists f. auto.
    + rewrite He. exists ((match_name f, s) :: ext). split; [reflexivity|].
      rewrite Hd, <- !app_assoc. reflexivity.
Qed.

Lemma appended_names (t : table) (cols : list string) (ext : table) :
  appended_match_cols t cols = Some ext ->
  col_names ext = map match_name
                    (filter (fun col => has_col (gstn_name col) t && has_col (books_name col) t) cols).
Proof.
  revert ext. induction cols as [|f rest IH]; intros ext H; simpl in H |- *.
  - injection H as <-. reflexivity.
  - destruct (has_col (gstn_name f) t && has_col (books_name f) t); [|exact (IH _ H)].
    destruct (match_series t f), (appended_match_cols t rest) as [e|] eqn:E; try discriminate.
    injection H as <-. simpl. f_equal. exact (IH _ eq_refl).
Qed.

Lemma appended_lookup (t : table) (cols : list string) (ext : table) (f : string) :
  incl cols tax_columns -> appended_match_cols t cols = Some ext -> In f cols ->
  has_col (gstn_name f) t && has_col (books_name f) t = true ->
  exists s, match_series t f = Some s /\ lookup_col (match_name f) ext = Some s.
Proof.
  revert ext. induction cols as [|g rest IH]; intros ext Hinc H Hf Hp; [destruct Hf|].
  assert (Hg : In g tax_columns) by (apply Hinc; left; reflexivity).
  assert (Hinc' : incl rest tax_columns) by (intros a Ha; apply Hinc; right; exact Ha).
  simpl in H.
  destruct (String.eqb g f) eqn:Egf.
  - apply String.eqb_eq in Egf. subst g. rewrite Hp in H.
    destruct (match_series t f) as [s|], (appended_match_cols t rest); try discriminate.
    injection H as <-. exists s. split; [reflexivity|].
    unfold lookup_col. simpl. rewrite String.eqb_refl. reflexivity.
  - apply String.eqb_neq in Egf.
    destruct Hf as [->|Hf]; [congruence|].
    assert (Hf' : In f tax_columns) by (apply Hinc'; exact Hf).
    destruct (tax_names_distinct f g Hf' Hg) as [_ [_ [_ Hinj]]].
    destruct (has_col (gstn_name g) t && has_col (books_name g) t);
      [|exact (IH ext Hinc' H Hf Hp)].
    destruct (match_series t g) as [s'|], (appended_match_cols t rest) as [e|] eqn:E;
      try discriminate.
    injection H as <-. destruct (IH e Hinc' eq_refl Hf Hp) as [s [Hs Hl]].
    exists s. split; [exact Hs|]. unfold lookup_col in *. simpl.
    destruct (String.eqb (match_name g) (match_name f)) eqn:En.
    + apply String.eqb_eq, Hinj in En. congruence.
    + exact Hl.
Qed.

Lemma filter_all_true {A} (f : A -> bool) (l : list A) :
  (forall a, In a l -> f a = true) -> filter f l = l.
Proof.
  induction l as [|a l IH]; intros H; simpl; [reflexivity|].
  rewrite H by (left; reflexivity). f_equal. apply IH. intros b Hb. apply H. right. exact Hb.
Qed.

Lemma filter_all_false {A} (f : A -> bool) (l : list A) :
  (forall a, In a l -> f a = false) -> filter f l = [].
Proof.
  induction l as [|a l IH]; intros H; simpl; [reflexivity|].
  rewrite H by (left; reflexivity). apply IH. intros b Hb. apply H. right. exact Hb.
Qed.

Lemma compared_fields_tax (t : table) (f : string) :
  In f (compared_fields t) -> In f tax_columns.
Proof. unfold compared_fields. intros H. apply filter_In in H. apply H. Qed.

Lemma nrows_app (t e : table) : t <> [] -> nrows (t ++ e)%list = nrows t.
Proof. destruct t as [|[n c] t]; [congruence|reflexivity]. Qed.

(** The output of [add_mismatch_flag] on a table with none of the names it
    writes: the input, followed by [MIS_MATCHED] when some field is
    compared. *)
Lemma add_mismatch_flag_out (t st out : table) (log : list string) :
  no_reserved_column t -> add_mismatch_flag t = Some (st, out, log) ->
  exists ext, appended_match_cols t tax_columns = Some ext
  /\ ((compared_fields t = [] /\ out = t)
      \/ (compared_fields t <> []
          /\ out = (t ++ [("MIS_MATCHED",
                           map (fun b => CBool (negb b))
                               (all_axis1 (map (fun f => get_col (match_name f) ext)
                                               (compared_fields t))
                                          (nrows t)))])%list)).
Proof.
  intros Hres H. unfold add_mismatch_flag in H. revert H.
  destruct (mismatch_loop tax_columns t []) as [[df1 out1]|] eqn:Hl; intros H; [|discriminate].
  rewrite <- (app_nil_r t) in Hl.
  destruct (mismatch_loop_appends t Hres tax_columns [] [] df1 out1 (incl_refl _)
              tax_columns_nodup) as [ext [He Hd]]; [intros n []| exact Hl |].
  simpl in Hd. subst df1. exists ext. split; [exact He|].
  pose proof (appended_names _ _ _ He) as Hn. fold (compared_fields t) in Hn.
  assert (Hext : forall n, In n (col_names ext) ->
                           exists g, In g (compared_fields t) /\ n = match_name g).
  { intros n Hin. rewrite Hn in Hin. apply in_map_iff in Hin as [g [<- Hg]]. eauto. }
  assert (Hmc : filter (fun n => has_col n (t ++ ext)%list) (map match_name tax_columns)
                = map match_name (compared_fields t)).
  { unfold compared_fields.
    assert (Hgen : forall cols, incl cols tax_columns ->
              filter (fun n => has_col n (t ++ ext)%list) (map match_name cols)
              = map match_name (filter (fun col => has_col (gstn_name col) t
                                                   && has_col (books_name col) t) cols)).
    2: exact (Hgen tax_columns (incl_refl _)).
    intros cols Hi.
    induction cols as [|a cols IH]; [reflexivity|].
    assert (Ha : In a tax_columns) by (apply Hi; left; reflexivity).
    simpl. rewrite has_col_app, match_name_reserved by assumption. simpl.
    assert (Hx : has_col (match_name a) ext
                 = has_col (gstn_name a) t && has_col (books_name a) t).
    { destruct (has_col (gstn_name a) t && has_col (books_name a) t) eqn:Ep.
      - apply has_col_names. rewrite Hn. apply in_map. unfold compared_fields.
        apply filter_In. auto.
      - destruct (has_col (match_name a) ext) eqn:E; [|reflexivity].
        apply has_col_names, Hext in E as [g [Hg Eg]].
        pose proof (compared_fields_tax _ _ Hg) as Hg'.
        destruct (tax_names_distinct a g Ha Hg') as [_ [_ [_ Hinj]]].
        rewrite (Hinj (eq_sym Eg)) in Hg. unfold compared_fields in Hg.
        apply filter_In in Hg as [_ Hg]. congruence. }
    rewrite Hx. destruct (has_col (gstn_name a) t && has_col (books_name a) t);
      [simpl; f_equal|]; apply IH; intros b Hb; apply Hi; right; exact Hb. }
  cbv beta iota zeta in H. rewrite Hmc in H.
  destruct (map match_name (compared_fields t)) as [|m ms] eqn:Em.
  - injection H as _ <- _. apply map_eq_nil in Em. left. split; [exact Em|].
    apply map_eq_nil in Hn. subst ext. apply app_nil_r.
  - rewrite <- Em in H, Hn. injection H as _ <- _.
    assert (Hne : compared_fields t <> []) by (intros E; rewrite E in Em; discriminate).
    right. split; [exact Hne|].
    assert (Hmis : has_col "MIS_MATCHED" ext = false).
    { destruct (has_col "MIS_MATCHED" ext) eqn:E; [|reflexivity].
      apply has_col_names, Hext in E as [g [Hg Eg]].
      pose proof (compared_fields_tax _ _ Hg) as Hg'.
      destruct (tax_names_distinct g g Hg' Hg') as [_ [_ [H3 _]]]. congruence. }
    rewrite set_col_absent by (rewrite has_col_app, mis_matched_reserved, Hmis by exact Hres;
                               reflexivity).
    unfold drop_cols. rewrite <- app_assoc, !filter_app.
    rewrite (filter_all_true _ t), (filter_all_false _ ext), (filter_all_true _ [_]).
    + rewrite app_nil_l. f_equal. f_equal. f_equal. f_equal. f_equal.
      * rewrite map_map. apply map_ext_in. intros f Hf.
        unfold get_col. rewrite lookup_col_app, match_name_reserved
          by (exact Hres || exact (compared_fields_tax _ _ Hf)).
        reflexivity.
      * apply nrows_app. intros E. subst t.
        destruct (compared_fields []) eqn:Ec; [contradiction|].
        assert (Hs : In s (compared_fields [])) by (rewrite Ec; left; reflexivity).
        unfold compared_fields in Hs. apply filter_In in Hs as [_ Hs]. discriminate.
    + intros a [<-|[]]. apply negb_true_iff.
      destruct (existsb _ _) eqn:E; [|reflexivity].
      apply existsb_exists in E as [n [Hin En]]. apply String.eqb_eq in En. simpl in En. subst n.
      apply in_map_iff in Hin as [g [Eg Hg]].
      pose proof (compared_fields_tax _ _ Hg) as Hg'.
      destruct (tax_names_distinct g g Hg' Hg') as [_ [_ [H3 _]]]. congruence.
    + intros [n c] Hin. simpl. apply negb_false_iff, existsb_exists.
      exists n. split; [|apply String.eqb_refl]. rewrite <- Hn.
      unfold col_names. apply in_map_iff. exists (n, c). auto.
    + intros [n c] Hin. simpl. apply negb_true_iff.
      destruct (existsb (String.eqb n) (map match_name (compared_fields t))) eqn:E; [|reflexivity].
      apply existsb_exists in E as [n' [Hin' En]]. apply String.eqb_eq in En. subst n'.
      apply in_map_iff in Hin' as [g [Eg Hg]].
      exfalso. apply (Hres n).
      * unfold col_names. apply in_map_iff. exists (n, c). auto.
      * right. rewrite <- Eg. apply in_map. exact (compared_fields_tax _ _ Hg).
Qed.

Lemma float_eq_series_nth (g b s : column) (i : nat) :
  float_eq_series g b = Some s -> length g = length b -> (i < length g)%nat ->
  nth i s CNA = CBool (match fillna0_float (nth i g CNA), fillna0_float (nth i b CNA) with
                       | Some x, Some y => Qeq_bool x y
                       | _, _ => false
                       end).
Proof.
  revert b s i. induction g as [|x g IH]; intros b s i H Hlen Hi; [simpl in Hi; lia|].
  destruct b as [|y b]; [discriminate|]. simpl in H.
  destruct (fillna0_float x) as [qx|] eqn:Ex, (fillna0_float y) as [qy|] eqn:Ey,
           (float_eq_series g b) as [r|] eqn:Er; try discriminate.
  injection H as <-. destruct i as [|i]; simpl; [rewrite Ex, Ey; reflexivity|].
  apply IH; [exact Er | simpl in Hlen; lia | simpl in Hi; lia].
Qed.

Lemma get_col_length (t : table) (n : string) :
  rectangular t -> has_col n t = true -> length (get_col n t) = nrows t.
Proof.
  intros Hr Hh. unfold get_col, lookup_col.
  destruct (find (fun p => String.eqb (fst p) n) t) as [[m c]|] eqn:E.
  - apply find_some in E as [Hin _]. exact (Hr m c Hin).
  - unfold has_col in Hh. apply existsb_exists in Hh as [p [Hin Hp]].
    rewrite (find_none _ _ E p Hin) in Hp. discriminate.
Qed.

Lemma forallb_ext_in {A} (f g : A -> bool) (l : list A) :
  (forall a, In a l -> f a = g a) -> forallb f l = forallb g l.
Proof.
  induction l as [|a l IH]; intros H; simpl; [reflexivity|].
  rewrite H by (left; reflexivity). f_equal. apply IH. intros b Hb. apply H. right. exact Hb.
Qed.

Lemma forallb_map_comp {A B} (f : B -> bool) (g : A -> B) (l : list A) :
  forallb f (map g l) = forallb (fun a => f (g a)) l.
Proof. induction l as [|a l IH]; simpl; [reflexivity|]. rewrite IH. reflexivity. Qed.

Ltac table_names :=
  intros ? Hn; simpl in Hn;
  repeat (destruct Hn as [<-|Hn]; [simpl; intros Hr;
            repeat (destruct Hr as [Hr|Hr]; [discriminate|]); exact Hr|]);
  destruct Hn.

Ltac table_rectangular :=
  intros ? ? Hc; simpl in Hc;
  repeat (destruct Hc as [Hc|Hc]; [injection Hc as <- <-; reflexivity|]);
  destruct Hc.

(** C4 (counterexample): when the BOOKS sheet has no CESS column, the GSTN
    CESS of 5 has no zero-filled BOOKS counterpart to be compared with, yet
    the row is not flagged. *)
Lemma books_without_cess_not_flagged :
  lookup_col "CESS" cess_only_gstn_table = Some [CNum 5]
  /\ has_col "CESS_books" cess_only_gstn_table = false
  /\ exists st out log, add_mismatch_flag cess_only_gstn_table = Some (st, out, log)
                        /\ lookup_col "MIS_MATCHED" out = Some [CBool false].
Proof.
  split; [reflexivity|]. split; [reflexivity|].
  do 3 eexists. split; [vm_compute; reflexivity|]. vm_compute. reflexivity.
Qed.

(** C4 (amended): on a table with none of the names the function writes,
    [MIS_MATCHED] of row [i] is true exactly when one of the compared fields
    (those with both a [_gstn] and a [_books] column) differs after zero
    fill. *)
Theorem mis_matched_iff_compared_fields_differ (t st out : table) (log : list string) :
  no_reserved_column t -> rectangular t ->
  add_mismatch_flag t = Some (st, out, log) -> compared_fields t <> [] ->
  lookup_col "MIS_MATCHED" out
  = Some (map (fun i => CBool (negb (forallb (fun f => field_equal t f i) (compared_fields t))))
              (seq 0 (nrows t))).
Proof.
  intros Hres Hrect H Hne.
  destruct (add_mismatch_flag_out t st out log Hres H) as [ext [He [[Hc _]|[_ Hout]]]];
    [contradiction|].
  subst out. rewrite lookup_col_app, mis_matched_reserved by exact Hres.
  unfold lookup_col. simpl. f_equal.
  unfold all_axis1. rewrite map_map. apply map_ext_in. intros i Hi.
  apply in_seq in Hi as [_ Hi]. simpl in Hi.
  do 3 f_equal. rewrite forallb_map_comp. apply forallb_ext_in. intros f Hf.
  assert (Hp : has_col (gstn_name f) t && has_col (books_name f) t = true)
    by (unfold compared_fields in Hf; apply filter_In in Hf; apply Hf).
  destruct (appended_lookup t tax_columns ext f (incl_refl _) He (compared_fields_tax _ _ Hf) Hp)
    as [s [Hs Hl]].
  apply andb_true_iff in Hp as [Hg Hb].
  unfold get_col at 1. rewrite Hl. unfold match_series in Hs.
  rewrite (float_eq_series_nth _ _ _ i Hs).
  - reflexivity.
  - rewrite !get_col_length by assumption. reflexivity.
  - rewrite get_col_length by assumption. exact Hi.
Qed.

Lemma mis_matched_iff_compared_fields_differ_witness :
  exists st out log, add_mismatch_flag five_field_table = Some (st, out, log)
                     /\ lookup_col "MIS_MATCHED" out = Some [CBool false; CBool true].
Proof.
  destruct (add_mismatch_flag five_field_table) as [[[st out] log]|] eqn:E;
    [|vm_compute in E; discriminate].
  exists st, out, log. split; [reflexivity|].
  rewrite (mis_matched_iff_compared_fields_differ five_field_table st out log).
  - vm_compute. reflexivity.
  - table_names.
  - table_rectangular.
  - exact E.
  - vm_compute. discriminate.
Defined.

(** C10 (counterexample): a column of the sheet named [Taxable_Match] is
    taken for the function's own and dropped from the output. *)
Lemma own_match_column_dropped :
  has_col "Taxable_Match" own_match_column_table = true
  /\ exists st out log, add_mismatch_flag own_match_column_table = Some (st, out, log)
                        /\ has_col "Taxable_Match" out = false.
Proof.
  split; [reflexivity|].
  do 3 eexists. split; [vm_compute; reflexivity|]. vm_compute. reflexivity.
Qed.

(** C10 (amended): on a table with no column named [MIS_MATCHED] or
    [<field>_Match], [add_mismatch_flag] returns the input columns with their
    values unchanged, followed by a [MIS_MATCHED] column when some tax field
    has both a [_gstn] and a [_books] column, and nothing else. *)
Theorem add_mismatch_flag_frame (t st out : table) (log : list string) :
  no_reserved_column t -> add_mismatch_flag t = Some (st, out, log) ->
  (compared_fields t = [] /\ out = t)
  \/ (compared_fields t <> [] /\ exists flag, out = (t ++ [("MIS_MATCHED", flag)])%list).
Proof.
  intros Hres H.
  destruct (add_mismatch_flag_out t st out log Hres H) as [ext [_ [Hl|[Hne Hout]]]];
    [left; exact Hl|].
  right. split; [exact Hne|]. eexists. exact Hout.
Qed.

Lemma add_mismatch_flag_frame_witness :
  exists st out log, add_mismatch_flag five_field_table = Some (st, out, log)
    /\ exists flag, out = (five_field_table ++ [("MIS_MATCHED", flag)])%list.
Proof.
  destruct (add_mismatch_flag five_field_table) as [[[st out] log]|] eqn:E;
    [|vm_compute in E; discriminate].
  exists st, out, log. split; [reflexivity|].
  destruct (add_mismatch_flag_frame five_field_table st out log) as [[Hc _]|[_ Hf]].
  - table_names.
  - exact E.
  - vm_compute in Hc. discriminate.
  - exact Hf.
Defined.

(** ** Columns of the NEXT_FY_ITC sheet *)

Lemma clean_columns_names_app (sheet_name : string) (a b : list string) :
  clean_columns_names sheet_name (a ++ b) = (clean_columns_names sheet_name a
                                             ++ clean_columns_names sheet_name b)%list.
Proof.
  induction a as [|c a IH]; [reflexivity|].
  cbn -[mem ends_with replace String.eqb]. rewrite IH.
  lazymatch goal with |- context [mem c ?l] => destruct (mem c l) end; [reflexivity|].
  destruct (ends_with "_books" c); [destruct (String.eqb sheet_name "MATCHED"); reflexivity|].
  destruct (ends_with "_gstn" c); [destruct (String.eqb sheet_name "NEXT_FY_ITC"); reflexivity|].
  destruct (String.eqb c "gstr1_filing_date");
    [destruct (negb (String.eqb sheet_name "MATCHED")); reflexivity|reflexivity].
Qed.

Lemma mem_true (x : string) (l : list string) : mem x l = true <-> In x l.
Proof.
  unfold mem. rewrite existsb_exists. split.
  - intros [y [Hy E]]. apply String.eqb_eq in E. subst. exact Hy.
  - intros H. exists x. split; [exact H|]. apply String.eqb_refl.
Qed.

Lemma filing_date_in_merged (gstn_sheet_cols books_sheet_cols : list string) :
  In "gstr1_filing_date" gstn_sheet_cols -> ~ In "gstr1_filing_date" books_sheet_cols ->
  In "gstr1_filing_date" (merged_columns gstn_sheet_cols books_sheet_cols).
Proof.
  intros Hg Hb. unfold merged_columns, merge_columns. apply in_app_iff. left.
  apply in_map_iff. exists "gstr1_filing_date".
  split.
  - assert (Hm : mem "gstr1_filing_date" (prepared_columns books_sheet_cols) = false).
    { destruct (mem _ _) eqn:E; [|reflexivity]. apply mem_true in E.
      unfold prepared_columns, assign_col in E.
      destruct (mem "InvoiceNumber_clean" books_sheet_cols);
        destruct (mem "InvoiceNumber_original" _);
        repeat (rewrite in_app_iff in E); simpl in E; intuition discriminate. }
    rewrite Hm. reflexivity.
  - unfold prepared_columns, assign_col.
    destruct (mem "InvoiceNumber_clean" gstn_sheet_cols);
      destruct (mem "InvoiceNumber_original" _); rewrite ?in_app_iff; auto.
Qed.

(** C2 (counterexample): with a GSTN-only [gstr1_filing_date] column, the
    NEXT_FY_ITC sheet that [save_to_excel] writes has no filing-date
    column at all. *)
Lemma next_fy_sheet_has_no_filing_date :
  In "gstr1_filing_date" gstn_sheet_columns
  /\ written_next_fy_columns gstn_sheet_columns books_sheet_columns
     = ["GSTN"; "Invoice Number"; "Invoice Date"; "Taxable"; "CGST"; "SGST"; "IGST"; "CESS"].
Proof. split; [simpl; tauto | vm_compute; reflexivity]. Qed.

(** C2 (amended): with a [gstr1_filing_date] column in the GSTN sheet and
    none in the BOOKS sheet, the NEXT_FY_ITC table the script assembles ends
    with [gstr1_filing_date] and keeps only the columns its filter regex
    accepts; the [clean_columns] step of [save_to_excel] then drops
    [gstr1_filing_date], so the written sheet has the cleaned names of the
    other assembled columns only. *)
Theorem next_fy_filing_date_last_then_dropped (gstn_sheet_cols books_sheet_cols : list string) :
  In "gstr1_filing_date" gstn_sheet_cols -> ~ In "gstr1_filing_date" books_sheet_cols ->
  exists pre,
    next_fy_columns (merged_columns gstn_sheet_cols books_sheet_cols)
    = (pre ++ ["gstr1_filing_date"])%list
    /\ ~ In "gstr1_filing_date" pre
    /\ (forall c, In c (next_fy_columns (merged_columns gstn_sheet_cols books_sheet_cols)) ->
                  next_fy_regex c = true)
    /\ written_next_fy_columns gstn_sheet_cols books_sheet_cols
       = clean_columns_names "NEXT_FY_ITC" pre.
Proof.
  intros Hg Hb.
  pose proof (filing_date_in_merged _ _ Hg Hb) as Hm.
  set (m := merged_columns gstn_sheet_cols books_sheet_cols) in *.
  assert (Hk : mem "gstr1_filing_date" (filter next_fy_regex m) = true)
    by (apply mem_true, filter_In; split; [exact Hm | reflexivity]).
  exists (filter (fun c => negb (String.eqb c "gstr1_filing_date")) (filter next_fy_regex m)).
  unfold written_next_fy_columns. fold m. unfold next_fy_columns. rewrite Hk.
  split; [reflexivity|]. split; [|split].
  - intros H. apply filter_In in H as [_ H]. rewrite String.eqb_refl in H. discriminate.
  - intros c Hc. apply in_app_iff in Hc as [Hc|[<-|[]]].
    + apply filter_In in Hc as [Hc _]. apply filter_In in Hc. apply Hc.
    + reflexivity.
  - rewrite clean_columns_names_app. simpl. apply app_nil_r.
Qed.

Lemma next_fy_filing_date_last_then_dropped_witness :
  exists pre,
    next_fy_columns (merged_columns gstn_sheet_columns books_sheet_columns)
    = (pre ++ ["gstr1_filing_date"])%list
    /\ written_next_fy_columns gstn_sheet_columns books_sheet_columns
       = clean_columns_names "NEXT_FY_ITC" pre.
Proof.
  destruct (next_fy_filing_date_last_then_dropped gstn_sheet_columns books_sheet_columns)
    as [pre [H1 [_ [_ H4]]]].
  - simpl. tauto.
  - simpl. intros H. repeat (destruct H as [H|H]; [discriminate|]). exact H.
  - exists pre. split; assumption.
Defined.

(** ** The row-level pipeline *)

Lemma prepare_eq (sheet : list sheet_row) :
  prepare sheet = map cleaned (filter key_cells_present sheet).
Proof.
  induction sheet as [|r sheet IH]; [reflexivity|].
  unfold prepare in *. cbn [flat_map filter]. rewrite IH.
  assert (Hk : key_cells_present r
               = match cell_GSTN r, cell_Invoice_Number r with
                 | Some _, Some _ => true | _, _ => false end) by reflexivity.
  rewrite Hk. unfold prepare_row.
  destruct (cell_GSTN r) eqn:E1, (cell_Invoice_Number r) eqn:E2; try reflexivity.
  cbn [map app]. f_equal. unfold cleaned. rewrite E1, E2. reflexivity.
Qed.

Lemma same_key_iff (l r : row) : same_key l r = true <-> key_of l = key_of r.
Proof. apply key_eqb_true. Qed.

Lemma same_key_false (l r : row) : same_key l r = false <-> key_of l <> key_of r.
Proof.
  rewrite <- same_key_iff. destruct (same_key l r); split; congruence.
Qed.

(** [categorize_gstn] keeps its input rows in order: [prev_fy] is the
    subsequence of rows dated before the cutoff, [not_in_books] the
    subsequence of the others, and the printed lines are one per undated
    row, in row order. *)
Theorem categorize_gstn_order_preserving_split (cutoff_date : Z) (df : list row) :
  categorize_gstn cutoff_date df
  = (filter (before_cutoff cutoff_date) df,
     filter (fun r => negb (before_cutoff cutoff_date r)) df,
     map missing_date_message (filter undated df)).
Proof. apply categorize_gstn_eq. Qed.

(** The cleaning of lines 118-136 keeps exactly the rows with both a GSTN
    and an invoice number, in order: the second [dropna] never removes a
    row, and each kept row carries its raw invoice number and its
    normalized one. *)
Theorem prepare_keeps_rows_with_key_cells (sheet : list sheet_row) :
  prepare sheet = map cleaned (filter key_cells_present sheet).
Proof. apply prepare_eq. Qed.

(** Every MATCHED pair joins a cleaned GSTN row and a cleaned BOOKS row
    with the same party id and the same normalized invoice number. *)
Theorem matched_pairs_share_key (cutoff_date : Z) (G B : list sheet_row) (l r : row) :
  In (l, r) (MATCHED (reconcile cutoff_date G B)) ->
  (exists g, In g G /\ key_cells_present g = true /\ l = cleaned g)
  /\ (exists b, In b B /\ key_cells_present b = true /\ r = cleaned b)
  /\ GSTN l = GSTN r /\ InvoiceNumber_clean l = InvoiceNumber_clean r.
Proof.
  destruct (reconcile_buckets cutoff_date G B) as [Hm _]. rewrite Hm.
  intros H. apply in_both_rows in H as [Hl [Hr Hk]].
  apply same_key_iff in Hk. unfold key_of in Hk. injection Hk as Hg Hc.
  rewrite prepare_eq in Hl, Hr.
  apply in_map_iff in Hl as [g [<- Hg']]. apply in_map_iff in Hr as [b [<- Hb']].
  apply filter_In in Hg', Hb'.
  split; [exists g; tauto|]. split; [exists b; tauto|]. auto.
Qed.

Lemma matched_pairs_share_key_witness :
  In (cleaned sample_gstn_row, cleaned sample_books_row)
     (MATCHED (reconcile default_cutoff [sample_gstn_row] [sample_books_row]))
  /\ GSTN (cleaned sample_gstn_row) = GSTN (cleaned sample_books_row)
  /\ InvoiceNumber_clean (cleaned sample_gstn_row) = InvoiceNumber_clean (cleaned sample_books_row).
Proof.
  assert (H : In (cleaned sample_gstn_row, cleaned sample_books_row)
                 (MATCHED (reconcile default_cutoff [sample_gstn_row] [sample_books_row])))
    by (vm_compute; left; reflexivity).
  destruct (matched_pairs_share_key default_cutoff [sample_gstn_row] [sample_books_row]
              (cleaned sample_gstn_row) (cleaned sample_books_row) H) as [_ [_ [Hg Hc]]].
  split; [exact H|]. split; [exact Hg|exact Hc].
Defined.

(** NEXT_FY_ITC holds exactly the cleaned BOOKS rows whose key no cleaned
    GSTN row has. *)
Theorem next_fy_rows_are_unpartnered_books_rows (cutoff_date : Z) (G B : list sheet_row) (x : row) :
  In x (NEXT_FY_ITC (reconcile cutoff_date G B))
  <-> In x (prepare B) /\ forall l, In l (prepare G) -> key_of l <> key_of x.
Proof.
  destruct (reconcile_buckets cutoff_date G B) as [_ [Hn _]]. rewrite Hn, in_right_only_rows.
  split; intros [Hx Hl]; split; auto; intros l Hl'; apply same_key_false; auto.
Qed.

(** PREV_FY_ITC and NOTINBOOKS together hold exactly the cleaned GSTN rows
    whose key no cleaned BOOKS row has. *)
Theorem unmatched_gstn_rows_split (cutoff_date : Z) (G B : list sheet_row) (x : row) :
  In x (PREV_FY_ITC (reconcile cutoff_date G B)) \/ In x (NOTINBOOKS (reconcile cutoff_date G B))
  <-> In x (prepare G) /\ forall r, In r (prepare B) -> key_of x <> key_of r.
Proof.
  destruct (reconcile_buckets cutoff_date G B) as [_ [_ [o Hc]]].
  rewrite categorize_gstn_eq in Hc. injection Hc as Hp Hn _.
  rewrite <- Hp, <- Hn, !filter_In, in_left_only_rows.
  split.
  - intros [[[Hx Hr] _]|[[Hx Hr] _]]; split; auto; intros r Hr'; apply same_key_false; auto.
  - intros [Hx Hr].
    assert (Hr' : forall r, In r (prepare B) -> same_key x r = false)
      by (intros r Hr'; apply same_key_false; auto).
    destruct (before_cutoff cutoff_date x); [left|right]; auto.
Qed.

Lemma filter_undated_not_before (cutoff_date : Z) (l : list row) :
  filter undated (filter (fun r => negb (before_cutoff cutoff_date r)) l) = filter undated l.
Proof.
  induction l as [|r l IH]; [reflexivity|]. cbn [filter].
  assert (Hb : before_cutoff cutoff_date r
               = match Invoice_Date r with Some d => (d <? cutoff_date)%Z | None => false end)
    by reflexivity.
  assert (Hu : undated r = match Invoice_Date r with None => true | Some _ => false end)
    by reflexivity.
  rewrite Hb. destruct (Invoice_Date r) as [d|] eqn:E.
  - destruct (d <? cutoff_date)%Z; cbn [negb filter]; rewrite ?Hu, ?E, ?IH; reflexivity.
  - cbn [negb filter]. rewrite ?Hu, ?E, ?IH. reflexivity.
Qed.

(** The lines printed by line 235 are, in row order, exactly one per undated
    row of NOTINBOOKS, naming its party id and its invoice number as
    [merged] holds it. *)
Theorem printed_lines_are_undated_notinbooks (dtype : invoice_dtype) (cutoff_date : Z)
  (G B : list sheet_row) :
  printed_lines dtype cutoff_date G B
  = map (fun x => "Missing Invoice Date: " ++ GSTN x ++ ", "
                  ++ merged_original_gstn dtype
                       (match NEXT_FY_ITC (reconcile cutoff_date G B) with
                        | [] => false | _ => true end) x)
        (filter undated (NOTINBOOKS (reconcile cutoff_date G B))).
Proof.
  rewrite printed_lines_eq.
  destruct (reconcile_buckets cutoff_date G B) as [_ [_ [o Hc]]].
  rewrite categorize_gstn_eq in Hc. injection Hc as _ Hn _. rewrite <- Hn.
  rewrite filter_undated_not_before. reflexivity.
Qed.

(** ** [add_mismatch_flag]: printed warnings, failures, the caller's table *)

Lemma has_col_set_col (n m : string) (c : column) (df : table) :
  m <> n -> has_col n (set_col m c df) = has_col n df.
Proof.
  intros Hmn. induction df as [|[k c'] df IH]; simpl.
  - apply String.eqb_neq in Hmn. rewrite Hmn. reflexivity.
  - destruct (String.eqb k m) eqn:E; simpl.
    + reflexivity.
    + rewrite IH. reflexivity.
Qed.

Lemma lookup_col_set_col (n m : string) (c : column) (df : table) :
  m <> n -> lookup_col n (set_col m c df) = lookup_col n df.
Proof.
  intros Hmn. unfold lookup_col. induction df as [|[k c'] df IH]; simpl.
  - apply String.eqb_neq in Hmn. rewrite Hmn. reflexivity.
  - destruct (String.eqb k m) eqn:E; simpl.
    + apply String.eqb_eq in E. subst k. apply String.eqb_neq in Hmn. rewrite Hmn. reflexivity.
    + destruct (String.eqb k n); [reflexivity|exact IH].
Qed.

Lemma get_col_set_col (n m : string) (c : column) (df : table) :
  m <> n -> get_col n (set_col m c df) = get_col n df.
Proof. intros H. unfold get_col. rewrite lookup_col_set_col by exact H. reflexivity. Qed.

Lemma agrees_refl (t : table) : agrees_on_tax_data t t.
Proof. intros f _. auto. Qed.

Lemma agrees_set_col (t df : table) (g : string) (s : column) :
  In g tax_columns -> agrees_on_tax_data t df ->
  agrees_on_tax_data t (set_col (match_name g) s df).
Proof.
  intros Hg Ha f Hf. destruct (tax_names_distinct f g Hf Hg) as [H1 [H2 _]].
  rewrite !has_col_set_col, !get_col_set_col by assumption. apply Ha, Hf.
Qed.

Lemma mismatch_loop_none (t : table) :
  forall cols df out, incl cols tax_columns -> agrees_on_tax_data t df ->
  mismatch_loop cols df out = None <->
  exists f, In f cols /\ has_col (gstn_name f) t && has_col (books_name f) t = true
            /\ match_series t f = None.
Proof.
  induction cols as [|g rest IH]; intros df out Hi Ha.
  - simpl. split; [discriminate|intros [f [[] _]]].
  - assert (Hg : In g tax_columns) by (apply Hi; left; reflexivity).
    assert (Hi' : incl rest tax_columns) by (intros a Ha'; apply Hi; right; exact Ha').
    destruct (Ha g Hg) as [E1 [E2 [E3 E4]]].
    simpl. rewrite E1, E2, E3, E4.
    change (float_eq_series (get_col (gstn_name g) t) (get_col (books_name g) t))
      with (match_series t g).
    destruct (has_col (gstn_name g) t) eqn:Hgc, (has_col (books_name g) t) eqn:Hbc; simpl.
    + destruct (match_series t g) as [s|] eqn:Ems.
      * rewrite (IH _ out Hi' (agrees_set_col t df g s Hg Ha)). split.
        -- intros [f [Hf Hp]]. exists f. simpl. tauto.
        -- intros [f [[<-|Hf] [Hp Hn]]]; [congruence|]. exists f. tauto.
      * split; [intros _; exists g; split; [left; reflexivity|split; [rewrite Hgc, Hbc; reflexivity|exact Ems]]
               |reflexivity].
    + rewrite (IH _ _ Hi' Ha). split.
      * intros [f [Hf Hp]]. exists f. simpl. tauto.
      * intros [f [[<-|Hf] [Hp Hn]]]; [rewrite Hgc, Hbc in Hp; discriminate|]. exists f. tauto.
    + rewrite (IH _ _ Hi' Ha). split.
      * intros [f [Hf Hp]]. exists f. simpl. tauto.
      * intros [f [[<-|Hf] [Hp Hn]]]; [rewrite Hgc, Hbc in Hp; discriminate|]. exists f. tauto.
    + rewrite (IH _ _ Hi' Ha). split.
      * intros [f [Hf Hp]]. exists f. simpl. tauto.
      * intros [f [[<-|Hf] [Hp Hn]]]; [rewrite Hgc, Hbc in Hp; discriminate|]. exists f. tauto.
Qed.

Lemma mismatch_loop_log (t : table) :
  forall cols df out df1 out1, incl cols tax_columns -> agrees_on_tax_data t df ->
  mismatch_loop cols df out = Some (df1, out1) ->
  out1 = (out ++ map missing_tax_warning
                   (filter (fun f => negb (has_col (gstn_name f) t && has_col (books_name f) t))
                           cols))%list.
Proof.
  induction cols as [|g rest IH]; intros df out df1 out1 Hi Ha H.
  - simpl in H. injection H as _ <-. simpl. rewrite app_nil_r. reflexivity.
  - assert (Hg : In g tax_columns) by (apply Hi; left; reflexivity).
    assert (Hi' : incl rest tax_columns) by (intros a Ha'; apply Hi; right; exact Ha').
    destruct (Ha g Hg) as [E1 [E2 [E3 E4]]].
    simpl in H |- *. rewrite E1, E2, E3, E4 in H.
    destruct (has_col (gstn_name g) t) eqn:Hgc, (has_col (books_name g) t) eqn:Hbc;
      simpl in H |- *.
    + destruct (float_eq_series _ _) as [s|]; [|discriminate].
      exact (IH _ _ _ _ Hi' (agrees_set_col t df g s Hg Ha) H).
    + rewrite (IH _ _ _ _ Hi' Ha H), <- app_assoc. reflexivity.
    + rewrite (IH _ _ _ _ Hi' Ha H), <- app_assoc. reflexivity.
    + rewrite (IH _ _ _ _ Hi' Ha H), <- app_assoc. reflexivity.
Qed.

Lemma mismatch_loop_skip (t : table) :
  forall cols out,
  (forall f, In f cols -> has_col (gstn_name f) t && has_col (books_name f) t = false) ->
  mismatch_loop cols t out = Some (t, out ++ map missing_tax_warning cols)%list.
Proof.
  induction cols as [|g rest IH]; intros out H.
  - simpl. rewrite app_nil_r. reflexivity.
  - simpl. assert (Hp := H g (or_introl eq_refl)).
    destruct (has_col (gstn_name g) t), (has_col (books_name g) t); try discriminate; simpl;
      (rewrite IH by (intros f Hf; apply H; right; exact Hf);
       rewrite <- app_assoc; reflexivity).
Qed.

Lemma fillna0_float_none (x : cell) : fillna0_float x = None <-> exists s, x = CText s.
Proof. destruct x; simpl; split; try discriminate; try (intros [s Hs]; discriminate); eauto. Qed.

Lemma float_eq_series_none (g b : column) :
  float_eq_series g b = None <->
  exists i, (i < length g)%nat /\ (i < length b)%nat
            /\ (fillna0_float (nth i g CNA) = None \/ fillna0_float (nth i b CNA) = None).
Proof.
  revert b. induction g as [|x g IH]; intros b.
  - simpl. split; [discriminate|intros [i [Hi _]]; lia].
  - destruct b as [|y b].
    + simpl. split; [discriminate|intros [i [_ [Hi _]]]; simpl in Hi; lia].
    + simpl. specialize (IH b).
      destruct (fillna0_float x) eqn:Ex, (fillna0_float y) eqn:Ey,
               (float_eq_series g b) eqn:Er.
      all: split; [intros H; try discriminate | intros [i [Hi [Hj Hn]]]; try reflexivity].
      all: try (exists 0%nat; simpl; rewrite ?Ex, ?Ey; split; [lia|split; [lia|auto]]; fail).
      * destruct i as [|i]; simpl in Hn; [rewrite Ex, Ey in Hn; destruct Hn; discriminate|].
        simpl in Hi, Hj.
        assert (Hf : Some c = None) by (apply IH; exists i; split; [lia|split; [lia|exact Hn]]).
        discriminate.
      * destruct (proj1 IH eq_refl) as [i [Hi [Hj Hn]]].
        exists (S i). simpl. split; [lia|split; [lia|exact Hn]].
Qed.

Lemma add_mismatch_flag_none (t : table) :
  add_mismatch_flag t = None <-> mismatch_loop tax_columns t [] = None.
Proof.
  unfold add_mismatch_flag.
  destruct (mismatch_loop tax_columns t []) as [[df1 out1]|]; [|tauto].
  cbv zeta. destruct (filter _ _); split; discriminate.
Qed.

Lemma add_mismatch_flag_state (t st out : table) (log : list string) :
  no_reserved_column t -> add_mismatch_flag t = Some (st, out, log) ->
  exists ext, appended_match_cols t tax_columns = Some ext
  /\ col_names ext = map match_name (compared_fields t)
  /\ ((compared_fields t = [] /\ st = t /\ out = t)
      \/ (compared_fields t <> []
          /\ exists flag, st = (t ++ ext ++ [("MIS_MATCHED", flag)])%list
                          /\ out = (t ++ [("MIS_MATCHED", flag)])%list)).
Proof.
  intros Hres H. unfold add_mismatch_flag in H. revert H.
  destruct (mismatch_loop tax_columns t []) as [[df1 out1]|] eqn:Hl; intros H; [|discriminate].
  rewrite <- (app_nil_r t) in Hl.
  destruct (mismatch_loop_appends t Hres tax_columns [] [] df1 out1 (incl_refl _)
              tax_columns_nodup) as [ext [He Hd]]; [intros n []| exact Hl |].
  simpl in Hd. subst df1. exists ext. split; [exact He|].
  pose proof (appended_names _ _ _ He) as Hn. fold (compared_fields t) in Hn.
  split; [exact Hn|].
  assert (Hext : forall n, In n (col_names ext) ->
                           exists g, In g (compared_fields t) /\ n = match_name g).
  { intros n Hin. rewrite Hn in Hin. apply in_map_iff in Hin as [g [<- Hg]]. eauto. }
  assert (Hmc : filter (fun n => has_col n (t ++ ext)%list) (map match_name tax_columns)
                = map match_name (compared_fields t)).
  { unfold compared_fields.
    assert (Hgen : forall cols, incl cols tax_columns ->
              filter (fun n => has_col n (t ++ ext)%list) (map match_name cols)
              = map match_name (filter (fun col => has_col (gstn_name col) t
                                                   && has_col (books_name col) t) cols)).
    2: exact (Hgen tax_columns (incl_refl _)).
    intros cols Hi.
    induction cols as [|a cols IH]; [reflexivity|].
    assert (Ha : In a tax_columns) by (apply Hi; left; reflexivity).
    simpl. rewrite has_col_app, match_name_reserved by assumption. simpl.
    assert (Hx : has_col (match_name a) ext
                 = has_col (gstn_name a) t && has_col (books_name a) t).
    { destruct (has_col (gstn_name a) t && has_col (books_name a) t) eqn:Ep.
      - apply has_col_names. rewrite Hn. apply in_map. unfold compared_fields.
        apply filter_In. auto.
      - destruct (has_col (match_name a) ext) eqn:E; [|reflexivity].
        apply has_col_names, Hext in E as [g [Hg Eg]].
        pose proof (compared_fields_tax _ _ Hg) as Hg'.
        destruct (tax_names_distinct a g Ha Hg') as [_ [_ [_ Hinj]]].
        rewrite (Hinj (eq_sym Eg)) in Hg. unfold compared_fields in Hg.
        apply filter_In in Hg as [_ Hg]. congruence. }
    rewrite Hx. destruct (has_col (gstn_name a) t && has_col (books_name a) t);
      [simpl; f_equal|]; apply IH; intros b Hb; apply Hi; right; exact Hb. }
  cbv beta iota zeta in H. rewrite Hmc in H.
  destruct (map match_name (compared_fields t)) as [|m ms] eqn:Em.
  - injection H as <- <- _. apply map_eq_nil in Em. left. split; [exact Em|].
    apply map_eq_nil in Hn. subst ext. rewrite app_nil_r. auto.
  - rewrite <- Em in H, Hn. injection H as <- <- _.
    assert (Hne : compared_fields t <> []) by (intros E; rewrite E in Em; discriminate).
    right. split; [exact Hne|].
    assert (Hmis : has_col "MIS_MATCHED" ext = false).
    { destruct (has_col "MIS_MATCHED" ext) eqn:E; [|reflexivity].
      apply has_col_names, Hext in E as [g [Hg Eg]].
      pose proof (compared_fields_tax _ _ Hg) as Hg'.
      destruct (tax_names_distinct g g Hg' Hg') as [_ [_ [H3 _]]]. congruence. }
    rewrite set_col_absent by (rewrite has_col_app, mis_matched_reserved, Hmis by exact Hres;
                               reflexivity).
    eexists. split; [rewrite <- app_assoc; reflexivity|].
    unfold drop_cols. rewrite <- app_assoc, !filter_app.
    rewrite (filter_all_true _ t), (filter_all_false _ ext), (filter_all_true _ [_]);
      [reflexivity| | |].
    + intros a [<-|[]]. apply negb_true_iff.
      destruct (existsb _ _) eqn:E; [|reflexivity].
      apply existsb_exists in E as [n [Hin En]]. apply String.eqb_eq in En. simpl in En. subst n.
      apply in_map_iff in Hin as [g [Eg Hg]].
      pose proof (compared_fields_tax _ _ Hg) as Hg'.
      destruct (tax_names_distinct g g Hg' Hg') as [_ [_ [H3 _]]]. congruence.
    + intros [n c] Hin. simpl. apply negb_false_iff, existsb_exists.
      exists n. split; [|apply String.eqb_refl]. rewrite <- Hn.
      unfold col_names. apply in_map_iff. exists (n, c). auto.
    + intros [n c] Hin. simpl. apply negb_true_iff.
      destruct (existsb (String.eqb n) (map match_name (compared_fields t))) eqn:E; [|reflexivity].
      apply existsb_exists in E as [n' [Hin' En]]. apply String.eqb_eq in En. subst n'.
      apply in_map_iff in Hin' as [g [Eg Hg]].
      exfalso. apply (Hres n).
      * unfold col_names. apply in_map_iff. exists (n, c). auto.
      * right. rewrite <- Eg. apply in_map. exact (compared_fields_tax _ _ Hg).
Qed.

(** [add_mismatch_flag] prints one warning per tax field that lacks its
    [_gstn] or its [_books] column, in the order of [tax_columns], and no
    other line; this holds for any input table. *)
Theorem add_mismatch_flag_warnings (t st out : table) (log : list string) :
  add_mismatch_flag t = Some (st, out, log) ->
  log = map missing_tax_warning
          (filter (fun f => negb (has_col (gstn_name f) t && has_col (books_name f) t))
                  tax_columns).
Proof.
  unfold add_mismatch_flag.
  destruct (mismatch_loop tax_columns t []) as [[df1 out1]|] eqn:Hl; [|discriminate].
  pose proof (mismatch_loop_log t tax_columns t [] df1 out1 (incl_refl _) (agrees_refl t) Hl)
    as Ho. simpl in Ho.
  cbv zeta. destruct (filter _ _); intros H; injection H as _ _ <-; exact Ho.
Qed.

Lemma add_mismatch_flag_warnings_witness :
  exists st out log, add_mismatch_flag cess_only_gstn_table = Some (st, out, log)
    /\ log = [missing_tax_warning "CESS"].
Proof.
  destruct (add_mismatch_flag cess_only_gstn_table) as [[[st out] log]|] eqn:E;
    [|vm_compute in E; discriminate].
  exists st, out, log. split; [reflexivity|].
  rewrite (add_mismatch_flag_warnings cess_only_gstn_table st out log E).
  vm_compute. reflexivity.
Defined.

(** When the input has none of the names the function writes and some tax
    field is compared, the caller's DataFrame is changed in place: it gains
    one [<field>_Match] column per compared field (the zero-filled equality
    series) and then [MIS_MATCHED]; the returned DataFrame is the input
    followed by the same [MIS_MATCHED] column. *)
Theorem add_mismatch_flag_mutates_argument (t st out : table) (log : list string) :
  no_reserved_column t -> add_mismatch_flag t = Some (st, out, log) -> compared_fields t <> [] ->
  exists ext flag,
    st = (t ++ ext ++ [("MIS_MATCHED", flag)])%list
    /\ out = (t ++ [("MIS_MATCHED", flag)])%list
    /\ col_names ext = map match_name (compared_fields t)
    /\ forall f, In f (compared_fields t) -> lookup_col (match_name f) ext = match_series t f.
Proof.
  intros Hres H Hne.
  destruct (add_mismatch_flag_state t st out log Hres H) as [ext [He [Hn [[Hc _]|[_ [flag [Hs Ho]]]]]]];
    [contradiction|].
  exists ext, flag. split; [exact Hs|]. split; [exact Ho|]. split; [exact Hn|].
  intros f Hf.
  assert (Hp : has_col (gstn_name f) t && has_col (books_name f) t = true)
    by (unfold compared_fields in Hf; apply filter_In in Hf; apply Hf).
  destruct (appended_lookup t tax_columns ext f (incl_refl _) He (compared_fields_tax _ _ Hf) Hp)
    as [s [Hs' Hl]].
  rewrite Hl, Hs'. reflexivity.
Qed.

Lemma add_mismatch_flag_mutates_argument_witness :
  exists st out log, add_mismatch_flag five_field_table = Some (st, out, log)
    /\ exists ext flag, st = (five_field_table ++ ext ++ [("MIS_MATCHED", flag)])%list
                        /\ col_names ext = ["Taxable_Match"; "CGST_Match"; "SGST_Match";
                                            "IGST_Match"; "CESS_Match"].
Proof.
  destruct (add_mismatch_flag five_field_table) as [[[st out] log]|] eqn:E;
    [|vm_compute in E; discriminate].
  exists st, out, log. split; [reflexivity|].
  destruct (add_mismatch_flag_mutates_argument five_field_table st out log)
    as [ext [flag [Hs [_ [Hn _]]]]].
  - table_names.
  - exact E.
  - vm_compute. discriminate.
  - exists ext, flag. split; [exact Hs|]. rewrite Hn. vm_compute. reflexivity.
Defined.

(** When no tax field has both its columns and the input has none of the
    names the function writes, [add_mismatch_flag] leaves the caller's table
    as it is, returns it, and prints the five warnings. *)
Theorem add_mismatch_flag_no_compared_field (t : table) :
  no_reserved_column t -> compared_fields t = [] ->
  add_mismatch_flag t = Some (t, t, map missing_tax_warning tax_columns).
Proof.
  intros Hres Hc. unfold add_mismatch_flag.
  rewrite mismatch_loop_skip.
  - cbv zeta. rewrite filter_all_false.
    + reflexivity.
    + intros n Hn. apply in_map_iff in Hn as [f [<- Hf]]. apply match_name_reserved; assumption.
  - intros f Hf. destruct (has_col (gstn_name f) t && has_col (books_name f) t) eqn:E;
      [|reflexivity].
    assert (Hin : In f (compared_fields t)) by (apply filter_In; auto).
    rewrite Hc in Hin. destruct Hin.
Qed.

Lemma add_mismatch_flag_no_compared_field_witness :
  add_mismatch_flag no_tax_table = Some (no_tax_table, no_tax_table, map missing_tax_warning tax_columns).
Proof.
  apply add_mismatch_flag_no_compared_field.
  - table_names.
  - vm_compute. reflexivity.
Defined.

(** ** Strings: suffixes, substrings and the header predicates *)

Lemma str_app_nil_r (s : string) : s ++ "" = s.
Proof. induction s as [|a s IH]; simpl; [reflexivity|]. rewrite IH. reflexivity. Qed.

Lemma str_app_assoc (a b c : string) : a ++ (b ++ c) = (a ++ b) ++ c.
Proof. induction a as [|x a IH]; simpl; [reflexivity|]. rewrite IH. reflexivity. Qed.

Lemma str_length_app (a b : string) : String.length (a ++ b) = (String.length a + String.length b)%nat.
Proof. induction a as [|x a IH]; simpl; [reflexivity|]. rewrite IH. reflexivity. Qed.

Lemma str_app_inv_r (a b s : string) : a ++ s = b ++ s -> a = b.
Proof.
  revert b. induction a as [|x a IH]; intros b H; destruct b as [|y b]; simpl in H.
  - reflexivity.
  - exfalso. assert (Hl := f_equal String.length H). simpl in Hl.
    rewrite str_length_app in Hl. lia.
  - exfalso. assert (Hl := f_equal String.length H). simpl in Hl.
    rewrite str_length_app in Hl. lia.
  - injection H as -> H. f_equal. exact (IH b H).
Qed.

Lemma str_app_last (a b : string) (x y : ascii) :
  a ++ String x "" = b ++ String y "" -> x = y.
Proof.
  revert b. induction a as [|u a IH]; intros b H; destruct b as [|v b]; simpl in H.
  - injection H as ->. reflexivity.
  - injection H as _ H. destruct b; discriminate.
  - injection H as _ H. destruct a; discriminate.
  - injection H as _ H. exact (IH b H).
Qed.

Lemma prefix_refl (s : string) : prefix s s = true.
Proof.
  induction s as [|a s IH]; simpl; [reflexivity|].
  destruct (ascii_dec a a); [exact IH|congruence].
Qed.

Lemma plain_chars_app (a b : string) : plain_chars (a ++ b) = plain_chars a && plain_chars b.
Proof.
  induction a as [|x a IH]; simpl; [reflexivity|]. rewrite IH, !andb_assoc. reflexivity.
Qed.

Lemma prefix_plain (p s : string) :
  prefix p s = true -> plain_chars s = true -> plain_chars p = true.
Proof.
  revert s. induction p as [|a p IH]; intros s H Hs; [reflexivity|].
  destruct s as [|b s]; [discriminate|]. simpl in H |- *.
  destruct (ascii_dec a b) as [<-|]; [|discriminate].
  simpl in Hs. apply andb_true_iff in Hs as [Ha Hs].
  rewrite Ha. exact (IH s H Hs).
Qed.

Lemma contains_plain (p s : string) :
  contains p s = true -> plain_chars s = true -> plain_chars p = true.
Proof.
  induction s as [|a s IH]; intros H Hs.
  - exact (prefix_plain _ _ H Hs).
  - change (contains p (String a s)) with (prefix p (String a s) || contains p s) in H.
    apply orb_true_iff in H as [H|H]; [exact (prefix_plain _ _ H Hs)|].
    apply IH; [exact H|]. simpl in Hs. apply andb_true_iff in Hs. apply Hs.
Qed.

Lemma prefix_app_l (p c s : string) : prefix p c = true -> prefix p (c ++ s) = true.
Proof.
  revert p. induction c as [|a c IH]; intros p H.
  - destruct p; [destruct s; reflexivity|discriminate].
  - destruct p as [|b p]; [destruct s; reflexivity|]. simpl in H |- *.
    destruct (ascii_dec b a); [exact (IH p H)|discriminate].
Qed.

Lemma contains_app_l (p c s : string) : contains p c = true -> contains p (c ++ s) = true.
Proof.
  induction c as [|a c IH]; intros H.
  - change (contains p "") with (prefix p "") in H. destruct p; [|discriminate].
    destruct s; reflexivity.
  - change (contains p (String a c)) with (prefix p (String a c) || contains p c) in H.
    change (String a c ++ s) with (String a (c ++ s)).
    change (contains p (String a (c ++ s))) with (prefix p (String a (c ++ s)) || contains p (c ++ s)).
    apply orb_true_iff in H as [H|H].
    + change (String a (c ++ s)) with (String a c ++ s). rewrite prefix_app_l by exact H.
      reflexivity.
    + rewrite IH by exact H. apply orb_true_r.
Qed.

Lemma contains_app_r (p c s : string) : contains p s = true -> contains p (c ++ s) = true.
Proof.
  intros H. induction c as [|a c IH]; [exact H|].
  change (String a c ++ s) with (String a (c ++ s)).
  change (contains p (String a (c ++ s))) with (prefix p (String a (c ++ s)) || contains p (c ++ s)).
  rewrite IH. apply orb_true_r.
Qed.

Lemma prefix_app_split (p c s : string) :
  prefix p (c ++ s) = true ->
  prefix p c = true \/ exists p2, p = c ++ p2 /\ prefix p2 s = true.
Proof.
  revert p. induction c as [|a c IH]; intros p H.
  - right. exists p. auto.
  - destruct p as [|b p]; [left; reflexivity|]. simpl in H.
    destruct (ascii_dec b a) as [<-|]; [|discriminate].
    destruct (IH p H) as [Hp|[p2 [-> Hp2]]].
    + left. simpl. destruct (ascii_dec b b); [exact Hp|congruence].
    + right. exists p2. auto.
Qed.

Lemma contains_app_split (p c s : string) :
  contains p (c ++ s) = true ->
  contains p c = true \/ contains p s = true
  \/ exists c1 c2 p2, c = c1 ++ c2 /\ c2 <> "" /\ p = c2 ++ p2 /\ prefix p2 s = true.
Proof.
  induction c as [|a c IH]; intros H; [right; left; exact H|].
  change (String a c ++ s) with (String a (c ++ s)) in H. simpl in H.
  apply orb_true_iff in H as [H|H].
  - change (String a (c ++ s)) with (String a c ++ s) in H.
    destruct (prefix_app_split p (String a c) s H) as [Hp|[p2 [Hp Hp2]]].
    + left. change (contains p (String a c)) with (prefix p (String a c) || contains p c).
      rewrite Hp. reflexivity.
    + right. right. exists "", (String a c), p2. repeat split; auto. discriminate.
  - destruct (IH H) as [Hc|[Hs|[c1 [c2 [p2 [-> [Hne [Hp Hp2]]]]]]]].
    + left. change (contains p (String a c)) with (prefix p (String a c) || contains p c).
      rewrite Hc, orb_true_r. reflexivity.
    + right. left. exact Hs.
    + right. right. exists (String a c1), c2, p2. auto.
Qed.

Lemma app_in_suffixes (c2 p2 : string) : In p2 (suffixes (c2 ++ p2)).
Proof.
  induction c2 as [|a c2 IH].
  - destruct p2; left; reflexivity.
  - simpl. right. exact IH.
Qed.

Lemma contains_at_end (c1 p : string) : contains p (c1 ++ p) = true.
Proof.
  induction c1 as [|a c1 IH].
  - change ("" ++ p) with p. destruct p as [|a p]; [reflexivity|].
    change (contains (String a p) (String a p))
      with (prefix (String a p) (String a p) || contains (String a p) p).
    rewrite prefix_refl. reflexivity.
  - change (String a c1 ++ p) with (String a (c1 ++ p)).
    change (contains p (String a (c1 ++ p))) with (prefix p (String a (c1 ++ p)) || contains p (c1 ++ p)).
    rewrite IH, orb_true_r. reflexivity.
Qed.

(** No occurrence of [p] straddles the end of [c] and the start of [s] when
    no non-empty proper suffix of [p] starts [s]. *)
Lemma contains_app_no_straddle (p c s : string) :
  (forall p2, In p2 (suffixes p) -> prefix p2 s = true -> p2 = "" \/ p2 = p) ->
  contains p (c ++ s) = contains p c || contains p s.
Proof.
  intros Hsuf. destruct (contains p (c ++ s)) eqn:H.
  - destruct (contains_app_split p c s H) as [Hc|[Hs|[c1 [c2 [p2 [-> [Hne [Hp Hp2]]]]]]]].
    + rewrite Hc. reflexivity.
    + rewrite Hs, orb_true_r. reflexivity.
    + assert (Hin : In p2 (suffixes p)) by (rewrite Hp; apply app_in_suffixes).
      destruct (Hsuf p2 Hin Hp2) as [ -> | -> ].
      * rewrite str_app_nil_r in Hp. subst c2. rewrite contains_at_end. reflexivity.
      * exfalso. apply Hne. assert (Hl := f_equal String.length Hp).
        rewrite str_length_app in Hl. destruct c2; [reflexivity|simpl in Hl; lia].
  - symmetry. apply orb_false_iff. split.
    + destruct (contains p c) eqn:Hc; [|reflexivity].
      rewrite contains_app_l in H by exact Hc. discriminate.
    + destruct (contains p s) eqn:Hs; [|reflexivity].
      rewrite contains_app_r in H by exact Hs. discriminate.
Qed.

Lemma substring_full (s : string) : substring 0 (String.length s) s = s.
Proof. induction s as [|a s IH]; simpl; [reflexivity|]. rewrite IH. reflexivity. Qed.

Lemma substring_app_end (c s : string) :
  substring (String.length c) (String.length s) (c ++ s) = s.
Proof. induction c as [|a c IH]; simpl; [apply substring_full|exact IH]. Qed.

Lemma substring_zero_len (n : nat) (s : string) : substring n 0 s = "".
Proof. revert n. induction s as [|a s IH]; intros [|n]; simpl; auto. Qed.

Lemma substring_split (k m : nat) (x : string) :
  (k + m)%nat = String.length x -> x = substring 0 k x ++ substring k m x.
Proof.
  revert k. induction x as [|a x IH]; intros k H.
  - simpl in H. assert (k = 0%nat) by lia. assert (m = 0%nat) by lia. subst. reflexivity.
  - destruct k as [|k].
    + simpl in H. subst m. simpl. rewrite substring_full. reflexivity.
    + simpl in H |- *. f_equal. apply IH. lia.
Qed.

Lemma ends_with_split (suf x : string) : ends_with suf x = true -> exists pre, x = pre ++ suf.
Proof.
  unfold ends_with. intros H. apply andb_true_iff in H as [Hle He].
  apply Nat.leb_le in Hle. apply String.eqb_eq in He.
  set (k := (String.length x - String.length suf)%nat) in *.
  exists (substring 0 k x). rewrite <- He. apply substring_split. unfold k. lia.
Qed.

Lemma ends_with_app (suf c : string) : ends_with suf (c ++ suf) = true.
Proof.
  unfold ends_with. rewrite str_length_app.
  replace (String.length c + String.length suf - String.length suf)%nat
    with (String.length c) by lia.
  rewrite substring_app_end. apply andb_true_iff. split; [apply Nat.leb_le; lia|].
  apply String.eqb_refl.
Qed.

Lemma ends_with_plain (suf c : string) :
  plain_chars c = true -> plain_chars suf = false -> ends_with suf c = false.
Proof.
  intros Hc Hs. destruct (ends_with suf c) eqn:E; [|reflexivity].
  apply ends_with_split in E as [pre ->]. rewrite plain_chars_app, Hs, andb_false_r in Hc.
  discriminate.
Qed.

Lemma ends_with_books_gstn (c : string) : ends_with "_books" (c ++ "_gstn") = false.
Proof.
  destruct (ends_with "_books" (c ++ "_gstn")) eqn:E; [|reflexivity].
  apply ends_with_split in E as [pre E].
  change "_gstn" with ("_gst" ++ String "n"%char "") in E.
  change "_books" with ("_book" ++ String "s"%char "") in E.
  rewrite !str_app_assoc in E. apply str_app_last in E. discriminate.
Qed.

Lemma ends_with_gstn_books (c : string) : ends_with "_gstn" (c ++ "_books") = false.
Proof.
  destruct (ends_with "_gstn" (c ++ "_books")) eqn:E; [|reflexivity].
  apply ends_with_split in E as [pre E].
  change "_gstn" with ("_gst" ++ String "n"%char "") in E.
  change "_books" with ("_book" ++ String "s"%char "") in E.
  rewrite !str_app_assoc in E. apply str_app_last in E. discriminate.
Qed.

Lemma app_suffix_ne (c suf x : string) : ends_with suf x = false -> c ++ suf <> x.
Proof. intros H E. rewrite <- E, ends_with_app in H. discriminate. Qed.

Lemma app_suffix_ne_pre (c suf pre : string) :
  plain_chars c = true -> plain_chars pre = false -> c ++ suf <> pre ++ suf.
Proof. intros Hc Hp E. apply str_app_inv_r in E. subst. congruence. Qed.

Lemma anchored_app_plain (bad : list string) (c s : string) :
  (forall p, In p bad -> exists p', p = String "_"%char p') -> plain_chars c = true ->
  anchored_avoiding bad (c ++ s) = anchored_avoiding bad s.
Proof.
  intros Hb. induction c as [|a c IH]; intros Hc; [reflexivity|].
  cbn [plain_chars] in Hc. apply andb_true_iff in Hc as [Hc Hrest].
  apply andb_true_iff in Hc as [Hu Hn]. apply negb_true_iff in Hu, Hn.
  change (String a c ++ s) with (String a (c ++ s)). cbn [anchored_avoiding].
  rewrite Hn.
  assert (He : existsb (fun p => prefix p (String a (c ++ s))) bad = false).
  { destruct (existsb _ bad) eqn:E; [|reflexivity].
    apply existsb_exists in E as [p [Hp Hpre]]. destruct (Hb p Hp) as [p' ->].
    cbn [prefix] in Hpre. destruct (ascii_dec "_"%char a) as [<-|]; [|discriminate].
    rewrite Ascii.eqb_refl in Hu. discriminate Hu. }
  rewrite He, IH by exact Hrest. reflexivity.
Qed.

Lemma anchored_plain (bad : list string) (c : string) :
  (forall p, In p bad -> exists p', p = String "_"%char p') -> plain_chars c = true ->
  anchored_avoiding bad c = true.
Proof.
  intros Hb Hc. rewrite <- (str_app_nil_r c), anchored_app_plain by assumption. reflexivity.
Qed.

Lemma str_replace_plain_suffix (p' c : string) (fuel : nat) :
  plain_chars c = true -> (String.length c < fuel)%nat ->
  str_replace (String "_"%char p') "" fuel (c ++ String "_"%char p') = c.
Proof.
  revert fuel. induction c as [|a c IH]; intros fuel Hc Hf;
    (destruct fuel as [|f]; [simpl in Hf; lia|]).
  - cbn [str_replace append]. rewrite prefix_refl, Nat.sub_diag, substring_zero_len.
    destruct f; reflexivity.
  - cbn [plain_chars] in Hc. apply andb_true_iff in Hc as [Hc Hrest].
    apply andb_true_iff in Hc as [Hu _]. apply negb_true_iff in Hu.
    change (String a c ++ String "_"%char p') with (String a (c ++ String "_"%char p')).
    cbn [str_replace].
    assert (Hp : prefix (String "_"%char p') (String a (c ++ String "_"%char p')) = false).
    { cbn [prefix]. destruct (ascii_dec "_"%char a) as [<-|]; [|reflexivity].
      rewrite Ascii.eqb_refl in Hu. discriminate Hu. }
    rewrite Hp. f_equal. apply IH; [exact Hrest|simpl in Hf; lia].
Qed.

Lemma replace_plain_suffix (p' c : string) :
  plain_chars c = true -> replace (String "_"%char p') "" (c ++ String "_"%char p') = c.
Proof.
  intros Hc. unfold replace. apply str_replace_plain_suffix; [exact Hc|].
  rewrite str_length_app. simpl. lia.
Qed.

(** ** Single columns through the filters and [clean_columns] *)

Ltac no_straddle :=
  let p2 := fresh "p2" in let Hin := fresh "Hin" in let Hp := fresh "Hp" in
  intros p2 Hin Hp; simpl in Hin;
  repeat (destruct Hin as [Hin|Hin];
          [subst p2; first [left; reflexivity | right; reflexivity
                           | vm_compute in Hp; discriminate Hp] |]);
  destruct Hin.

Lemma underscore_words (bad : list string) :
  Forall (fun p => exists p', p = String "_"%char p') bad ->
  forall p, In p bad -> exists p', p = String "_"%char p'.
Proof. intros H. apply Forall_forall, H. Qed.

Ltac underscore_words :=
  apply underscore_words; repeat constructor; eexists; reflexivity.

Lemma plain_header_chars (c : string) : plain_header c = true -> plain_chars c = true.
Proof. unfold plain_header. intros H. apply andb_true_iff in H. apply H. Qed.

Lemma plain_header_gstn (c : string) : plain_header c = true -> contains "GSTN" c = false.
Proof.
  unfold plain_header. intros H. apply andb_true_iff in H as [_ H].
  apply negb_true_iff, H.
Qed.

Lemma plain_contains_false (p c : string) :
  plain_chars c = true -> plain_chars p = false -> contains p c = false.
Proof.
  intros Hc Hp. destruct (contains p c) eqn:E; [|reflexivity].
  rewrite (contains_plain _ _ E Hc) in Hp. discriminate.
Qed.

Lemma clean_special_false (c : string) :
  plain_chars c = true ->
  mem c ["InvoiceNumber_clean"; "InvoiceNumber_original_gstn";
         "InvoiceNumber_original_books"; "_merge"] = false.
Proof.
  intros Hc. destruct (mem c _) eqn:E; [|reflexivity]. apply mem_true in E.
  simpl in E. repeat (destruct E as [E|E]; [subst c; vm_compute in Hc; discriminate Hc|]).
  destruct E.
Qed.

Lemma clean_special_gstn_false (c : string) :
  plain_chars c = true ->
  mem (c ++ "_gstn") ["InvoiceNumber_clean"; "InvoiceNumber_original_gstn";
                      "InvoiceNumber_original_books"; "_merge"] = false.
Proof.
  intros Hc. destruct (mem (c ++ "_gstn") _) eqn:E; [|reflexivity]. apply mem_true in E.
  simpl in E. destruct E as [E|[E|[E|[E|[]]]]].
  - exfalso. symmetry in E. revert E. apply app_suffix_ne. reflexivity.
  - exfalso. symmetry in E. revert E. change "InvoiceNumber_original_gstn" with ("InvoiceNumber_original" ++ "_gstn").
    apply app_suffix_ne_pre; [exact Hc|reflexivity].
  - exfalso. symmetry in E. revert E. apply app_suffix_ne. reflexivity.
  - exfalso. symmetry in E. revert E. apply app_suffix_ne. reflexivity.
Qed.

Lemma clean_special_books_false (c : string) :
  plain_chars c = true ->
  mem (c ++ "_books") ["InvoiceNumber_clean"; "InvoiceNumber_original_gstn";
                       "InvoiceNumber_original_books"; "_merge"] = false.
Proof.
  intros Hc. destruct (mem (c ++ "_books") _) eqn:E; [|reflexivity]. apply mem_true in E.
  simpl in E. destruct E as [E|[E|[E|[E|[]]]]].
  - exfalso. symmetry in E. revert E. apply app_suffix_ne. reflexivity.
  - exfalso. symmetry in E. revert E. apply app_suffix_ne. reflexivity.
  - exfalso. symmetry in E. revert E. change "InvoiceNumber_original_books" with ("InvoiceNumber_original" ++ "_books").
    apply app_suffix_ne_pre; [exact Hc|reflexivity].
  - exfalso. symmetry in E. revert E. apply app_suffix_ne. reflexivity.
Qed.

Lemma plain_ne (c x : string) : plain_chars c = true -> plain_chars x = false -> String.eqb c x = false.
Proof.
  intros Hc Hx. apply String.eqb_neq. intros ->. congruence.
Qed.

(** An ordinary header is kept as it is by [clean_columns] on any sheet. *)
Lemma clean_plain (sheet_name c : string) :
  plain_chars c = true -> clean_columns_names sheet_name [c] = [c].
Proof.
  intros Hc. cbn [clean_columns_names].
  rewrite clean_special_false, !ends_with_plain, plain_ne by (exact Hc || reflexivity).
  reflexivity.
Qed.

Lemma clean_gstn_suffixed (sheet_name c : string) :
  plain_chars c = true ->
  clean_columns_names sheet_name [c ++ "_gstn"]
  = if String.eqb sheet_name "NEXT_FY_ITC" then [] else [c].
Proof.
  intros Hc. cbn [clean_columns_names].
  rewrite clean_special_gstn_false, ends_with_books_gstn, ends_with_app by exact Hc.
  destruct (String.eqb sheet_name "NEXT_FY_ITC"); [reflexivity|].
  change "_gstn" with (String "_"%char "gstn"). rewrite replace_plain_suffix by exact Hc.
  reflexivity.
Qed.

Lemma clean_books_suffixed (sheet_name c : string) :
  plain_chars c = true ->
  clean_columns_names sheet_name [c ++ "_books"]
  = if String.eqb sheet_name "MATCHED" then [] else [c].
Proof.
  intros Hc. cbn [clean_columns_names].
  rewrite clean_special_books_false, ends_with_app by exact Hc.
  destruct (String.eqb sheet_name "MATCHED"); [reflexivity|].
  change "_books" with (String "_"%char "books"). rewrite replace_plain_suffix by exact Hc.
  reflexivity.
Qed.

Lemma unmatched_regex_plain (c : string) : plain_chars c = true -> gstn_unmatched_regex c = true.
Proof.
  intros Hc. unfold gstn_unmatched_regex. rewrite anchored_plain by (underscore_words || exact Hc).
  apply orb_true_r.
Qed.

Lemma unmatched_regex_gstn (c : string) :
  plain_chars c = true -> gstn_unmatched_regex (c ++ "_gstn") = true.
Proof.
  intros Hc. unfold gstn_unmatched_regex.
  rewrite anchored_app_plain by (underscore_words || exact Hc). apply orb_true_r.
Qed.

Lemma unmatched_regex_books (c : string) :
  plain_header c = true -> gstn_unmatched_regex (c ++ "_books") = false.
Proof.
  intros Hh. pose proof (plain_header_chars _ Hh) as Hc. unfold gstn_unmatched_regex.
  rewrite anchored_app_plain by (underscore_words || exact Hc).
  rewrite !contains_app_no_straddle by no_straddle.
  rewrite plain_header_gstn, (plain_contains_false "InvoiceNumber_original_gstn") by
    (exact Hh || exact Hc || reflexivity).
  reflexivity.
Qed.

Lemma next_fy_regex_plain (c : string) : plain_chars c = true -> next_fy_regex c = true.
Proof.
  intros Hc. unfold next_fy_regex. rewrite anchored_plain by (underscore_words || exact Hc).
  apply orb_true_r.
Qed.

Lemma next_fy_regex_books (c : string) :
  plain_chars c = true -> next_fy_regex (c ++ "_books") = true.
Proof.
  intros Hc. unfold next_fy_regex.
  rewrite anchored_app_plain by (underscore_words || exact Hc). apply orb_true_r.
Qed.

Lemma next_fy_regex_gstn (c : string) :
  plain_header c = true -> next_fy_regex (c ++ "_gstn") = false.
Proof.
  intros Hh. pose proof (plain_header_chars _ Hh) as Hc. unfold next_fy_regex.
  rewrite anchored_app_plain by (underscore_words || exact Hc).
  rewrite !contains_app_no_straddle by no_straddle.
  rewrite plain_header_gstn, (plain_contains_false "InvoiceNumber_original_books") by
    (exact Hh || exact Hc || reflexivity).
  reflexivity.
Qed.

(** ** Columns of the merged table and of the written sheets *)

Lemma mem_app (x : string) (a b : list string) : mem x (a ++ b)%list = mem x a || mem x b.
Proof. unfold mem. apply existsb_app. Qed.

Lemma header_not_added (c : string) :
  c = "GSTN" \/ c = "gstr1_filing_date" \/ plain_header c = true ->
  mem c ["InvoiceNumber_clean"; "InvoiceNumber_original"] = false.
Proof.
  intros [->|[->|Hp]]; [reflexivity|reflexivity|]. apply plain_header_chars in Hp.
  destruct (mem c _) eqn:E; [|reflexivity]. apply mem_true in E. simpl in E.
  repeat (destruct E as [E|E]; [subst c; vm_compute in Hp; discriminate Hp|]). destruct E.
Qed.

Lemma headers_ok_not_in (cols : list string) (x : string) :
  headers_ok cols -> x <> "GSTN" -> x <> "gstr1_filing_date" -> plain_header x = false ->
  mem x cols = false.
Proof.
  intros H H1 H2 H3. destruct (mem x cols) eqn:E; [|reflexivity].
  apply mem_true, H in E as [E|[E|E]]; congruence.
Qed.

Lemma prepared_eq (cols : list string) :
  headers_ok cols ->
  prepared_columns cols = (cols ++ ["InvoiceNumber_clean"; "InvoiceNumber_original"])%list.
Proof.
  intros H. unfold prepared_columns, assign_col.
  rewrite (headers_ok_not_in cols "InvoiceNumber_clean"), mem_app,
          (headers_ok_not_in cols "InvoiceNumber_original")
    by (exact H || discriminate || reflexivity).
  change (mem "InvoiceNumber_original" ["InvoiceNumber_clean"]) with false.
  cbn [orb]. rewrite <- app_assoc. reflexivity.
Qed.

Lemma merged_columns_shape (G B : list string) :
  headers_ok G -> headers_ok B ->
  merged_columns G B =
  (map (left_name B) G
   ++ ["InvoiceNumber_clean"; "InvoiceNumber_original_gstn"]
   ++ map (right_name G) (filter (fun c => negb (mem c merge_keys)) B)
   ++ ["InvoiceNumber_original_books"; "_merge"])%list.
Proof.
  intros HG HB. unfold merged_columns, merge_columns, left_name, right_name. rewrite !prepared_eq by assumption.
  rewrite map_app, filter_app, map_app, <- !app_assoc. f_equal.
  - apply map_ext_in. intros c Hc.
    rewrite mem_app, (header_not_added c (HG c Hc)), orb_false_r. reflexivity.
  - assert (Hio : forall l : list string,
              mem "InvoiceNumber_original" (l ++ ["InvoiceNumber_clean"; "InvoiceNumber_original"])
              = true)
      by (intros l; apply mem_true, in_or_app; right; right; left; reflexivity).
    cbn [map app]. change (mem "InvoiceNumber_clean" merge_keys) with true.
    change (mem "InvoiceNumber_original" merge_keys) with false. cbn iota.
    rewrite Hio. f_equal. f_equal.
    change (filter (fun c => negb (mem c merge_keys))
                   ["InvoiceNumber_clean"; "InvoiceNumber_original"])
      with ["InvoiceNumber_original"].
    cbn [map]. rewrite Hio. f_equal.
    apply map_ext_in. intros c Hc. apply filter_In in Hc as [Hc _].
    rewrite mem_app, (header_not_added c (HB c Hc)), orb_false_r. reflexivity.
Qed.

Lemma flat_map_ext_in {A B} (f g : A -> list B) (l : list A) :
  (forall a, In a l -> f a = g a) -> flat_map f l = flat_map g l.
Proof.
  induction l as [|a l IH]; intros H; simpl; [reflexivity|].
  rewrite H by (left; reflexivity). f_equal. apply IH. intros b Hb. apply H. right. exact Hb.
Qed.

Lemma filter_flat_map {A} (q : A -> bool) (l : list A) :
  filter q l = flat_map (fun c => if q c then [c] else []) l.
Proof. induction l as [|a l IH]; simpl; [reflexivity|]. rewrite IH. destruct (q a); reflexivity. Qed.

Lemma clean_filter_map (sheet_name : string) (p : string -> bool) (f : string -> string)
  (l : list string) :
  clean_columns_names sheet_name (filter p (map f l))
  = flat_map (fun c => if p (f c) then clean_columns_names sheet_name [f c] else []) l.
Proof.
  induction l as [|a l IH]; [reflexivity|]. cbn [map filter flat_map].
  destruct (p (f a)); [|exact IH].
  change (f a :: filter p (map f l)) with ([f a] ++ filter p (map f l))%list.
  rewrite clean_columns_names_app, IH. reflexivity.
Qed.

Lemma filter_restrict {A} (q r : A -> bool) (l : list A) :
  (forall a, In a l -> r a = false -> q a = false) -> filter q l = filter q (filter r l).
Proof.
  induction l as [|a l IH]; intros H; simpl; [reflexivity|].
  destruct (r a) eqn:Er; simpl.
  - destruct (q a); [f_equal|]; apply IH; intros b Hb; apply H; right; exact Hb.
  - rewrite (H a (or_introl eq_refl) Er). apply IH. intros b Hb. apply H. right. exact Hb.
Qed.

Lemma plain_not_key (c : string) : plain_header c = true -> mem c merge_keys = false.
Proof.
  intros Hh. destruct (mem c merge_keys) eqn:E; [|reflexivity].
  apply mem_true in E. destruct E as [<-|[<-|[]]]; vm_compute in Hh; discriminate Hh.
Qed.

Lemma books_plain (B : list string) (c : string) :
  headers_ok B -> ~ In "gstr1_filing_date" B ->
  In c (filter (fun c => negb (mem c merge_keys)) B) -> plain_header c = true.
Proof.
  intros HB Hg Hc. apply filter_In in Hc as [Hc Hk].
  destruct (HB c Hc) as [->|[->|Hp]]; [discriminate Hk|contradiction|exact Hp].
Qed.

Lemma clean_next_fy_relocation (cols : list string) :
  clean_columns_names "NEXT_FY_ITC" (next_fy_columns cols)
  = clean_columns_names "NEXT_FY_ITC" (filter next_fy_regex cols).
Proof.
  unfold next_fy_columns. set (kept := filter next_fy_regex cols).
  assert (Hd : forall l, clean_columns_names "NEXT_FY_ITC"
                           (filter (fun c => negb (String.eqb c "gstr1_filing_date")) l)
                         = clean_columns_names "NEXT_FY_ITC" l).
  { induction l as [|c l IH]; [reflexivity|]. cbn [filter].
    destruct (String.eqb c "gstr1_filing_date") eqn:E; cbn [negb].
    - apply String.eqb_eq in E. subst c. rewrite IH. reflexivity.
    - change (c :: filter (fun c => negb (String.eqb c "gstr1_filing_date")) l)
        with ([c] ++ filter (fun c => negb (String.eqb c "gstr1_filing_date")) l)%list.
      change (c :: l) with ([c] ++ l)%list.
      rewrite !clean_columns_names_app, IH. reflexivity. }
  destruct (mem "gstr1_filing_date" kept); [|reflexivity].
  rewrite clean_columns_names_app, Hd. apply app_nil_r.
Qed.

Lemma headers_okb_spec (cols : list string) : headers_okb cols = true -> headers_ok cols.
Proof.
  unfold headers_okb. intros H c Hc. rewrite forallb_forall in H. specialize (H c Hc).
  apply orb_true_iff in H as [H|H]; [apply orb_true_iff in H as [H|H]|].
  - left. apply String.eqb_eq, H.
  - right. left. apply String.eqb_eq, H.
  - right. right. exact H.
Qed.

Lemma gstr1_not_mem (B : list string) :
  ~ In "gstr1_filing_date" B -> mem "gstr1_filing_date" B = false.
Proof. intros H. destruct (mem _ B) eqn:E; [apply mem_true in E; contradiction|reflexivity]. Qed.

Lemma plain_not_gstn (c : string) : plain_header c = true -> String.eqb c "GSTN" = false.
Proof.
  intros H. destruct (String.eqb c "GSTN") eqn:E; [|reflexivity].
  apply String.eqb_eq in E. subst c. vm_compute in H. discriminate H.
Qed.

Lemma left_name_gstn (B : list string) : left_name B "GSTN" = "GSTN".
Proof. reflexivity. Qed.

Lemma left_name_gstr1 (B : list string) :
  ~ In "gstr1_filing_date" B -> left_name B "gstr1_filing_date" = "gstr1_filing_date".
Proof. intros H. unfold left_name. rewrite (gstr1_not_mem B H). reflexivity. Qed.

Lemma left_name_plain (B : list string) (c : string) :
  plain_header c = true -> left_name B c = if mem c B then (c ++ "_gstn")%string else c.
Proof. intros H. unfold left_name. rewrite plain_not_key by exact H. reflexivity. Qed.

Lemma flat_map_singleton {A} (l : list A) : flat_map (fun c => [c]) l = l.
Proof. induction l as [|a l IH]; simpl; [reflexivity|]. rewrite IH. reflexivity. Qed.

Lemma books_part_restrict (G B : list string) (q : string -> bool) :
  headers_ok B -> ~ In "gstr1_filing_date" B -> q "GSTN" = false ->
  filter q B = filter q (filter (fun c => negb (mem c merge_keys)) B).
Proof.
  intros HB Hg Hq. apply filter_restrict. intros c Hc Hk.
  destruct (HB c Hc) as [->|[->|Hp]]; [exact Hq|contradiction|].
  rewrite plain_not_key in Hk by exact Hp. discriminate Hk.
Qed.

Lemma substring_prefix_app (a b : string) : substring 0 (String.length a) (a ++ b) = a.
Proof.
  induction a as [|x a IH]; simpl.
  - destruct b; reflexivity.
  - rewrite IH. reflexivity.
Qed.

Lemma plain_app_literal (f suf x : string) :
  plain_chars f = true ->
  (ends_with suf x && plain_chars (substring 0 (String.length x - String.length suf) x))
  = false ->
  (f ++ suf)%string <> x.
Proof.
  intros Hf Hx E. subst x.
  rewrite ends_with_app, str_length_app, Nat.add_sub, substring_prefix_app, Hf in Hx.
  discriminate Hx.
Qed.

(** Unmatched GSTN sheets: the parts of the merged columns. *)

Lemma unmatched_left_part (sheet_name : string) (G B : list string) :
  String.eqb sheet_name "MATCHED" = false -> String.eqb sheet_name "NEXT_FY_ITC" = false ->
  headers_ok G -> ~ In "gstr1_filing_date" B ->
  clean_columns_names sheet_name (filter gstn_unmatched_regex (map (left_name B) G))
  = filter (fun c => negb (String.eqb c "gstr1_filing_date")) G.
Proof.
  intros Hm Hn HG Hg. rewrite clean_filter_map, filter_flat_map. apply flat_map_ext_in.
  intros c Hc. destruct (HG c Hc) as [->|[->|Hp]].
  - reflexivity.
  - rewrite left_name_gstr1 by exact Hg.
    transitivity (if negb (String.eqb sheet_name "MATCHED") then [] else ["gstr1_filing_date"]);
      [reflexivity|]. rewrite Hm. reflexivity.
  - pose proof (plain_header_chars _ Hp) as Hc'.
    rewrite left_name_plain, (plain_ne c "gstr1_filing_date") by (exact Hp || exact Hc' || reflexivity).
    destruct (mem c B).
    + rewrite unmatched_regex_gstn, clean_gstn_suffixed, Hn by exact Hc'. reflexivity.
    + rewrite unmatched_regex_plain, clean_plain by exact Hc'. reflexivity.
Qed.

Lemma unmatched_right_part (sheet_name : string) (G B : list string) :
  headers_ok B -> ~ In "gstr1_filing_date" B -> In "GSTN" G ->
  clean_columns_names sheet_name
    (filter gstn_unmatched_regex
       (map (right_name G) (filter (fun c => negb (mem c merge_keys)) B)))
  = filter (fun c => negb (mem c G)) B.
Proof.
  intros HB Hg HG.
  rewrite (books_part_restrict G B (fun c => negb (mem c G))) at 1
    by (try assumption; apply mem_true in HG; cbv beta; rewrite HG; reflexivity).
  rewrite clean_filter_map, (filter_flat_map (fun c => negb (mem c G))). apply flat_map_ext_in.
  intros c Hc. pose proof (books_plain B c HB Hg Hc) as Hp.
  pose proof (plain_header_chars _ Hp) as Hc'. unfold right_name. destruct (mem c G).
  - rewrite unmatched_regex_books by exact Hp. reflexivity.
  - rewrite unmatched_regex_plain, clean_plain by exact Hc'. reflexivity.
Qed.

(** The NEXT_FY_ITC sheet: the parts of the merged columns. *)

Lemma next_fy_left_part (G B : list string) :
  headers_ok G -> ~ In "gstr1_filing_date" B ->
  clean_columns_names "NEXT_FY_ITC" (filter next_fy_regex (map (left_name B) G))
  = filter (fun c => negb (String.eqb c "gstr1_filing_date")
                     && (String.eqb c "GSTN" || negb (mem c B))) G.
Proof.
  intros HG Hg. rewrite clean_filter_map, filter_flat_map. apply flat_map_ext_in.
  intros c Hc. destruct (HG c Hc) as [->|[->|Hp]].
  - reflexivity.
  - rewrite left_name_gstr1 by exact Hg. reflexivity.
  - pose proof (plain_header_chars _ Hp) as Hc'.
    rewrite left_name_plain, (plain_ne c "gstr1_filing_date"), plain_not_gstn
      by (exact Hp || exact Hc' || reflexivity).
    destruct (mem c B).
    + rewrite next_fy_regex_gstn by exact Hp. reflexivity.
    + rewrite next_fy_regex_plain, clean_plain by exact Hc'. reflexivity.
Qed.

Lemma next_fy_right_part (G B : list string) :
  headers_ok B -> ~ In "gstr1_filing_date" B ->
  clean_columns_names "NEXT_FY_ITC"
    (filter next_fy_regex (map (right_name G) (filter (fun c => negb (mem c merge_keys)) B)))
  = filter (fun c => negb (String.eqb c "GSTN")) B.
Proof.
  intros HB Hg.
  rewrite (books_part_restrict G B (fun c => negb (String.eqb c "GSTN"))) at 1
    by (assumption || reflexivity).
  rewrite clean_filter_map, (filter_flat_map (fun c => negb (String.eqb c "GSTN"))). apply flat_map_ext_in.
  intros c Hc. pose proof (books_plain B c HB Hg Hc) as Hp.
  pose proof (plain_header_chars _ Hp) as Hc'. rewrite plain_not_gstn by exact Hp.
  unfold right_name. destruct (mem c G).
  - rewrite next_fy_regex_books, clean_books_suffixed by exact Hc'. reflexivity.
  - rewrite next_fy_regex_plain, clean_plain by exact Hc'. reflexivity.
Qed.

(** The MATCHED sheet: the parts of the merged columns. *)

Lemma matched_left_part (G B : list string) :
  headers_ok G -> ~ In "gstr1_filing_date" B ->
  clean_columns_names "MATCHED"
    (filter (fun c => negb (String.eqb c "_merge")) (map (left_name B) G)) = G.
Proof.
  intros HG Hg. rewrite clean_filter_map.
  transitivity (flat_map (fun c => [c]) G); [|apply flat_map_singleton].
  apply flat_map_ext_in. intros c Hc. destruct (HG c Hc) as [->|[->|Hp]].
  - reflexivity.
  - rewrite left_name_gstr1 by exact Hg. reflexivity.
  - pose proof (plain_header_chars _ Hp) as Hc'. rewrite left_name_plain by exact Hp.
    destruct (mem c B).
    + assert (Hne : String.eqb (c ++ "_gstn") "_merge" = false)
        by (apply String.eqb_neq, plain_app_literal; [exact Hc'|reflexivity]).
      rewrite Hne, clean_gstn_suffixed by exact Hc'. reflexivity.
    + rewrite (plain_ne c "_merge"), clean_plain by (exact Hc' || reflexivity). reflexivity.
Qed.

Lemma matched_right_part (G B : list string) :
  headers_ok B -> ~ In "gstr1_filing_date" B -> In "GSTN" G ->
  clean_columns_names "MATCHED"
    (filter (fun c => negb (String.eqb c "_merge"))
       (map (right_name G) (filter (fun c => negb (mem c merge_keys)) B)))
  = filter (fun c => negb (mem c G)) B.
Proof.
  intros HB Hg HG.
  rewrite (books_part_restrict G B (fun c => negb (mem c G))) at 1
    by (try assumption; apply mem_true in HG; cbv beta; rewrite HG; reflexivity).
  rewrite clean_filter_map, (filter_flat_map (fun c => negb (mem c G))). apply flat_map_ext_in.
  intros c Hc. pose proof (books_plain B c HB Hg Hc) as Hp.
  pose proof (plain_header_chars _ Hp) as Hc'. unfold right_name. destruct (mem c G).
  - assert (Hne : String.eqb (c ++ "_books") "_merge" = false)
      by (apply String.eqb_neq, plain_app_literal; [exact Hc'|reflexivity]).
    rewrite Hne, clean_books_suffixed by exact Hc'. reflexivity.
  - rewrite (plain_ne c "_merge"), clean_plain by (exact Hc' || reflexivity). reflexivity.
Qed.

Lemma in_merged_suffixed (G B : list string) (f suf : string) :
  headers_ok G -> headers_ok B -> ~ In "gstr1_filing_date" B ->
  plain_header f = true -> In suf ["_gstn"; "_books"] ->
  In (f ++ suf)%string (merged_columns G B) <-> In f G /\ In f B.
Proof.
  intros HG HB Hg Hf Hs. pose proof (plain_header_chars _ Hf) as Hf'.
  assert (Hsp : plain_chars suf = false) by (destruct Hs as [<-|[<-|[]]]; reflexivity).
  assert (Hlit : forall x, (ends_with suf x
                            && plain_chars (substring 0 (String.length x - String.length suf) x))
                           = false -> (f ++ suf)%string <> x)
    by (intros x; apply plain_app_literal, Hf').
  rewrite merged_columns_shape by assumption. rewrite !in_app_iff. split.
  - intros [H|[H|[H|H]]].
    + apply in_map_iff in H as [c [E Hc]]. destruct (HG c Hc) as [->|[->|Hp]].
      * exfalso. apply (Hlit "GSTN"); [destruct Hs as [<-|[<-|[]]]; reflexivity|].
        rewrite <- E. reflexivity.
      * exfalso. apply (Hlit "gstr1_filing_date");
          [destruct Hs as [<-|[<-|[]]]; reflexivity|].
        rewrite <- E. apply left_name_gstr1, Hg.
      * rewrite left_name_plain in E by exact Hp.
        pose proof (plain_header_chars _ Hp) as Hc'. destruct (mem c B) eqn:EB.
        -- destruct Hs as [<-|[<-|[]]].
           ++ apply str_app_inv_r in E. subst c. split; [exact Hc|apply mem_true, EB].
           ++ exfalso. pose proof (ends_with_books_gstn c) as Hb.
              rewrite E, ends_with_app in Hb. discriminate Hb.
        -- exfalso. subst c. rewrite plain_chars_app, Hf', Hsp in Hc'. discriminate Hc'.
    + exfalso. destruct H as [E|[E|[]]]; symmetry in E; revert E; apply Hlit;
        destruct Hs as [<-|[<-|[]]]; reflexivity.
    + apply in_map_iff in H as [c [E Hc]].
      pose proof (books_plain B c HB Hg Hc) as Hp. pose proof (plain_header_chars _ Hp) as Hc'.
      apply filter_In in Hc as [Hc _]. unfold right_name in E. destruct (mem c G) eqn:EG.
      * destruct Hs as [<-|[<-|[]]].
        -- exfalso. pose proof (ends_with_gstn_books c) as Hb.
           rewrite E, ends_with_app in Hb. discriminate Hb.
        -- apply str_app_inv_r in E. subst c. split; [apply mem_true, EG|exact Hc].
      * exfalso. subst c. rewrite plain_chars_app, Hf', Hsp in Hc'. discriminate Hc'.
    + exfalso. destruct H as [E|[E|[]]]; symmetry in E; revert E; apply Hlit;
        destruct Hs as [<-|[<-|[]]]; reflexivity.
  - intros [HfG HfB]. destruct Hs as [<-|[<-|[]]].
    + left. apply in_map_iff. exists f. split; [|exact HfG].
      rewrite left_name_plain by exact Hf. apply mem_true in HfB. rewrite HfB. reflexivity.
    + right. right. left. apply in_map_iff. exists f. split.
      * unfold right_name. apply mem_true in HfG. rewrite HfG. reflexivity.
      * apply filter_In. split; [exact HfB|]. rewrite plain_not_key by exact Hf. reflexivity.
Qed.

Lemma tax_columns_plain (f : string) : In f tax_columns -> plain_header f = true.
Proof. intros H. repeat (destruct H as [<-|H]; [reflexivity|]). destruct H. Qed.

Lemma mismatch_condition_merged (G B : list string) :
  headers_ok G -> headers_ok B -> ~ In "gstr1_filing_date" B ->
  existsb (fun f => mem (gstn_name f) (merged_columns G B)
                    && mem (books_name f) (merged_columns G B)) tax_columns
  = existsb (fun f => mem f G && mem f B) tax_columns.
Proof.
  intros HG HB Hg. apply Bool.eq_true_iff_eq. rewrite !existsb_exists.
  split; intros [f [Hf H]]; exists f; split; try exact Hf;
    rewrite andb_true_iff, !mem_true in *; unfold gstn_name, books_name in *;
    pose proof (tax_columns_plain f Hf) as Hp.
  - destruct H as [H _]. apply in_merged_suffixed in H; auto. left. reflexivity.
  - split; apply in_merged_suffixed; auto; [left|right; left]; reflexivity.
Qed.

Lemma clean_nil_cases (sheet_name : string) :
  clean_columns_names sheet_name
    (filter gstn_unmatched_regex ["InvoiceNumber_clean"; "InvoiceNumber_original_gstn"]) = []
  /\ clean_columns_names sheet_name
    (filter gstn_unmatched_regex ["InvoiceNumber_original_books"; "_merge"]) = [].
Proof. split; reflexivity. Qed.

(** The PREV_FY_ITC and NOTINBOOKS sheets are written with the GSTN sheet's
    headers in order, without [gstr1_filing_date], followed by the BOOKS
    headers the GSTN sheet lacks; the helper columns, [_merge] and the
    suffixes are gone. *)
Theorem unmatched_sheets_column_layout (sheet_name : string) (G B : list string) :
  In sheet_name ["PREV_FY_ITC"; "NOTINBOOKS"] ->
  headers_ok G -> headers_ok B -> In "GSTN" G -> ~ In "gstr1_filing_date" B ->
  written_unmatched_columns sheet_name G B
  = (filter (fun c => negb (String.eqb c "gstr1_filing_date")) G
     ++ filter (fun c => negb (mem c G)) B)%list.
Proof.
  intros Hs HG HB HgG Hg.
  assert (Hm : String.eqb sheet_name "MATCHED" = false)
    by (destruct Hs as [<-|[<-|[]]]; reflexivity).
  assert (Hn : String.eqb sheet_name "NEXT_FY_ITC" = false)
    by (destruct Hs as [<-|[<-|[]]]; reflexivity).
  destruct (clean_nil_cases sheet_name) as [H1 H2].
  unfold written_unmatched_columns, gstn_unmatched_columns.
  rewrite merged_columns_shape by assumption.
  rewrite !filter_app, !clean_columns_names_app, H1, H2,
    unmatched_left_part, unmatched_right_part by assumption.
  rewrite app_nil_r. reflexivity.
Qed.

Lemma unmatched_sheets_column_layout_witness :
  headers_okb gstn_sheet_columns = true /\ headers_okb books_sheet_columns = true
  /\ written_unmatched_columns "PREV_FY_ITC" gstn_sheet_columns books_sheet_columns
     = ["GSTN"; "Invoice Number"; "Invoice Date"; "Taxable"; "CGST"; "SGST"; "IGST"; "CESS"].
Proof.
  split; [vm_compute; reflexivity|]. split; [vm_compute; reflexivity|].
  rewrite (unmatched_sheets_column_layout "PREV_FY_ITC" gstn_sheet_columns books_sheet_columns).
  - vm_compute. reflexivity.
  - left. reflexivity.
  - apply headers_okb_spec. vm_compute. reflexivity.
  - apply headers_okb_spec. vm_compute. reflexivity.
  - apply mem_true. vm_compute. reflexivity.
  - intros H. apply mem_true in H. vm_compute in H. discriminate H.
Defined.

(** The MATCHED sheet is written with all the GSTN sheet's headers in order
    (with [gstr1_filing_date]), then the BOOKS headers the GSTN sheet lacks,
    then [MIS_MATCHED] exactly when some tax field is a header of both
    sheets. *)
Theorem matched_sheet_column_layout (G B : list string) :
  headers_ok G -> headers_ok B -> In "GSTN" G -> ~ In "gstr1_filing_date" B ->
  written_matched_columns G B
  = (G ++ filter (fun c => negb (mem c G)) B
     ++ (if existsb (fun f => mem f G && mem f B) tax_columns
         then ["MIS_MATCHED"] else []))%list.
Proof.
  intros HG HB HgG Hg. unfold written_matched_columns, mismatch_flag_columns.
  rewrite mismatch_condition_merged by assumption.
  rewrite merged_columns_shape by assumption.
  assert (H1 : clean_columns_names "MATCHED"
                 (filter (fun c => negb (String.eqb c "_merge"))
                    ["InvoiceNumber_clean"; "InvoiceNumber_original_gstn"]) = [])
    by reflexivity.
  assert (H2 : clean_columns_names "MATCHED"
                 (filter (fun c => negb (String.eqb c "_merge"))
                    ["InvoiceNumber_original_books"; "_merge"]) = []) by reflexivity.
  assert (H3 : clean_columns_names "MATCHED"
                 (filter (fun c => negb (String.eqb c "_merge")) ["MIS_MATCHED"])
               = ["MIS_MATCHED"]) by reflexivity.
  destruct (existsb (fun f => mem f G && mem f B) tax_columns);
    rewrite !filter_app, !clean_columns_names_app, ?H1, ?H2, ?H3,
      matched_left_part, matched_right_part by assumption;
    rewrite ?app_nil_r, <- ?app_assoc; reflexivity.
Qed.

Lemma matched_sheet_column_layout_witness :
  headers_okb gstn_sheet_columns = true /\ headers_okb books_sheet_columns = true
  /\ written_matched_columns gstn_sheet_columns books_sheet_columns
     = ["GSTN"; "Invoice Number"; "Invoice Date"; "Taxable"; "CGST"; "SGST"; "IGST"; "CESS";
        "gstr1_filing_date"; "MIS_MATCHED"].
Proof.
  split; [vm_compute; reflexivity|]. split; [vm_compute; reflexivity|].
  rewrite (matched_sheet_column_layout gstn_sheet_columns books_sheet_columns).
  - vm_compute. reflexivity.
  - apply headers_okb_spec. vm_compute. reflexivity.
  - apply headers_okb_spec. vm_compute. reflexivity.
  - apply mem_true. vm_compute. reflexivity.
  - intros H. apply mem_true in H. vm_compute in H. discriminate H.
Defined.

(** The columns [categorize_gstn] reads from [gstn_unmatched] (lines 191
    and 200), for sheets whose headers are ordinary ([headers_ok]), with a
    [GSTN] header on the GSTN sheet and no [gstr1_filing_date] header on the
    BOOKS sheet: [GSTN] and [InvoiceNumber_original_gstn] are kept by the
    filter of lines 231-233, while [Invoice Date_gstn] exists exactly when
    both sheets have an [Invoice Date] header; otherwise [row.get] finds no
    date for any row. *)
Theorem categorize_gstn_input_columns (G B : list string) :
  headers_ok G -> headers_ok B -> In "GSTN" G -> ~ In "gstr1_filing_date" B ->
  In "GSTN" (gstn_unmatched_columns (merged_columns G B))
  /\ In "InvoiceNumber_original_gstn" (gstn_unmatched_columns (merged_columns G B))
  /\ (In "Invoice Date_gstn" (gstn_unmatched_columns (merged_columns G B))
      <-> In "Invoice Date" G /\ In "Invoice Date" B).
Proof.
  intros HG HB HgG Hg. unfold gstn_unmatched_columns. rewrite !filter_In.
  split; [|split].
  - split; [|reflexivity]. rewrite merged_columns_shape by assumption.
    apply in_or_app. left. apply in_map_iff. exists "GSTN". split; [reflexivity|exact HgG].
  - split; [|reflexivity]. rewrite merged_columns_shape by assumption.
    apply in_or_app. right. right. left. reflexivity.
  - change "Invoice Date_gstn" with ("Invoice Date" ++ "_gstn")%string.
    rewrite in_merged_suffixed by (assumption || reflexivity || (left; reflexivity)).
    split; [intros [H _]; exact H|intros H; split; [exact H|reflexivity]].
Qed.

Lemma categorize_gstn_input_columns_witness :
  In "Invoice Date_gstn"
     (gstn_unmatched_columns (merged_columns gstn_sheet_columns books_sheet_columns)).
Proof.
  destruct (categorize_gstn_input_columns gstn_sheet_columns books_sheet_columns)
    as [_ [_ [_ H]]].
  - apply headers_okb_spec. vm_compute. reflexivity.
  - apply headers_okb_spec. vm_compute. reflexivity.
  - apply mem_true. vm_compute. reflexivity.
  - intros H. apply mem_true in H. vm_compute in H. discriminate H.
  - apply H. split; apply mem_true; vm_compute; reflexivity.
Defined.

(** ** [clean_columns] and [save_to_excel] *)

Lemma nodupb_NoDup (l : list string) : nodupb l = true -> NoDup l.
Proof.
  induction l as [|x l IH]; simpl; intros H; [constructor|].
  apply andb_true_iff in H as [Hx Hl]. constructor; [|exact (IH Hl)].
  intros Hin. apply mem_true in Hin. rewrite Hin in Hx. discriminate Hx.
Qed.

Lemma clean_columns_names_cons (sheet_name c : string) (l : list string) :
  clean_columns_names sheet_name (c :: l)
  = (clean_columns_names sheet_name [c] ++ clean_columns_names sheet_name l)%list.
Proof. apply (clean_columns_names_app sheet_name [c] l). Qed.

Lemma clean_columns_names_single (sheet_name c : string) :
  clean_columns_names sheet_name [c] = [] \/ exists x, clean_columns_names sheet_name [c] = [x].
Proof.
  cbn [clean_columns_names].
  repeat match goal with |- context [if ?b then _ else _] => destruct b end;
    first [left; reflexivity | right; eexists; reflexivity].
Qed.

Lemma clean_columns_loop_step (sheet_name c : string) (rest : list string) (df : table)
  (acc : list string) :
  clean_columns_loop sheet_name (c :: rest) df acc
  = match clean_columns_names sheet_name [c] with
    | [] => if has_col c df
            then clean_columns_loop sheet_name rest (drop_cols [c] df) acc else None
    | x :: _ => clean_columns_loop sheet_name rest df (acc ++ [x])%list
    end.
Proof.
  cbn [clean_columns_loop clean_columns_names].
  repeat match goal with
         | |- context [if ?b then _ else _] =>
             lazymatch b with has_col _ _ => fail | _ => destruct b end
         end; reflexivity.
Qed.

Lemma has_col_middle (c : string) (v : column) (pre post : table) :
  has_col c (pre ++ (c, v) :: post)%list = true.
Proof. apply has_col_names. unfold col_names. rewrite map_app. apply in_or_app. right. left. reflexivity. Qed.

Lemma drop_cols_middle (c : string) (v : column) (pre post : table) :
  ~ In c (col_names pre) -> ~ In c (col_names post) ->
  drop_cols [c] (pre ++ (c, v) :: post)%list = (pre ++ post)%list.
Proof.
  intros Hp Hq. unfold drop_cols. rewrite filter_app. cbn [filter fst existsb].
  rewrite String.eqb_refl. cbn [orb negb].
  assert (Hk : forall u : table, ~ In c (col_names u) ->
                 filter (fun p => negb (existsb (String.eqb (fst p)) [c])) u = u).
  { intros u Hu. apply filter_all_true. intros [n w] Hin. cbn [existsb fst].
    destruct (String.eqb n c) eqn:E; [|reflexivity].
    apply String.eqb_eq in E. subst n. exfalso. apply Hu. apply in_map_iff.
    exists (c, w). auto. }
  rewrite !Hk by assumption. reflexivity.
Qed.

Lemma clean_columns_loop_distinct (sheet_name : string) (u pre : table) (acc : list string) :
  NoDup (col_names (pre ++ u)%list) ->
  clean_columns_loop sheet_name (col_names u) (pre ++ u)%list acc
  = Some ((pre ++ filter (fun p => match clean_columns_names sheet_name [fst p] with
                                   | [] => false | _ => true end) u)%list,
          (acc ++ clean_columns_names sheet_name (col_names u))%list).
Proof.
  revert pre acc. induction u as [|[c v] u IH]; intros pre acc Hnd.
  - cbn. rewrite !app_nil_r. reflexivity.
  - change (col_names ((c, v) :: u)) with (c :: col_names u).
    rewrite clean_columns_loop_step, (clean_columns_names_cons sheet_name c (col_names u)).
    cbn [filter fst].
    unfold col_names in Hnd. rewrite map_app in Hnd. cbn [map fst] in Hnd.
    pose proof (NoDup_remove_2 _ _ _ Hnd) as Hc. rewrite in_app_iff in Hc.
    pose proof (NoDup_remove_1 _ _ _ Hnd) as Hnd'.
    destruct (clean_columns_names_single sheet_name c) as [E|[x E]]; rewrite E.
    + rewrite has_col_middle, drop_cols_middle by (intros H; apply Hc; tauto).
      rewrite IH; [reflexivity|]. unfold col_names. rewrite map_app. exact Hnd'.
    + replace (pre ++ (c, v) :: u)%list with ((pre ++ [(c, v)]) ++ u)%list
        by (rewrite <- app_assoc; reflexivity).
      rewrite IH.
      * rewrite <- !app_assoc. reflexivity.
      * rewrite <- app_assoc. unfold col_names. rewrite map_app. exact Hnd.
Qed.

Lemma clean_columns_pairs (sheet_name : string) (t : table) :
  combine (clean_columns_names sheet_name (col_names t))
          (map snd (filter (fun p => match clean_columns_names sheet_name [fst p] with
                                     | [] => false | _ => true end) t))
  = flat_map (fun p => map (fun x => (x, snd p)) (clean_columns_names sheet_name [fst p])) t.
Proof.
  induction t as [|[c v] t IH]; [reflexivity|].
  change (col_names ((c, v) :: t)) with (c :: col_names t).
  rewrite (clean_columns_names_cons sheet_name c (col_names t)). cbn [filter fst flat_map snd].
  destruct (clean_columns_names_single sheet_name c) as [E|[x E]]; rewrite E; [exact IH|].
  cbn [app map combine length snd]. rewrite IH. reflexivity.
Qed.

Lemma clean_columns_lengths (sheet_name : string) (t : table) :
  length (clean_columns_names sheet_name (col_names t))
  = length (filter (fun p => match clean_columns_names sheet_name [fst p] with
                             | [] => false | _ => true end) t).
Proof.
  induction t as [|[c v] t IH]; [reflexivity|].
  change (col_names ((c, v) :: t)) with (c :: col_names t).
  rewrite (clean_columns_names_cons sheet_name c (col_names t)). cbn [filter fst].
  destruct (clean_columns_names_single sheet_name c) as [E|[x E]]; rewrite E; [exact IH|].
  cbn [app map combine length snd]. rewrite IH. reflexivity.
Qed.

Lemma col_names_pairs (sheet_name : string) (t : table) :
  col_names (flat_map (fun p => map (fun x => (x, snd p)) (clean_columns_names sheet_name [fst p])) t)
  = clean_columns_names sheet_name (col_names t).
Proof.
  induction t as [|[c v] t IH]; [reflexivity|].
  change (col_names ((c, v) :: t)) with (c :: col_names t).
  rewrite (clean_columns_names_cons sheet_name c (col_names t)). cbn [flat_map fst snd].
  unfold col_names in *. rewrite map_app, IH, map_map. cbn. rewrite map_id. reflexivity.
Qed.

Lemma lookup_col_nodup (x : string) (v : column) (df : table) :
  NoDup (col_names df) -> In (x, v) df -> lookup_col x df = Some v.
Proof.
  unfold lookup_col, col_names. induction df as [|[n w] df IH]; intros Hnd Hin; [destruct Hin|].
  cbn [find fst]. inversion Hnd as [|? ? Hn Hnd']; subst.
  destruct Hin as [E|Hin].
  - injection E as -> ->. rewrite String.eqb_refl. reflexivity.
  - destruct (String.eqb n x) eqn:E.
    + apply String.eqb_eq in E. subst n. exfalso. apply Hn. apply in_map_iff.
      exists (x, v). auto.
    + apply IH; assumption.
Qed.

Lemma col_names_set_col (n : string) (c : column) (df : table) :
  has_col n df = true -> col_names (set_col n c df) = col_names df.
Proof.
  induction df as [|[m w] df IH]; simpl; [discriminate|].
  destruct (String.eqb m n) eqn:E; [reflexivity|]. cbn [orb]. intros H.
  unfold col_names in *. simpl. rewrite IH by exact H. reflexivity.
Qed.

Lemma lookup_col_set_col_same (n : string) (c : column) (df : table) :
  has_col n df = true -> lookup_col n (set_col n c df) = Some c.
Proof.
  unfold lookup_col. induction df as [|[m w] df IH]; simpl; [discriminate|].
  destruct (String.eqb m n) eqn:E; cbn [find fst]; rewrite ?E; [reflexivity|].
  cbn [orb]. intros H. apply IH, H.
Qed.

Lemma format_date_col_nodup (format_dates : column -> column) (name : string) (df : table) :
  NoDup (col_names df) ->
  format_date_col format_dates name df
  = Some (if has_col name df then set_col name (format_dates (get_col name df)) df else df).
Proof.
  intros Hnd. unfold format_date_col.
  assert (Hf : forall l : table, NoDup (col_names l) ->
             filter (fun p => String.eqb (fst p) name) l = []
             \/ exists p, filter (fun p => String.eqb (fst p) name) l = [p]
                          /\ has_col name l = true).
  { induction l as [|[m w] l IH]; intros Hl; [left; reflexivity|].
    inversion Hl as [|? ? Hm Hl']; subst. cbn [filter fst].
    destruct (String.eqb m name) eqn:E.
    - right. exists (m, w). split; [|unfold has_col; simpl; rewrite E; reflexivity].
      f_equal. apply filter_all_false. intros [k u] Hin. cbn [fst].
      apply String.eqb_neq. intros ->. apply String.eqb_eq in E. subst m.
      apply Hm. apply in_map_iff. exists (name, u). auto.
    - destruct (IH Hl') as [H|[p [H Hh]]]; [left; exact H|right; exists p; split; [exact H|]].
      unfold has_col. simpl. rewrite E. exact Hh. }
  destruct (Hf df Hnd) as [H|[p [H Hh]]]; rewrite H; [|rewrite Hh; reflexivity].
  destruct (has_col name df) eqn:Hh; [|reflexivity].
  exfalso. unfold has_col in Hh. apply existsb_exists in Hh as [q [Hq Eq]].
  assert (Hin : In q (filter (fun p => String.eqb (fst p) name) df)) by (apply filter_In; auto).
  rewrite H in Hin. destruct Hin.
Qed.


Section SaveProperties.

Variable format_dates : column -> column.

Lemma lookup_col_has (x : string) (v : column) (df : table) :
  lookup_col x df = Some v -> has_col x df = true.
Proof.
  unfold lookup_col, has_col. destruct (find _ df) as [p|] eqn:E; [|discriminate].
  intros _. apply existsb_exists. exists p. split; [apply (find_some _ _ E)|apply (find_some _ _ E)].
Qed.

Lemma lookup_format_col (n x : string) (v : column) (df : table) :
  lookup_col x df = Some v ->
  lookup_col x (if has_col n df then set_col n (format_dates (get_col n df)) df else df)
  = Some (if String.eqb x n then format_dates v else v)
  /\ col_names (if has_col n df then set_col n (format_dates (get_col n df)) df else df)
     = col_names df.
Proof.
  intros Hl. destruct (has_col n df) eqn:Hh.
  - rewrite col_names_set_col by exact Hh. split; [|reflexivity].
    destruct (String.eqb x n) eqn:E.
    + apply String.eqb_eq in E. subst x. rewrite lookup_col_set_col_same by exact Hh.
      unfold get_col. rewrite Hl. reflexivity.
    + rewrite lookup_col_set_col; [exact Hl|]. intros ->. rewrite String.eqb_refl in E. discriminate E.
  - split; [|reflexivity]. destruct (String.eqb x n) eqn:E; [|exact Hl].
    apply String.eqb_eq in E. subst x. apply lookup_col_has in Hl. congruence.
Qed.

(** [clean_columns] on a table with distinct column names whose cleaned
    names are distinct too: it does not raise, its columns are the cleaned
    names of [clean_columns_names] in order, each kept column keeps its
    values, and exactly the columns named [Invoice Date] and
    [gstr1_filing_date] after renaming go through the date formatting. *)
Theorem clean_columns_distinct_names (t : table) (sheet_name : string) :
  NoDup (col_names t) -> NoDup (clean_columns_names sheet_name (col_names t)) ->
  exists t', clean_columns format_dates t sheet_name = Some t'
    /\ col_names t' = clean_columns_names sheet_name (col_names t)
    /\ forall c v x, In (c, v) t -> clean_columns_names sheet_name [c] = [x] ->
         lookup_col x t'
         = Some (if mem x ["Invoice Date"; "gstr1_filing_date"] then format_dates v else v).
Proof.
  intros Hnd Hnd'. unfold clean_columns.
  pose proof (clean_columns_loop_distinct sheet_name t [] [] Hnd) as HL. cbn [app] in HL.
  rewrite HL.
  unfold set_columns. rewrite clean_columns_lengths, Nat.eqb_refl, clean_columns_pairs.
  set (df2 := flat_map (fun p => map (fun x => (x, snd p)) (clean_columns_names sheet_name [fst p])) t).
  assert (Hn2 : col_names df2 = clean_columns_names sheet_name (col_names t))
    by apply col_names_pairs.
  rewrite format_date_col_nodup by (rewrite Hn2; exact Hnd').
  set (df3 := if has_col "Invoice Date" df2
              then set_col "Invoice Date" (format_dates (get_col "Invoice Date" df2)) df2 else df2).
  assert (Hn3 : col_names df3 = col_names df2)
    by (unfold df3; destruct (has_col "Invoice Date" df2) eqn:Hh;
        [apply col_names_set_col, Hh|reflexivity]).
  rewrite format_date_col_nodup by (rewrite Hn3, Hn2; exact Hnd').
  eexists. split; [reflexivity|]. split.
  - destruct (has_col "gstr1_filing_date" df3) eqn:Hh.
    + rewrite col_names_set_col by exact Hh. rewrite Hn3. exact Hn2.
    + rewrite Hn3. exact Hn2.
  - intros c v x Hin Hx.
    assert (Hl2 : lookup_col x df2 = Some v).
    { apply lookup_col_nodup; [rewrite Hn2; exact Hnd'|].
      apply in_flat_map. exists (c, v). split; [exact Hin|]. cbn [fst snd]. rewrite Hx. left. reflexivity. }
    destruct (lookup_format_col "Invoice Date" x v df2 Hl2) as [Hl3 _]. fold df3 in Hl3.
    destruct (lookup_format_col "gstr1_filing_date" x _ df3 Hl3) as [Hl4 _]. rewrite Hl4.
    unfold mem. cbn [existsb]. rewrite orb_false_r.
    destruct (String.eqb x "Invoice Date") eqn:E1; destruct (String.eqb x "gstr1_filing_date") eqn:E2;
      try reflexivity.
    apply String.eqb_eq in E1. subst x. discriminate E2.
Qed.

End SaveProperties.

(** *** Worksheets *)

Lemma update_nth_middle {A} (f : A -> A) (pre post : list A) (x : A) :
  update_nth (length pre) f (pre ++ x :: post) = (pre ++ f x :: post)%list.
Proof. induction pre as [|y pre IH]; simpl; [reflexivity|]. rewrite IH. reflexivity. Qed.

Lemma set_cell_append (r c : nat) (v : cell) (pre : worksheet) (row : list cell) :
  length pre = (r - 1)%nat -> (1 <= r)%nat -> length row = (c - 1)%nat -> (1 <= c)%nat ->
  set_cell r c v (pre ++ [row])%list = (pre ++ [row ++ [v]])%list.
Proof.
  intros Hp Hr Hw Hc. unfold set_cell.
  rewrite length_app. cbn [length]. replace (r - (length pre + 1))%nat with 0%nat by lia.
  cbn [repeat]. rewrite app_nil_r. replace (r - 1)%nat with (length pre) by lia.
  rewrite update_nth_middle. cbv beta.
  replace (c - length row)%nat with 1%nat by lia. replace (c - 1)%nat with (length row) by lia.
  cbn [repeat]. rewrite update_nth_middle. reflexivity.
Qed.

Lemma set_cell_new_row (r : nat) (v : cell) (ws : worksheet) :
  (length ws <= r - 1)%nat -> (1 <= r)%nat ->
  set_cell r 1 v ws = (ws ++ repeat [] (r - 1 - length ws) ++ [[v]])%list.
Proof.
  intros Hl Hr. unfold set_cell.
  replace (r - length ws)%nat with (r - 1 - length ws + 1)%nat by lia.
  rewrite repeat_app, app_assoc. cbn [repeat].
  set (k := (r - 1 - length ws)%nat).
  replace (r - 1)%nat with (length (ws ++ repeat [] k)%list)
    by (rewrite length_app, repeat_length; unfold k; lia).
  rewrite update_nth_middle, <- app_assoc. reflexivity.
Qed.

Lemma write_row_append (r : nat) (vs : list cell) :
  forall (c : nat) (pre : worksheet) (row : list cell),
  length pre = (r - 1)%nat -> (1 <= r)%nat -> length row = (c - 1)%nat -> (1 <= c)%nat ->
  write_row r c vs (pre ++ [row])%list = (pre ++ [row ++ vs])%list.
Proof.
  induction vs as [|v vs IH]; intros c pre row Hp Hr Hw Hc; cbn [write_row].
  - rewrite app_nil_r. reflexivity.
  - rewrite set_cell_append by assumption.
    rewrite IH by (rewrite ?length_app; cbn [length]; lia).
    rewrite <- app_assoc. reflexivity.
Qed.

Lemma write_row_new (r : nat) (vals : list cell) (ws : worksheet) :
  vals <> [] -> (length ws <= r - 1)%nat -> (1 <= r)%nat ->
  write_row r 1 vals ws = (ws ++ repeat [] (r - 1 - length ws) ++ [vals])%list.
Proof.
  destruct vals as [|v vs]; [congruence|]. intros _ Hl Hr. cbn [write_row].
  rewrite set_cell_new_row by assumption. rewrite app_assoc.
  rewrite write_row_append by (rewrite ?length_app, ?repeat_length; cbn [length]; lia).
  rewrite <- app_assoc. reflexivity.
Qed.

Lemma write_rows_new (rows : list (list cell)) :
  forall (r : nat) (ws : worksheet),
  rows <> [] -> (forall row, In row rows -> row <> []) ->
  (length ws <= r - 1)%nat -> (1 <= r)%nat ->
  write_rows r rows ws = (ws ++ repeat [] (r - 1 - length ws) ++ rows)%list.
Proof.
  induction rows as [|row rows IH]; intros r ws Hne Hrows Hl Hr; [congruence|].
  cbn [write_rows]. rewrite write_row_new by (assumption || (apply Hrows; left; reflexivity)).
  destruct rows as [|row' rows'].
  - reflexivity.
  - assert (Hlen : length (ws ++ repeat [] (r - 1 - length ws) ++ [row])%list = r)
      by (rewrite !length_app, repeat_length; cbn [length]; lia).
    rewrite IH; [|discriminate|intros x Hx; apply Hrows; right; exact Hx|lia|lia].
    rewrite Hlen. replace (S r - 1 - r)%nat with 0%nat by lia. cbn [repeat app].
    rewrite <- !app_assoc. reflexivity.
Qed.

Lemma table_rows_written (t : table) :
  table_empty t = false -> table_rows t <> [] /\ forall row, In row (table_rows t) -> row <> [].
Proof.
  destruct t as [|[n c] t]; [discriminate|]. simpl. intros H. unfold table_rows. split.
  - destruct c as [|x c]; [discriminate|]. simpl. discriminate.
  - intros row Hin. apply in_map_iff in Hin as [i [<- _]]. simpl. discriminate.
Qed.

Lemma table_rows_empty (t : table) : table_empty t = true -> table_rows t = [].
Proof.
  destruct t as [|[n c] t]; [reflexivity|]. simpl. intros H.
  destruct c; [reflexivity|discriminate].
Qed.

Lemma clear_from_row3 (ws : worksheet) :
  (if (3 <=? max_row ws)%nat then delete_rows 3 (max_row ws - 2) ws else ws) = firstn 2 ws.
Proof.
  unfold max_row, delete_rows. destruct (Nat.leb_spec 3 (Nat.max 1 (length ws))) as [H|H].
  - rewrite skipn_all2 by lia. rewrite app_nil_r. reflexivity.
  - rewrite firstn_all2 by lia. reflexivity.
Qed.

(** *** Workbooks *)

Lemma get_sheet_app_other (n m : string) (ws : worksheet) (wb : workbook) :
  m <> n -> get_sheet n (wb ++ [(m, ws)])%list = get_sheet n wb.
Proof.
  intros H. unfold get_sheet. induction wb as [|[k w] wb IH]; simpl.
  - apply String.eqb_neq in H. rewrite H. reflexivity.
  - destruct (String.eqb k n); [reflexivity|exact IH].
Qed.

Lemma get_sheet_app_new (n : string) (ws : worksheet) (wb : workbook) :
  get_sheet n wb = None -> get_sheet n (wb ++ [(n, ws)])%list = Some ws.
Proof.
  unfold get_sheet. induction wb as [|[k w] wb IH]; simpl.
  - rewrite String.eqb_refl. reflexivity.
  - destruct (String.eqb k n); [discriminate|exact IH].
Qed.

Lemma get_sheet_put_other (n m : string) (ws : worksheet) (wb : workbook) :
  m <> n -> get_sheet n (put_sheet m ws wb) = get_sheet n wb.
Proof.
  intros H. unfold get_sheet. induction wb as [|[k w] wb IH]; simpl; [reflexivity|].
  destruct (String.eqb k m) eqn:Ek; simpl.
  - apply String.eqb_eq in Ek. subst k. apply String.eqb_neq in H. rewrite H. reflexivity.
  - destruct (String.eqb k n); [reflexivity|exact IH].
Qed.

Lemma get_sheet_put_same (n : string) (ws : worksheet) (wb : workbook) :
  get_sheet n wb <> None -> get_sheet n (put_sheet n ws wb) = Some ws.
Proof.
  unfold get_sheet. induction wb as [|[k w] wb IH]; simpl; [congruence|].
  destruct (String.eqb k n) eqn:Ek; simpl; rewrite ?Ek; [reflexivity|exact IH].
Qed.

Lemma sheet_names_put (n : string) (ws : worksheet) (wb : workbook) :
  sheet_names (put_sheet n ws wb) = sheet_names wb.
Proof.
  unfold sheet_names. induction wb as [|[k w] wb IH]; simpl; [reflexivity|].
  destruct (String.eqb k n); simpl; rewrite ?IH; reflexivity.
Qed.

Lemma get_sheet_mem (n : string) (wb : workbook) :
  mem n (sheet_names wb) = true <-> get_sheet n wb <> None.
Proof.
  rewrite mem_true. unfold get_sheet, sheet_names. induction wb as [|[k w] wb IH]; simpl.
  - split; [intros []|congruence].
  - destruct (String.eqb k n) eqn:Ek; simpl.
    + apply String.eqb_eq in Ek. split; [discriminate|left; exact Ek].
    + rewrite <- IH. apply String.eqb_neq in Ek. split; [intros [E|H]; [contradiction|exact H]|].
      intros H. right. exact H.
Qed.

Section SaveToExcel.

Variable format_dates : column -> column.

Lemma save_sheet_skip (wb : workbook) (n : string) (odf : option table) :
  (forall t, odf = Some t -> table_empty t = true) -> save_sheet format_dates wb (n, odf) = Some wb.
Proof.
  intros H. destruct odf as [t|]; [|reflexivity]. unfold save_sheet.
  rewrite (H t eq_refl). reflexivity.
Qed.

Lemma save_sheet_get_other (wb wb1 : workbook) (m n : string) (odf : option table) :
  save_sheet format_dates wb (m, odf) = Some wb1 -> m <> n -> get_sheet n wb1 = get_sheet n wb.
Proof.
  intros H Hm. destruct odf as [t|]; [|injection H as <-; reflexivity]. unfold save_sheet in H.
  destruct (table_empty t); [injection H as <-; reflexivity|].
  destruct (clean_columns format_dates t m) as [t'|]; [|discriminate]. injection H as <-.
  rewrite get_sheet_put_other by exact Hm.
  destruct (mem m (sheet_names wb)); [reflexivity|apply get_sheet_app_other, Hm].
Qed.

Lemma save_sheet_none (wb : workbook) (m : string) (odf : option table) :
  save_sheet format_dates wb (m, odf) = None
  <-> exists t, odf = Some t /\ table_empty t = false /\ clean_columns format_dates t m = None.
Proof.
  destruct odf as [t|]; [|split; [discriminate|intros [t [E _]]; discriminate E]].
  unfold save_sheet. destruct (table_empty t) eqn:He.
  - split; [discriminate|intros [t' [E [He' _]]]; injection E as <-; congruence].
  - destruct (clean_columns format_dates t m) eqn:Hc.
    + split; [discriminate|intros [t' [E [_ Hc']]]; injection E as <-; congruence].
    + split; [intros _; exists t; auto|reflexivity].
Qed.

Lemma save_sheets_get_unwritten (wb wb' : workbook) (result : list (string * option table))
  (n : string) :
  save_sheets format_dates wb result = Some wb' ->
  (forall t, In (n, Some t) result -> table_empty t = true) ->
  get_sheet n wb' = get_sheet n wb.
Proof.
  revert wb. induction result as [|[m odf] result IH]; intros wb H Hn; cbn [save_sheets] in H.
  - injection H as <-. reflexivity.
  - destruct (save_sheet format_dates wb (m, odf)) as [wb1|] eqn:E; [|discriminate].
    rewrite (IH wb1 H) by (intros t Ht; apply Hn; right; exact Ht).
    destruct (String.eqb m n) eqn:Em.
    + apply String.eqb_eq in Em. subst m. rewrite save_sheet_skip in E.
      * injection E as <-. reflexivity.
      * intros t ->. apply Hn. left. reflexivity.
    + apply (save_sheet_get_other wb wb1 m n odf E). apply String.eqb_neq, Em.
Qed.

Lemma save_sheet_names (wb wb1 : workbook) (m : string) (odf : option table) :
  save_sheet format_dates wb (m, odf) = Some wb1 ->
  sheet_names wb1
  = (sheet_names wb
     ++ (if match odf with Some t => negb (table_empty t) | None => false end
            && negb (mem m (sheet_names wb)) then [m] else []))%list.
Proof.
  intros H. destruct odf as [t|]; [|injection H as <-; rewrite app_nil_r; reflexivity].
  unfold save_sheet in H. destruct (table_empty t); cbn [negb andb].
  - injection H as <-. rewrite app_nil_r. reflexivity.
  - destruct (clean_columns format_dates t m) as [t'|]; [|discriminate]. injection H as <-.
    rewrite sheet_names_put. destruct (mem m (sheet_names wb)); cbn [negb].
    + rewrite app_nil_r. reflexivity.
    + unfold sheet_names. rewrite map_app. reflexivity.
Qed.

Lemma save_sheet_written (wb wb1 : workbook) (n : string) (t t' : table) :
  table_empty t = false -> clean_columns format_dates t n = Some t' ->
  save_sheet format_dates wb (n, Some t) = Some wb1 ->
  get_sheet n wb1
  = Some (let kept := firstn 2 (match get_sheet n wb with Some ws => ws | None => [] end) in
          if table_empty t' then kept
          else (kept ++ repeat [] (2 - length kept) ++ table_rows t')%list).
Proof.
  intros He Hc H. unfold save_sheet in H. rewrite He, Hc in H.
  assert (E := f_equal (fun o => match o with Some w => w | None => wb end) H).
  cbv beta iota zeta in E. subst wb1.
  set (old := match get_sheet n wb with Some ws => ws | None => [] end).
  set (wb1 := if mem n (sheet_names wb) then wb else (wb ++ [(n, [])])%list).
  assert (Hg : get_sheet n wb1 = Some old).
  { unfold wb1, old. destruct (mem n (sheet_names wb)) eqn:Em.
    - apply get_sheet_mem in Em. destruct (get_sheet n wb); [reflexivity|congruence].
    - assert (Hn : get_sheet n wb = None)
        by (destruct (get_sheet n wb) eqn:E; [|reflexivity];
            assert (Hm : mem n (sheet_names wb) = true) by (apply get_sheet_mem; congruence);
            congruence).
      rewrite Hn. apply get_sheet_app_new, Hn. }
  rewrite Hg. cbv iota. rewrite clear_from_row3, get_sheet_put_same by congruence. f_equal.
  destruct (table_empty t') eqn:Et'.
  - rewrite table_rows_empty by exact Et'. reflexivity.
  - destruct (table_rows_written t' Et') as [Hne Hrows].
    rewrite write_rows_new by first [assumption | lia | rewrite length_firstn; lia]. reflexivity.
Qed.

Lemma save_sheets_written (wb wb' : workbook) (result : list (string * option table))
  (n : string) (t : table) :
  NoDup (map fst result) -> In (n, Some t) result -> table_empty t = false ->
  save_sheets format_dates wb result = Some wb' ->
  exists t', clean_columns format_dates t n = Some t'
    /\ get_sheet n wb'
       = Some (let kept := firstn 2 (match get_sheet n wb with Some ws => ws | None => [] end) in
               if table_empty t' then kept
               else (kept ++ repeat [] (2 - length kept) ++ table_rows t')%list).
Proof.
  revert wb. induction result as [|[m odf] result IH]; intros wb Hnd Hin He H; [destruct Hin|].
  cbn [save_sheets] in H. inversion Hnd as [|? ? Hm Hnd']; subst.
  destruct (save_sheet format_dates wb (m, odf)) as [wb1|] eqn:E; [|discriminate].
  destruct Hin as [Eq|Hin].
  - injection Eq as -> ->.
    destruct (clean_columns format_dates t n) as [t'|] eqn:Hc.
    + exists t'. split; [reflexivity|].
      rewrite (save_sheets_get_unwritten wb1 wb' result n H).
      * exact (save_sheet_written wb wb1 n t t' He Hc E).
      * intros t0 Ht0. exfalso. apply Hm. apply in_map_iff. exists (n, Some t0). auto.
    + exfalso. assert (En : save_sheet format_dates wb (n, Some t) = None)
        by (apply save_sheet_none; exists t; auto).
      congruence.
  - assert (Hmn : m <> n)
      by (intros ->; apply Hm; apply in_map_iff; exists (n, Some t); auto).
    destruct (IH wb1 Hnd' Hin He H) as [t' [Hc Hg]]. exists t'. split; [exact Hc|].
    rewrite Hg, (save_sheet_get_other wb wb1 m n odf E Hmn). reflexivity.
Qed.

Lemma save_sheets_some (wb : workbook) (result : list (string * option table)) :
  save_sheets format_dates wb result <> None
  <-> forall n t, In (n, Some t) result -> table_empty t = false ->
        clean_columns format_dates t n <> None.
Proof.
  revert wb. induction result as [|[m odf] result IH]; intros wb; cbn [save_sheets].
  - split; [intros _ n t []|discriminate].
  - destruct (save_sheet format_dates wb (m, odf)) as [wb1|] eqn:E.
    + rewrite IH. split.
      * intros H n t [Eq|Hin] He; [|exact (H n t Hin He)].
        injection Eq as -> ->. intros Hc.
        assert (En : save_sheet format_dates wb (n, Some t) = None)
          by (apply save_sheet_none; exists t; auto).
        congruence.
      * intros H n t Hin He. apply (H n t); [right; exact Hin|exact He].
    + split; [congruence|]. intros H. exfalso.
      apply save_sheet_none in E as [t [-> [He Hc]]]. apply (H m t); [left; reflexivity|exact He|exact Hc].
Qed.

Lemma save_sheets_names (wb wb' : workbook) (result : list (string * option table)) :
  save_sheets format_dates wb result = Some wb' ->
  exists added, sheet_names wb' = (sheet_names wb ++ added)%list /\ NoDup added
    /\ forall x, In x added
                 <-> ~ In x (sheet_names wb)
                     /\ exists t, In (x, Some t) result /\ table_empty t = false.
Proof.
  revert wb. induction result as [|[m odf] result IH]; intros wb H; cbn [save_sheets] in H.
  - injection H as <-. exists []. split; [rewrite app_nil_r; reflexivity|].
    split; [constructor|]. intros x. split; [intros []|intros [_ [t [[] _]]]].
  - destruct (save_sheet format_dates wb (m, odf)) as [wb1|] eqn:E; [|discriminate].
    destruct (IH wb1 H) as [added [Hn [Hnd Hiff]]].
    pose proof (save_sheet_names wb wb1 m odf E) as Hn1.
    set (b := match odf with Some t => negb (table_empty t) | None => false end
              && negb (mem m (sheet_names wb))) in Hn1.
    exists ((if b then [m] else []) ++ added)%list. split.
    { rewrite Hn, Hn1, app_assoc. reflexivity. }
    split.
    { destruct b; [|exact Hnd]. constructor; [|exact Hnd].
      intros Hin. apply Hiff in Hin as [Hin _]. apply Hin. rewrite Hn1. apply in_or_app. right. left.
      reflexivity. }
    intros x. rewrite in_app_iff. split.
    + intros [Hx|Hx].
      * destruct b eqn:Eb; [|destruct Hx]. destruct Hx as [<-|[]].
        apply andb_true_iff in Eb as [Ew Em]. destruct odf as [t|]; [|discriminate Ew].
        split.
        -- intros Hin. apply mem_true in Hin. rewrite Hin in Em. discriminate Em.
        -- exists t. split; [left; reflexivity|]. destruct (table_empty t); [discriminate Ew|reflexivity].
      * apply Hiff in Hx as [Hx [t [Ht He]]]. split.
        -- intros Hin. apply Hx. rewrite Hn1. apply in_or_app. left. exact Hin.
        -- exists t. split; [right; exact Ht|exact He].
    + intros [Hx [t [[Eq|Ht] He]]].
      * left. injection Eq as -> ->. unfold b. rewrite He.
        destruct (mem x (sheet_names wb)) eqn:Em.
        -- apply mem_true in Em. contradiction.
        -- left. reflexivity.
      * destruct (in_dec String.string_dec x (sheet_names wb1)) as [Hin|Hin].
        -- left. rewrite Hn1 in Hin. apply in_app_iff in Hin as [Hin|Hin]; [contradiction|exact Hin].
        -- right. apply Hiff. split; [exact Hin|]. exists t. auto.
Qed.

Lemma save_sheets_none (wb : workbook) (result : list (string * option table)) :
  save_sheets format_dates wb result = None
  <-> exists n t, In (n, Some t) result /\ table_empty t = false
                  /\ clean_columns format_dates t n = None.
Proof.
  revert wb. induction result as [|[m odf] result IH]; intros wb; cbn [save_sheets].
  - split; [discriminate|intros [n [t [[] _]]]].
  - destruct (save_sheet format_dates wb (m, odf)) as [wb1|] eqn:E.
    + rewrite IH. split.
      * intros [n [t [Hin H]]]. exists n, t. split; [right; exact Hin|exact H].
      * intros [n [t [[Eq|Hin] [He Hc]]]].
        -- injection Eq as -> ->. exfalso.
           assert (En : save_sheet format_dates wb (n, Some t) = None)
             by (apply save_sheet_none; exists t; auto).
           congruence.
        -- exists n, t. auto.
    + split; [intros _|reflexivity].
      apply save_sheet_none in E as [t [-> [He Hc]]]. exists m, t. split; [left; reflexivity|auto].
Qed.

Lemma save_to_excel_true (wb wb' : workbook) (result : list (string * option table)) :
  save_to_excel format_dates (Some wb) result = (true, Some wb') ->
  save_sheets format_dates wb result = Some wb'.
Proof.
  unfold save_to_excel. destruct (save_sheets format_dates wb result); congruence.
Qed.

(** Extra (lines 34-56): a sheet that no entry of [result] writes, because
    its name is absent from [result] or its DataFrame is [None] or empty,
    is stored unchanged: the input sheets GSTN and BOOKS, and the rows left
    from an earlier run in a bucket that is [None] this time. *)
Theorem save_to_excel_keeps_unwritten_sheets (wb wb' : workbook)
  (result : list (string * option table)) (n : string) :
  save_to_excel format_dates (Some wb) result = (true, Some wb') ->
  (forall t, In (n, Some t) result -> table_empty t = true) ->
  get_sheet n wb' = get_sheet n wb.
Proof.
  intros H Hn. apply save_to_excel_true in H.
  exact (save_sheets_get_unwritten wb wb' result n H Hn).
Qed.

(** Extra (lines 39-41): the sheets of the saved workbook are the old ones
    in their order, followed by one new sheet for each name of [result]
    with a non-empty DataFrame that was not a sheet yet, each created once. *)
Theorem save_to_excel_sheet_names (wb wb' : workbook)
  (result : list (string * option table)) :
  save_to_excel format_dates (Some wb) result = (true, Some wb') ->
  exists added, sheet_names wb' = (sheet_names wb ++ added)%list /\ NoDup added
    /\ forall x, In x added
                 <-> ~ In x (sheet_names wb)
                     /\ exists t, In (x, Some t) result /\ table_empty t = false.
Proof.
  intros H. apply save_to_excel_true in H. exact (save_sheets_names wb wb' result H).
Qed.

(** Extra (lines 36-55): for a dict [result] (distinct names), a sheet
    whose DataFrame is non-empty keeps at most its first two rows of
    before (none for a new sheet), padded to two rows, and then holds the
    rows of the cleaned DataFrame from row 3, without header. *)
Theorem save_to_excel_written_sheet (wb wb' : workbook)
  (result : list (string * option table)) (n : string) (t : table) :
  NoDup (map fst result) -> In (n, Some t) result -> table_empty t = false ->
  save_to_excel format_dates (Some wb) result = (true, Some wb') ->
  exists t', clean_columns format_dates t n = Some t'
    /\ get_sheet n wb'
       = Some (let kept := firstn 2 (match get_sheet n wb with Some ws => ws | None => [] end) in
               if table_empty t' then kept
               else (kept ++ repeat [] (2 - length kept) ++ table_rows t')%list).
Proof.
  intros Hnd Hin He H. apply save_to_excel_true in H.
  exact (save_sheets_written wb wb' result n t Hnd Hin He H).
Qed.

(** Extra (lines 30-62): when [clean_columns] raises on one of the
    non-empty DataFrames of [result], [save_to_excel] returns [False] and the
    file keeps the workbook it had, since [wb.save] is not reached. *)
Theorem save_to_excel_fails_when_cleaning_raises (wb : workbook)
  (result : list (string * option table)) (n : string) (t : table) :
  In (n, Some t) result -> table_empty t = false -> clean_columns format_dates t n = None ->
  save_to_excel format_dates (Some wb) result = (false, Some wb).
Proof.
  intros Hin He Hc.
  assert (H : save_sheets format_dates wb result = None)
    by (apply save_sheets_none; exists n, t; auto).
  unfold save_to_excel. cbv beta iota. rewrite H. reflexivity.
Qed.

(** Extra (lines 44-55): for a dict [result], every sheet of the workbook
    keeps its first two rows (title and header) in front of whatever the
    save writes. *)
Theorem save_to_excel_keeps_header_rows (wb wb' : workbook)
  (result : list (string * option table)) (n : string) (ws : worksheet) :
  NoDup (map fst result) ->
  save_to_excel format_dates (Some wb) result = (true, Some wb') ->
  get_sheet n wb = Some ws ->
  exists ws' rest, get_sheet n wb' = Some ws' /\ ws' = (firstn 2 ws ++ rest)%list.
Proof.
  intros Hnd H Hg. apply save_to_excel_true in H.
  destruct (existsb (fun p => String.eqb (fst p) n
                               && match snd p with Some t => negb (table_empty t) | None => false end)
                    result) eqn:Ew.
  - apply existsb_exists in Ew as [[m [t|]] [Hin Hp]]; cbn [fst snd] in Hp;
      [|rewrite andb_false_r in Hp; discriminate Hp].
    apply andb_true_iff in Hp as [Hm He]. apply String.eqb_eq in Hm. subst m.
    apply negb_true_iff in He.
    destruct (save_sheets_written wb wb' result n t Hnd Hin He H) as [t' [_ Hw]].
    rewrite Hg in Hw. cbv zeta in Hw. destruct (table_empty t').
    + exists (firstn 2 ws), []. rewrite app_nil_r. auto.
    + eexists _, _. split; [exact Hw|reflexivity].
  - exists ws, (skipn 2 ws). split; [|symmetry; apply firstn_skipn].
    rewrite <- Hg. apply (save_sheets_get_unwritten wb wb' result n H).
    intros t Hin. destruct (table_empty t) eqn:He; [reflexivity|].
    assert (Hc : existsb (fun p => String.eqb (fst p) n
                                  && match snd p with Some t => negb (table_empty t) | None => false end)
                         result = true).
    { apply existsb_exists. exists (n, Some t). split; [exact Hin|].
      cbn [fst snd]. rewrite String.eqb_refl, He. reflexivity. }
    congruence.
Qed.

End SaveToExcel.

(** *** Witnesses of the save properties on the sample workbook *)

Lemma clean_columns_distinct_names_witness :
  NoDup (col_names sample_matched)
  /\ NoDup (clean_columns_names "MATCHED" (col_names sample_matched))
  /\ exists t', clean_columns sample_format_dates sample_matched "MATCHED" = Some t'
    /\ col_names t' = clean_columns_names "MATCHED" (col_names sample_matched)
    /\ forall c v x, In (c, v) sample_matched -> clean_columns_names "MATCHED" [c] = [x] ->
         lookup_col x t'
         = Some (if mem x ["Invoice Date"; "gstr1_filing_date"] then sample_format_dates v else v).
Proof.
  split; [apply nodupb_NoDup; vm_compute; reflexivity|].
  split; [apply nodupb_NoDup; vm_compute; reflexivity|].
  apply (clean_columns_distinct_names sample_format_dates sample_matched "MATCHED");
    apply nodupb_NoDup; vm_compute; reflexivity.
Defined.

Lemma save_to_excel_keeps_unwritten_sheets_witness :
  exists wb', save_to_excel sample_format_dates (Some sample_workbook) sample_result = (true, Some wb')
    /\ get_sheet "PREV_FY_ITC" wb' = get_sheet "PREV_FY_ITC" sample_workbook.
Proof.
  exists (match snd (save_to_excel sample_format_dates (Some sample_workbook) sample_result) with
          | Some wb => wb | None => [] end).
  split; [vm_compute; reflexivity|].
  apply (save_to_excel_keeps_unwritten_sheets sample_format_dates sample_workbook _ sample_result
           "PREV_FY_ITC").
  - vm_compute. reflexivity.
  - intros t H. simpl in H. destruct H as [H|[H|[H|[H|[]]]]]; try discriminate H.
    injection H as <-. vm_compute. reflexivity.
Defined.

Lemma save_to_excel_sheet_names_witness :
  exists wb', save_to_excel sample_format_dates (Some sample_workbook) sample_result = (true, Some wb')
    /\ exists added, sheet_names wb' = (sheet_names sample_workbook ++ added)%list /\ NoDup added
       /\ forall x, In x added
                    <-> ~ In x (sheet_names sample_workbook)
                        /\ exists t, In (x, Some t) sample_result /\ table_empty t = false.
Proof.
  exists (match snd (save_to_excel sample_format_dates (Some sample_workbook) sample_result) with
          | Some wb => wb | None => [] end).
  split; [vm_compute; reflexivity|].
  apply (save_to_excel_sheet_names sample_format_dates sample_workbook _ sample_result).
  vm_compute. reflexivity.
Defined.

Lemma save_to_excel_written_sheet_witness :
  exists wb', save_to_excel sample_format_dates (Some sample_workbook) sample_result = (true, Some wb')
    /\ exists t', clean_columns sample_format_dates sample_matched "MATCHED" = Some t'
       /\ get_sheet "MATCHED" wb'
          = Some (let kept := firstn 2 (match get_sheet "MATCHED" sample_workbook with
                                        | Some ws => ws | None => [] end) in
                  if table_empty t' then kept
                  else (kept ++ repeat [] (2 - length kept) ++ table_rows t')%list).
Proof.
  exists (match snd (save_to_excel sample_format_dates (Some sample_workbook) sample_result) with
          | Some wb => wb | None => [] end).
  split; [vm_compute; reflexivity|].
  apply (save_to_excel_written_sheet sample_format_dates sample_workbook _ sample_result
           "MATCHED" sample_matched).
  - apply nodupb_NoDup. vm_compute. reflexivity.
  - simpl. left. reflexivity.
  - vm_compute. reflexivity.
  - vm_compute. reflexivity.
Defined.

Lemma save_to_excel_keeps_header_rows_witness :
  exists wb', save_to_excel sample_format_dates (Some sample_workbook) sample_result = (true, Some wb')
    /\ exists ws' rest, get_sheet "MATCHED" wb' = Some ws'
       /\ ws' = (firstn 2 [[CText "Matched"]; [CText "GSTN"; CText "Invoice Number"];
                           [CText "24CCC"; CText "OLD1"]; [CText "24CCC"; CText "OLD2"]] ++ rest)%list.
Proof.
  exists (match snd (save_to_excel sample_format_dates (Some sample_workbook) sample_result) with
          | Some wb => wb | None => [] end).
  split; [vm_compute; reflexivity|].
  apply (save_to_excel_keeps_header_rows sample_format_dates sample_workbook _ sample_result "MATCHED").
  - apply nodupb_NoDup. vm_compute. reflexivity.
  - vm_compute. reflexivity.
  - vm_compute. reflexivity.
Defined.

Lemma save_to_excel_fails_when_cleaning_raises_witness :
  In ("NOTINBOOKS", Some sample_clash) sample_failing_result
  /\ table_empty sample_clash = false
  /\ clean_columns sample_format_dates sample_clash "NOTINBOOKS" = None
  /\ save_to_excel sample_format_dates (Some sample_workbook) sample_failing_result
     = (false, Some sample_workbook).
Proof.
  assert (H1 : In ("NOTINBOOKS", Some sample_clash) sample_failing_result)
    by (simpl; right; left; reflexivity).
  assert (H2 : table_empty sample_clash = false) by (vm_compute; reflexivity).
  assert (H3 : clean_columns sample_format_dates sample_clash "NOTINBOOKS" = None)
    by (vm_compute; reflexivity).
  split; [exact H1|]. split; [exact H2|]. split; [exact H3|].
  exact (save_to_excel_fails_when_cleaning_raises sample_format_dates sample_workbook
           sample_failing_result "NOTINBOOKS" sample_clash H1 H2 H3).
Defined.
